(** * 3DModelAnalyzer: geometric feature extraction and rule validation

    A shallow embedding of the analysis engine of the STL analyzer page
    ([buildEdgeMap], [calculateFaceNormals], the six [analyze*] functions,
    [analyzeSTLGeometry] and [validateModel]) and the properties of it that
    the design document states.

    Conventions of the embedding:
    - a JavaScript number is a binary64 [float]; [<?], [<=?] and [=?] are the
      IEEE comparisons that JavaScript's [<], [<=] and [===] perform;
    - a counter the code only increments from 0 is an [N]; it becomes a number
      through [numOfN] when it is stored in a result record, and
      [Math.floor (c / k)] on such a counter is [N.div];
    - the position attribute is the list of its points; reading it past its
      end yields a vector whose three components are [undefined], which
      arithmetic turns into NaN and on which a property access throws a
      [TypeError];
    - a JavaScript [Map] is an association list in insertion order;
    - code that can throw returns an [outcome]. *)

From Stdlib Require Import ZArith NArith List String Ascii Floats Bool Lia.
From Stdlib Require Import DecimalString Sorted.
Import ListNotations.
Set Warnings "-inexact-float".
Local Open Scope string_scope.

(** ** JavaScript numbers *)

(** The number an integer is; exact below 2^53 in magnitude, as counts of
    points, triangles and edges are. *)
Definition numOfZ (z : Z) : float :=
  if (z <? 0)%Z then (- of_uint63 (Uint63.of_Z (- z)))%float
  else of_uint63 (Uint63.of_Z z).

Definition numOfN (n : N) : float := numOfZ (Z.of_N n).

Definition is_neg_zero (x : float) : bool := PrimFloat.Leibniz.eqb x neg_zero.
Definition is_pos_zero (x : float) : bool := PrimFloat.Leibniz.eqb x zero.

(** One step of [Math.min]: NaN is absorbing and -0 is below +0. *)
Definition Math_min_step (lowest number : float) : float :=
  if is_nan lowest || is_nan number then nan
  else if is_neg_zero number && is_pos_zero lowest then number
  else if (number <? lowest)%float then number
  else lowest.

Definition Math_min (numbers : list float) : float :=
  fold_left Math_min_step numbers infinity.

Definition Math_max_step (highest number : float) : float :=
  if is_nan highest || is_nan number then nan
  else if is_pos_zero number && is_neg_zero highest then number
  else if (highest <? number)%float then number
  else highest.

Definition Math_max (numbers : list float) : float :=
  fold_left Math_max_step numbers neg_infinity.

Definition Math_PI : float := 3.141592653589793%float.

(** [Math.round]: the nearest integer, a tie going up. *)
Definition Math_round (x : float) : float :=
  match Prim2SF x with
  | S754_finite s m e =>
      if (0 <=? e)%Z then x
      else
        let sm := if s then Z.neg m else Z.pos m in
        let r := ((2 * sm + 2 ^ (- e)) / 2 ^ (1 - e))%Z in
        if (r =? 0)%Z then (if s then neg_zero else zero) else numOfZ r
  | _ => x
  end.

(** The array index that [Math.floor x] denotes, when it denotes one. *)
Definition floor_index (x : float) : option N :=
  match Prim2SF x with
  | S754_zero _ => Some 0%N
  | S754_finite false m e => Some (Z.to_N (Z.shiftl (Z.pos m) e))
  | _ => None
  end.

(** [a || b] on numbers: 0, -0 and NaN are falsy. *)
Definition js_or (a b : float) : float :=
  if (a =? 0)%float || is_nan a then b else a.

(** [samples[k] || 0]: a missing element is [undefined], which is falsy. *)
Definition js_or_undefined (a : option float) (b : float) : float :=
  match a with Some v => js_or v b | None => b end.

(** ** Numbers to strings *)

Definition digits (n : N) : string := NilEmpty.string_of_uint (N.to_uint n).

Fixpoint zeros (k : nat) : string :=
  match k with O => EmptyString | S k => String "0" (zeros k) end.

(** The integer [n] for which [n / 10^f - |x|] is closest to zero, the larger
    one of two. *)
Definition scaled_round (x : float) (f : N) : N :=
  match Prim2SF x with
  | S754_finite _ m e =>
      let p := (Z.pos m * 10 ^ Z.of_N f)%Z in
      Z.to_N (if (0 <=? e)%Z then p * 2 ^ e
              else (2 * p + 2 ^ (- e)) / 2 ^ (1 - e))%Z
  | _ => 0%N
  end.

Definition fixed_digits (n f : N) : string :=
  let m := digits n in
  if (f =? 0)%N then m
  else
    let fd := N.to_nat f in
    let m := if (String.length m <=? fd)%nat
             then zeros (fd + 1 - String.length m) ++ m else m in
    let k := String.length m in
    substring 0 (k - fd) m ++ "." ++ substring (k - fd) fd m.

(** The integer a finite number is, when it is one. *)
Definition integer_value (x : float) : option Z :=
  match Prim2SF x with
  | S754_zero _ => Some 0%Z
  | S754_finite s m e =>
      let sg := fun v => if s then Z.opp v else v in
      if (0 <=? e)%Z then Some (sg (Z.pos m * 2 ^ e)%Z)
      else if (Z.pos m mod 2 ^ (- e) =? 0)%Z then Some (sg (Z.pos m / 2 ^ (- e))%Z)
      else None
  | _ => None
  end.

(** ** The host: the built-ins the engine calls

    ECMAScript leaves [Math.acos] and [Math.sin] implementation-approximated,
    [Math.random] is the run's source of randomness, and the formatting of
    numbers is built in as well ([toLocaleString] depends on the locale), so
    the embedding takes them from the host.  Every theorem below holds for
    every host. *)

Class Host : Type := {
  Math_acos : float -> float;
  Math_sin : float -> float;
  (** the value the [k]-th call of [Math.random()] returns during one run *)
  Math_random : N -> float;
  (** [x.toFixed(f)] *)
  toFixed : float -> N -> string;
  (** the string a template literal substitutes for a number *)
  Number_toString : float -> string;
  toLocaleString : float -> string
}.

(** A host to run the engine on concrete meshes: sine and cosine by their
    series, the arc cosine by bisection, a fixed sequence for [Math.random],
    and [toFixed] computed exactly from the binary value.  [toString] prints
    integers below 1e21 and decimals that read back with up to 20 places as
    ECMAScript does; it has no exponent notation, which ECMAScript uses
    from 1e21 on and below 1e-6. *)
Module Reference.

(** [acc] plus [n] more terms of the alternating series whose current term
    is [term = (+/-) x^k / k!]. *)
Fixpoint series (n : nat) (k term x2 acc : float) : float :=
  match n with
  | O => acc
  | S n' =>
      let term' := (- term * x2 / ((k + 1) * (k + 2)))%float in
      series n' (k + 2)%float term' x2 (acc + term')%float
  end.

Definition sin (x : float) : float := series 14 1 x (x * x) x.
Definition cos (x : float) : float := series 14 0 1 (x * x) 1.

Fixpoint acos_bisect (n : nat) (lo hi x : float) : float :=
  let mid := ((lo + hi) / 2)%float in
  match n with
  | O => mid
  | S n' =>
      if (x <? cos mid)%float then acos_bisect n' mid hi x
      else acos_bisect n' lo mid x
  end.

Definition acos (x : float) : float :=
  if is_nan x || (1 <? abs x)%float then nan
  else if (x =? 1)%float then 0%float
  else if (x =? -1)%float then Math_PI
  else if (x =? 0)%float then (Math_PI / 2)%float
  else acos_bisect 60 0 Math_PI x.

Definition random (k : N) : float :=
  (numOfN ((k * 37 + 11) mod 100) / 100)%float.

(** The fewest decimals [p <= 20] with which [|x|] reads back exactly. *)
Fixpoint shortest_from (fuel : nat) (p : N) (ax : float) : string :=
  let n := scaled_round ax p in
  match fuel with
  | O => fixed_digits n p
  | S fuel' =>
      if ((numOfN n / numOfN (10 ^ p)) =? ax)%float then fixed_digits n p
      else shortest_from fuel' (p + 1) ax
  end.

Definition toString (x : float) : string :=
  if is_nan x then "NaN"
  else if (x =? infinity)%float then "Infinity"
  else if (x =? neg_infinity)%float then "-Infinity"
  else
    (if (x <? 0)%float then "-" else EmptyString) ++
    match integer_value (abs x) with
    | Some v => digits (Z.to_N v)
    | None => shortest_from 20 1 (abs x)
    end.

Definition toFixed (x : float) (f : N) : string :=
  if is_nan x then "NaN"
  else if (x =? infinity)%float then "Infinity"
  else if (x =? neg_infinity)%float then "-Infinity"
  else
    let s := if (x <? 0)%float then "-" else EmptyString in
    let ax := abs x in
    if (1e21 <=? ax)%float then s ++ toString ax
    else s ++ fixed_digits (scaled_round ax f) f.

Definition host : Host :=
  Build_Host acos sin random toFixed toString toString.

End Reference.

(** ** Errors *)

Inductive exn : Type := TypeError.

Inductive outcome (A : Type) : Type :=
| Ok (a : A)
| Throw (e : exn).
Arguments Ok {A} a.
Arguments Throw {A} e.

Definition bind {A B : Type} (c : outcome A) (k : A -> outcome B) : outcome B :=
  match c with
  | Ok a => k a
  | Throw e => Throw e
  end.

Notation "x <- c ;; k" := (bind c (fun x => k))
  (at level 61, c at next level, right associativity).

(** A loop over [l] that threads the state [s] and stops at the first throw. *)
Fixpoint foldM {S A : Type} (body : S -> A -> outcome S) (l : list A) (s : S)
  : outcome S :=
  match l with
  | [] => Ok s
  | a :: l' => s' <- body s a ;; foldM body l' s'
  end.

(** [arr[i]] followed by a property access: [undefined] throws. *)
Definition element {A : Type} (arr : list A) (i : N) : outcome A :=
  match nth_error arr (N.to_nat i) with
  | Some a => Ok a
  | None => Throw TypeError
  end.

(** The values [i] takes in [for (let i = 0; i < c / 3; i += stride)] for a
    point count [c]: the multiples [k * stride] with [3 * (k * stride) < c]. *)
Definition for_indices (c stride : N) : list N :=
  map (fun k => (N.of_nat k * stride)%N)
      (seq 0 (N.to_nat ((c + 3 * stride - 1) / (3 * stride)))).

(** ** three.js vectors, boxes and buffer attributes *)

Module Vector3.

Record t : Type := new { x : float; y : float; z : float }.

Definition undefined_as_number : t := new nan nan nan.

Definition subVectors (a b : t) : t :=
  new (x a - x b) (y a - y b) (z a - z b).

Definition addVectors (a b : t) : t :=
  new (x a + x b) (y a + y b) (z a + z b).

Definition multiplyScalar (v : t) (s : float) : t :=
  new (x v * s) (y v * s) (z v * s).

Definition divideScalar (v : t) (s : float) : t := multiplyScalar v (1 / s).

Definition negate (v : t) : t := new (- x v) (- y v) (- z v).

Definition crossVectors (a b : t) : t :=
  new (y a * z b - z a * y b) (z a * x b - x a * z b) (x a * y b - y a * x b).

Definition dot (a b : t) : float := x a * x b + y a * y b + z a * z b.

Definition length (v : t) : float := sqrt (x v * x v + y v * y v + z v * z v).

Definition normalize (v : t) : t := divideScalar v (js_or (length v) 1).

Definition distanceTo (a b : t) : float :=
  let dx := (x a - x b)%float in
  let dy := (y a - y b)%float in
  let dz := (z a - z b)%float in
  sqrt (dx * dx + dy * dy + dz * dz).

Definition min (a b : t) : t :=
  new (Math_min [x a; x b]) (Math_min [y a; y b]) (Math_min [z a; z b]).

Definition max (a b : t) : t :=
  new (Math_max [x a; x b]) (Math_max [y a; y b]) (Math_max [z a; z b]).

End Vector3.

Definition BufferAttribute : Type := list Vector3.t.

Definition count (positions : BufferAttribute) : N :=
  N.of_nat (List.length positions).

(** [new THREE.Vector3().fromBufferAttribute(positions, i)]: [None] is the
    vector of three [undefined] components that an index past the end gives. *)
Definition fromBufferAttribute (positions : BufferAttribute) (i : N)
  : option Vector3.t :=
  nth_error positions (N.to_nat i).

Definition numeric (v : option Vector3.t) : Vector3.t :=
  match v with
  | Some p => p
  | None => Vector3.undefined_as_number
  end.

Definition point (positions : BufferAttribute) (i : N) : Vector3.t :=
  numeric (fromBufferAttribute positions i).

Module Box3.

Record t : Type := new { min : Vector3.t; max : Vector3.t }.

Definition makeEmpty : t :=
  new (Vector3.new infinity infinity infinity)
      (Vector3.new neg_infinity neg_infinity neg_infinity).

Definition expandByPoint (b : t) (p : Vector3.t) : t :=
  new (Vector3.min (min b) p) (Vector3.max (max b) p).

Definition setFromBufferAttribute (positions : BufferAttribute) : t :=
  fold_left expandByPoint positions makeEmpty.

Definition isEmpty (b : t) : bool :=
  (Vector3.x (max b) <? Vector3.x (min b))%float
  || (Vector3.y (max b) <? Vector3.y (min b))%float
  || (Vector3.z (max b) <? Vector3.z (min b))%float.

Definition getSize (b : t) : Vector3.t :=
  if isEmpty b then Vector3.new 0 0 0
  else Vector3.subVectors (max b) (min b).

Definition getCenter (b : t) : Vector3.t :=
  if isEmpty b then Vector3.new 0 0 0
  else Vector3.multiplyScalar (Vector3.addVectors (min b) (max b)) 0.5.

End Box3.

(** [geometry.computeBoundingBox()]. *)
Definition computeBoundingBox (positions : BufferAttribute) : Box3.t :=
  Box3.setFromBufferAttribute positions.

(** ** Maps with string keys, in insertion order *)

Fixpoint Map_get {V : Type} (key : string) (m : list (string * V)) : option V :=
  match m with
  | [] => None
  | (k, v) :: m' => if String.eqb k key then Some v else Map_get key m'
  end.

Definition Map_has {V : Type} (key : string) (m : list (string * V)) : bool :=
  match Map_get key m with Some _ => true | None => false end.

Fixpoint Map_set {V : Type} (key : string) (v : V) (m : list (string * V))
  : list (string * V) :=
  match m with
  | [] => [(key, v)]
  | (k, w) :: m' =>
      if String.eqb k key then (k, v) :: m' else (k, w) :: Map_set key v m'
  end.

(** ** Data model *)

Module Dimensions.
Record t : Type := new { length : float; width : float; height : float }.
End Dimensions.

Inductive Severity : Type := error | warning | info.

(** [details] and [severity] are optional properties of the interface. *)
Record ValidationResult : Type := {
  name : string;
  passed : bool;
  message : string;
  details : option string;
  severity : option Severity
}.

Record EdgeAnalysis : Type := {
  totalEdges : float;
  sharpEdges : float;
  sharpEdgeAngles : list float;
  estimatedMinCurvatureRadius : float;
  tJunctionCount : float
}.

Record CavityAnalysis : Type := {
  potentialCavities : float;
  boundaryLoops : float;
  estimatedHoleDepths : list float;
  blindHoleCount : float;
  throughHoleCount : float
}.

Record ChannelAnalysis : Type := {
  potentialChannels : float;
  estimatedDiameters : list float;
  estimatedDepths : list float;
  straightChannels : float;
  curvedChannels : float
}.

Record SurfaceFeatureAnalysis : Type := {
  heightVariations : list float;
  potentialReliefs : float;
  potentialEngravings : float;
  minFeatureWidth : float;
  maxFeatureHeight : float
}.

Record WallThicknessAnalysis : Type := {
  minThickness : float;
  maxThickness : float;
  avgThickness : float;
  samples : list float;
  thinAreas : float
}.

Record GeometricComplexity : Type := {
  triangleDensity : float;
  surfaceCurvatureVariance : float;
  componentCount : float;
  genus : float;
  hasFlatBase : bool;
  flatBaseArea : float;
  flatBaseNormal : option Vector3.t
}.

Record ModelData : Type := {
  geometry : BufferAttribute;
  dimensions : Dimensions.t;
  volume : float;
  surfaceArea : float;
  triangleCount : float;
  vertexCount : float;
  edgeCount : float;
  boundingBox : Box3.t;
  normalDistribution : Vector3.t;
  edgeAnalysis : EdgeAnalysis;
  cavityAnalysis : CavityAnalysis;
  channelAnalysis : ChannelAnalysis;
  surfaceFeatures : SurfaceFeatureAnalysis;
  wallThickness : WallThicknessAnalysis;
  geometricComplexity : GeometricComplexity
}.

(** An entry of [channelSpecs]: it has a [maxDepth] or a
    [minCurvatureRadius]. *)
Module ChannelSpec.
Record t : Type := new {
  diameterRange : float * float;
  maxDepth : option float;
  minCurvatureRadius : option float
}.
End ChannelSpec.

Module GUIDELINES.
Definition maxDimensions : Dimensions.t := Dimensions.new 50 80 40.
Module wallThickness.
Definition min : float := 1.
Definition max : float := 15.
End wallThickness.
Definition minGap : float := 1.
Definition aspectRatioMax : float := 10.
Definition aspectRatioRecommended : float := 5.
Definition minCurvatureRadius : float := 0.5.
Definition minTJunctionRadius : float := 2.
Definition minCavityWidth : float := 0.4.
Module cavityDepthRatio.
Definition min : float := 2.
Definition max : float := 4.
End cavityDepthRatio.
Definition channelSpecs : list ChannelSpec.t :=
  [ ChannelSpec.new (1, 3)%float (Some 10%float) None;
    ChannelSpec.new (3, 5)%float (Some 30%float) None;
    ChannelSpec.new (5, infinity)%float None (Some 25%float) ].
Definition minCharacterHeight : float := 4.
Definition minLineWidth : float := 0.5.
Definition minThreadSize : float := 10.
Definition hollowWallThickness : float := 1.2.
Module drainHoleDiameter.
Definition min : float := 2.
Definition recommended : float := 4.
End drainHoleDiameter.
End GUIDELINES.

(** An entry of the edge map. *)
Record Edge : Type := {
  faces : list N;
  vertices : Vector3.t * Vector3.t
}.

Definition EdgeMap : Type := list (string * Edge).

(** An entry of the map of normal bins. *)
Module NormalBin.
Record t : Type := new { area : float; normal : Vector3.t }.
End NormalBin.

(** ** The engine *)

Section Engine.

Context {host : Host}.

Definition pointKey (v : Vector3.t) : string :=
  toFixed (Vector3.x v) 4 ++ "," ++ toFixed (Vector3.y v) 4 ++ ","
  ++ toFixed (Vector3.z v) 4.

(** [makeEdgeKey]: [.toFixed] on an [undefined] component throws. *)
Definition makeEdgeKey (v1 v2 : option Vector3.t) : outcome string :=
  match v1, v2 with
  | Some a, Some b =>
      let key1 := pointKey a in
      let key2 := pointKey b in
      Ok (if String.ltb key1 key2 then key1 ++ "-" ++ key2
          else key2 ++ "-" ++ key1)
  | _, _ => Throw TypeError
  end.

(** The three edges of triangle [i], in the order the code visits them. *)
Definition triangleEdges (positions : BufferAttribute) (i : N)
  : list (option Vector3.t * option Vector3.t) :=
  let v0 := fromBufferAttribute positions (i * 3) in
  let v1 := fromBufferAttribute positions (i * 3 + 1) in
  let v2 := fromBufferAttribute positions (i * 3 + 2) in
  [(v0, v1); (v1, v2); (v2, v0)].

(** The body of the inner loop of [buildEdgeMap]. *)
Definition addEdge (i : N) (edgeMap : EdgeMap)
  (e : option Vector3.t * option Vector3.t) : outcome EdgeMap :=
  let (va, vb) := e in
  key <- makeEdgeKey va vb ;;
  let edgeMap :=
    if negb (Map_has key edgeMap)
    then Map_set key {| faces := []; vertices := (numeric va, numeric vb) |}
                 edgeMap
    else edgeMap in
  match Map_get key edgeMap with
  | Some edge =>
      Ok (Map_set key {| faces := (faces edge ++ [i])%list;
                         vertices := vertices edge |} edgeMap)
  | None => Throw TypeError
  end.

Definition buildEdgeMap (positions : BufferAttribute) : outcome EdgeMap :=
  foldM (fun edgeMap i => foldM (addEdge i) (triangleEdges positions i) edgeMap)
        (for_indices (count positions) 1) [].

Definition calculateFaceNormals (positions : BufferAttribute)
  : list Vector3.t :=
  map (fun i =>
         let v0 := point positions (i * 3) in
         let v1 := point positions (i * 3 + 1) in
         let v2 := point positions (i * 3 + 2) in
         let edge1 := Vector3.subVectors v1 v0 in
         let edge2 := Vector3.subVectors v2 v0 in
         Vector3.normalize (Vector3.crossVectors edge1 edge2))
      (for_indices (count positions) 1).

(** The variables [analyzeEdges] updates while it walks the edge map. *)
Record EdgeScan : Type := {
  scan_sharpEdges : N;
  scan_sharpEdgeAngles : list float;
  scan_tJunctionCount : N;
  scan_minCurvatureRadius : float
}.

(** The callback of [edgeMap.forEach] in [analyzeEdges]. *)
Definition scanEdge (faceNormals : list Vector3.t) (st : EdgeScan)
  (entry : string * Edge) : outcome EdgeScan :=
  let edge := snd entry in
  let st :=
    if (3 <=? List.length (faces edge))%nat
    then {| scan_sharpEdges := scan_sharpEdges st;
            scan_sharpEdgeAngles := scan_sharpEdgeAngles st;
            scan_tJunctionCount := scan_tJunctionCount st + 1;
            scan_minCurvatureRadius := scan_minCurvatureRadius st |}
    else st in
  match faces edge with
  | [f0; f1] =>
      n1 <- element faceNormals f0 ;;
      n2 <- element faceNormals f1 ;;
      let dotProduct := Vector3.dot n1 n2 in
      let angle :=
        (Math_acos (Math_min [1; Math_max [-1; dotProduct]])
         * (180 / Math_PI))%float in
      let dihedralAngle := (180 - angle)%float in
      if (dihedralAngle <? 90)%float then
        let edgeLength :=
          Vector3.distanceTo (fst (vertices edge)) (snd (vertices edge)) in
        let estimatedRadius :=
          (edgeLength
           / (2 * Math_sin ((90 - dihedralAngle) * Math_PI / 360)))%float in
        Ok {| scan_sharpEdges := scan_sharpEdges st + 1;
              scan_sharpEdgeAngles :=
                (scan_sharpEdgeAngles st ++ [dihedralAngle])%list;
              scan_tJunctionCount := scan_tJunctionCount st;
              scan_minCurvatureRadius :=
                Math_min [scan_minCurvatureRadius st; estimatedRadius] |}
      else Ok st
  | _ => Ok st
  end.

Definition analyzeEdges (positions : BufferAttribute)
  (faceNormals : list Vector3.t) : outcome EdgeAnalysis :=
  edgeMap <- buildEdgeMap positions ;;
  st <- foldM (scanEdge faceNormals) edgeMap
          {| scan_sharpEdges := 0; scan_sharpEdgeAngles := [];
             scan_tJunctionCount := 0; scan_minCurvatureRadius := infinity |} ;;
  Ok {| totalEdges := numOfN (N.of_nat (List.length edgeMap));
        sharpEdges := numOfN (scan_sharpEdges st);
        sharpEdgeAngles := scan_sharpEdgeAngles st;
        estimatedMinCurvatureRadius :=
          if (scan_minCurvatureRadius st =? infinity)%float then 0%float
          else scan_minCurvatureRadius st;
        tJunctionCount := numOfN (scan_tJunctionCount st) |}.

(** The number of edges with exactly one incident face. *)
Definition countBoundaryEdges (edgeMap : EdgeMap) : N :=
  fold_left (fun boundaryEdges entry =>
               if (List.length (faces (snd entry)) =? 1)%nat
               then (boundaryEdges + 1)%N else boundaryEdges)
            edgeMap 0%N.

(** The test of the concave-region loop of [analyzeCavities] on triangle [i]. *)
Definition pointsInward (positions : BufferAttribute) (boundingBox : Box3.t)
  (normal : Vector3.t) (i : N) : bool :=
  let v0 := point positions (i * 3) in
  let centroid :=
    Vector3.divideScalar
      (Vector3.addVectors (Vector3.addVectors v0 (point positions (i * 3 + 1)))
                          (point positions (i * 3 + 2)))
      3 in
  let boxCenter := Box3.getCenter boundingBox in
  let toCenter := Vector3.normalize (Vector3.subVectors boxCenter centroid) in
  (0.7 <? Vector3.dot normal toCenter)%float.

Definition countConcaveRegions (positions : BufferAttribute)
  (faceNormals : list Vector3.t) (boundingBox : Box3.t) : outcome N :=
  foldM (fun concaveRegions i =>
           normal <- element faceNormals i ;;
           Ok (if pointsInward positions boundingBox normal i
               then (concaveRegions + 1)%N else concaveRegions))
        (for_indices (count positions) 1) 0%N.

Definition analyzeCavities (positions : BufferAttribute)
  (faceNormals : list Vector3.t) (boundingBox : Box3.t)
  : outcome CavityAnalysis :=
  edgeMap <- buildEdgeMap positions ;;
  let boundaryEdges := countBoundaryEdges edgeMap in
  concaveRegions <- countConcaveRegions positions faceNormals boundingBox ;;
  let size := Box3.getSize boundingBox in
  let estimatedHoleDepths :=
    if (0 <? concaveRegions)%N
    then [(Math_min [Vector3.x size; Vector3.y size; Vector3.z size] * 0.3)%float]
    else [] in
  Ok {| potentialCavities := numOfN (concaveRegions / 10);
        boundaryLoops := numOfN (boundaryEdges / 3);
        estimatedHoleDepths := estimatedHoleDepths;
        blindHoleCount := numOfN (boundaryEdges / 6);
        throughHoleCount := numOfN (boundaryEdges / 12) |}.

(** The sampling loop of [analyzeChannels]: every 10th triangle. *)
Definition countTubularRegions (positions : BufferAttribute)
  (faceNormals : list Vector3.t) : outcome N :=
  foldM (fun tubularRegions i =>
           normal <- element faceNormals i ;;
           let horizontalComponent :=
             sqrt (Vector3.x normal * Vector3.x normal
                   + Vector3.y normal * Vector3.y normal) in
           Ok (if (0.8 <? horizontalComponent)%float
                  && (abs (Vector3.z normal) <? 0.3)%float
               then (tubularRegions + 1)%N else tubularRegions))
        (for_indices (count positions) 10) 0%N.

Definition analyzeChannels (positions : BufferAttribute)
  (faceNormals : list Vector3.t) (boundingBox : Box3.t)
  : outcome ChannelAnalysis :=
  let size := Box3.getSize boundingBox in
  let normalVariance : list float := [] in
  tubularRegions <- countTubularRegions positions faceNormals ;;
  let estimatedDiameters :=
    if (5 <? tubularRegions)%N
    then [(Vector3.x size * 0.1)%float; (Vector3.y size * 0.1)%float] else [] in
  let estimatedDepths :=
    if (5 <? tubularRegions)%N then [(Vector3.z size * 0.5)%float] else [] in
  let '(straightTubes, curvedTubes) :=
    if (10 <? tubularRegions)%N
    then (if (0 <? List.length normalVariance)%nat
          then (0%float, 1%float) else (1%float, 0%float))
    else (0%float, 0%float) in
  Ok {| potentialChannels := numOfN (tubularRegions / 20);
        estimatedDiameters := estimatedDiameters;
        estimatedDepths := estimatedDepths;
        straightChannels := straightTubes;
        curvedChannels := curvedTubes |}.

(** The variables the first loop of [analyzeSurfaceFeatures] updates. *)
Record HeightScan : Type := {
  scan_prevHeight : float;
  scan_heightVariations : list float;
  scan_reliefCount : N;
  scan_engravingCount : N;
  scan_maxHeight : float
}.

Definition scanHeight (positions : BufferAttribute) (st : HeightScan) (i : N)
  : HeightScan :=
  let v := point positions (i * 3) in
  let height := Vector3.z v in
  let prevHeight := scan_prevHeight st in
  let variation := abs (height - prevHeight) in
  if (0.1 <? variation)%float then
    let heightVariations := (scan_heightVariations st ++ [variation])%list in
    if (GUIDELINES.minCharacterHeight * 0.5 <? variation)%float then
      {| scan_prevHeight := height;
         scan_heightVariations := heightVariations;
         scan_reliefCount :=
           if (prevHeight <? height)%float then scan_reliefCount st + 1
           else scan_reliefCount st;
         scan_engravingCount :=
           if (prevHeight <? height)%float then scan_engravingCount st
           else scan_engravingCount st + 1;
         scan_maxHeight := Math_max [scan_maxHeight st; variation] |}
    else
      {| scan_prevHeight := height;
         scan_heightVariations := heightVariations;
         scan_reliefCount := scan_reliefCount st;
         scan_engravingCount := scan_engravingCount st;
         scan_maxHeight := scan_maxHeight st |}
  else
    {| scan_prevHeight := height;
       scan_heightVariations := scan_heightVariations st;
       scan_reliefCount := scan_reliefCount st;
       scan_engravingCount := scan_engravingCount st;
       scan_maxHeight := scan_maxHeight st |}.

Definition analyzeSurfaceFeatures (positions : BufferAttribute)
  (boundingBox : Box3.t) : SurfaceFeatureAnalysis :=
  let st :=
    fold_left (scanHeight positions)
              (for_indices (N.min (count positions) 3000) 3)
              {| scan_prevHeight := 0; scan_heightVariations := [];
                 scan_reliefCount := 0; scan_engravingCount := 0;
                 scan_maxHeight := 0 |} in
  let minWidth :=
    fold_left (fun minWidth i =>
                 let v0 := point positions (i * 3) in
                 let v1 := point positions (i * 3 + 1) in
                 let edgeLength := Vector3.distanceTo v0 v1 in
                 if (0.01 <? edgeLength)%float
                 then Math_min [minWidth; edgeLength] else minWidth)
              (for_indices (N.min (count positions) 1500) 1) infinity in
  {| heightVariations := scan_heightVariations st;
     potentialReliefs := numOfN (scan_reliefCount st / 5);
     potentialEngravings := numOfN (scan_engravingCount st / 5);
     minFeatureWidth := if (minWidth =? infinity)%float then 0%float else minWidth;
     maxFeatureHeight := scan_maxHeight st |}.

(** [Array.prototype.sort] with a comparator, as the stable insertion sort:
    [v] goes before the first element that the comparator puts after it.  On
    a comparator that is not consistent (NaN among the numbers) ECMAScript
    leaves the order to the implementation, and this is one. *)
Fixpoint sort_insert (compareFn : float -> float -> float) (v : float)
  (sorted : list float) : list float :=
  match sorted with
  | [] => [v]
  | w :: rest =>
      if (0 <? compareFn w v)%float then v :: w :: rest
      else w :: sort_insert compareFn v rest
  end.

Definition Array_sort (compareFn : float -> float -> float) (l : list float)
  : list float :=
  fold_left (fun sorted v => sort_insert compareFn v sorted) l [].

Definition centroidOf (positions : BufferAttribute) (i : N) : Vector3.t :=
  let v0 := point positions (i * 3) in
  let v1 := point positions (i * 3 + 1) in
  let v2 := point positions (i * 3 + 2) in
  Vector3.divideScalar (Vector3.addVectors (Vector3.addVectors v0 v1) v2) 3.

(** One sample of [analyzeWallThickness]: the distance from triangle
    [triIndex] to the nearest sampled triangle that faces the other way. *)
Definition nearestOpposite (positions : BufferAttribute)
  (faceNormals : list Vector3.t) (triIndex : N) : outcome float :=
  let centroid := centroidOf positions triIndex in
  normal <- element faceNormals triIndex ;;
  foldM (fun minDist i =>
           if (i =? triIndex)%N then Ok minDist
           else
             checkNormal <- element faceNormals i ;;
             if (-0.5 <? Vector3.dot normal checkNormal)%float then Ok minDist
             else
               let checkCentroid := centroidOf positions i in
               let dist := Vector3.distanceTo centroid checkCentroid in
               Ok (if (dist <? minDist)%float && (0.1 <? dist)%float
                   then dist else minDist))
        (for_indices (count positions) 5) infinity.

Definition analyzeWallThickness (positions : BufferAttribute)
  (faceNormals : list Vector3.t) (boundingBox : Box3.t)
  : outcome WallThicknessAnalysis :=
  let triangleCount := (numOfN (count positions) / 3)%float in
  let sampleCount := N.min 100 (count positions / 30) in
  samples <-
    foldM (fun samples s =>
             match floor_index (Math_random (N.of_nat s) * triangleCount) with
             | Some triIndex =>
                 minDist <- nearestOpposite positions faceNormals triIndex ;;
                 Ok (if (minDist <? infinity)%float && (0 <? minDist)%float
                     then (samples ++ [minDist])%list else samples)
             | None => Throw TypeError
             end)
          (seq 0 (N.to_nat sampleCount)) [] ;;
  let samples :=
    match samples with
    | [] =>
        let size := Box3.getSize boundingBox in
        [(Math_min [Vector3.x size; Vector3.y size; Vector3.z size] * 0.1)%float]
    | _ => samples
    end in
  let samples := Array_sort (fun a b => (a - b)%float) samples in
  Ok {| minThickness := js_or_undefined (nth_error samples 0) 0;
        maxThickness :=
          js_or_undefined (nth_error samples (List.length samples - 1)) 0;
        avgThickness :=
          (fold_left (fun a b => a + b) samples 0
           / numOfN (N.of_nat (List.length samples)))%float;
        samples := samples;
        thinAreas :=
          numOfN (N.of_nat (List.length
            (filter (fun s => (s <? GUIDELINES.wallThickness.min)%float)
                    samples))) |}.

(** The sums of the curvature loop of [analyzeGeometricComplexity], which
    pairs each normal with the one before it. *)
Fixpoint curvatureSums (prev : Vector3.t) (rest : list Vector3.t)
  (sums : float * float) : float * float :=
  match rest with
  | [] => sums
  | n :: rest' =>
      let angleDiff := (1 - Vector3.dot n prev)%float in
      curvatureSums n rest'
        ((fst sums + angleDiff)%float, (snd sums + angleDiff * angleDiff)%float)
  end.

Definition binNormals (positions : BufferAttribute)
  (faceNormals : list Vector3.t) : outcome (list (string * NormalBin.t)) :=
  foldM (fun normalBins i =>
           normal <- element faceNormals i ;;
           let binKey :=
             Number_toString (Math_round (Vector3.x normal * 10)) ++ ","
             ++ Number_toString (Math_round (Vector3.y normal * 10)) ++ ","
             ++ Number_toString (Math_round (Vector3.z normal * 10)) in
           let v0 := point positions (i * 3) in
           let v1 := point positions (i * 3 + 1) in
           let v2 := point positions (i * 3 + 2) in
           let edge1 := Vector3.subVectors v1 v0 in
           let edge2 := Vector3.subVectors v2 v0 in
           let triArea :=
             (Vector3.length (Vector3.crossVectors edge1 edge2) * 0.5)%float in
           let normalBins :=
             if negb (Map_has binKey normalBins)
             then Map_set binKey (NormalBin.new 0 normal) normalBins
             else normalBins in
           match Map_get binKey normalBins with
           | Some bin =>
               Ok (Map_set binKey
                     (NormalBin.new (NormalBin.area bin + triArea)
                                    (NormalBin.normal bin))
                     normalBins)
           | None => Throw TypeError
           end)
        (for_indices (count positions) 1) [].

Definition analyzeGeometricComplexity (positions : BufferAttribute)
  (faceNormals : list Vector3.t) (boundingBox : Box3.t) (surfaceArea : float)
  : outcome GeometricComplexity :=
  let triangleCount := (numOfN (count positions) / 3)%float in
  let triangleDensity := (triangleCount / surfaceArea)%float in
  let '(curvatureSum, curvatureSqSum) :=
    match faceNormals with
    | [] => (0%float, 0%float)
    | n0 :: rest => curvatureSums n0 rest (0%float, 0%float)
    end in
  let normalsLength := numOfN (N.of_nat (List.length faceNormals)) in
  let avgCurvature := (curvatureSum / normalsLength)%float in
  let curvatureVariance :=
    (curvatureSqSum / normalsLength - avgCurvature * avgCurvature)%float in
  normalBins <- binNormals positions faceNormals ;;
  let '(flatBaseArea, flatBaseNormal, hasFlatBase) :=
    fold_left
      (fun (st : float * option Vector3.t * bool) entry =>
         let bin := snd entry in
         if (fst (fst st) <? NormalBin.area bin)%float
            && ((Vector3.y (NormalBin.normal bin) <? -0.9)%float
                || (Vector3.z (NormalBin.normal bin) <? -0.9)%float)
         then (NormalBin.area bin, Some (NormalBin.normal bin), true)
         else st)
      normalBins (0%float, None, false) in
  edgeMap <- buildEdgeMap positions ;;
  let boundaryEdges := countBoundaryEdges edgeMap in
  let estimatedGenus := Z.max 0 (Z.of_N (boundaryEdges / 6) - 1) in
  Ok {| triangleDensity := triangleDensity;
        surfaceCurvatureVariance := curvatureVariance;
        componentCount := 1;
        genus := numOfZ estimatedGenus;
        hasFlatBase := hasFlatBase;
        flatBaseArea := flatBaseArea;
        flatBaseNormal := flatBaseNormal |}.

(** The variables the first loop of [analyzeSTLGeometry] updates. *)
Record BulkScan : Type := {
  scan_volume : float;
  scan_surfaceArea : float;
  scan_normalSum : Vector3.t
}.

(** The body of that loop on the triangle whose first point has index
    [t * 3]. *)
Definition scanTriangle (positions : BufferAttribute) (st : BulkScan) (t : N)
  : BulkScan :=
  let i := (t * 3)%N in
  let pA := point positions i in
  let pB := point positions (i + 1) in
  let pC := point positions (i + 2) in
  let cb := Vector3.subVectors pC pB in
  let ab := Vector3.subVectors pA pB in
  let cross := Vector3.crossVectors cb ab in
  {| scan_volume :=
       (scan_volume st + Vector3.dot pA (Vector3.crossVectors pB pC) / 6)%float;
     scan_surfaceArea :=
       (scan_surfaceArea st + Vector3.length cross * 0.5)%float;
     scan_normalSum :=
       Vector3.addVectors (scan_normalSum st) (Vector3.normalize cross) |}.

Definition analyzeSTLGeometry (geometry : BufferAttribute) : outcome ModelData :=
  let boundingBox := computeBoundingBox geometry in
  let size := Box3.getSize boundingBox in
  let positions := geometry in
  let triangleCount := (numOfN (count positions) / 3)%float in
  let vertexCount := numOfN (count positions) in
  let st :=
    fold_left (scanTriangle positions) (for_indices (count positions) 1)
              {| scan_volume := 0; scan_surfaceArea := 0;
                 scan_normalSum := Vector3.new 0 0 0 |} in
  let volume := abs (scan_volume st) in
  let surfaceArea := scan_surfaceArea st in
  let normalSum := scan_normalSum st in
  let normalDistribution :=
    Vector3.new (abs (Vector3.x normalSum) / triangleCount)
                (abs (Vector3.y normalSum) / triangleCount)
                (abs (Vector3.z normalSum) / triangleCount) in
  let faceNormals := calculateFaceNormals positions in
  edgeMap <- buildEdgeMap positions ;;
  let edgeCount := numOfN (N.of_nat (List.length edgeMap)) in
  edgeAnalysis <- analyzeEdges positions faceNormals ;;
  cavityAnalysis <- analyzeCavities positions faceNormals boundingBox ;;
  channelAnalysis <- analyzeChannels positions faceNormals boundingBox ;;
  let surfaceFeatures := analyzeSurfaceFeatures positions boundingBox in
  wallThickness <- analyzeWallThickness positions faceNormals boundingBox ;;
  geometricComplexity <-
    analyzeGeometricComplexity positions faceNormals boundingBox surfaceArea ;;
  Ok {| geometry := geometry;
        dimensions := Dimensions.new (Vector3.x size) (Vector3.y size)
                                     (Vector3.z size);
        volume := volume;
        surfaceArea := surfaceArea;
        triangleCount := triangleCount;
        vertexCount := vertexCount;
        edgeCount := edgeCount;
        boundingBox := boundingBox;
        normalDistribution := normalDistribution;
        edgeAnalysis := edgeAnalysis;
        cavityAnalysis := cavityAnalysis;
        channelAnalysis := channelAnalysis;
        surfaceFeatures := surfaceFeatures;
        wallThickness := wallThickness;
        geometricComplexity := geometricComplexity |}.

(** [toleranceInfo.push] for one dimension, [label] being L, W or H. *)
Definition toleranceLine (label : string) (v : float) : string :=
  if (v <? 10)%float
  then label ++ ": ¬±0.1mm (" ++ toFixed v 2 ++ "mm < 10mm)"
  else label ++ ": ¬±" ++ toFixed (v * 0.01) 3 ++ "mm (1% di " ++ toFixed v 2
       ++ "mm)".

(** The callback of [estimatedDiameters.forEach] in check 6; the state is
    [channelOk] and [channelResults]. *)
Definition checkChannel (estimatedDepths : list float)
  (st : bool * list string) (di : float * nat) : bool * list string :=
  let (channelOk, channelResults) := st in
  let (d, i) := di in
  let depth := js_or_undefined (nth_error estimatedDepths i) 0 in
  if (1 <=? d)%float && (d <=? 3)%float && (10 <? depth)%float then
    let line := "Canale √ò" ++ toFixed d 1 ++ "mm: profondit√† "
                ++ toFixed depth 1 ++ "mm > 10mm max" in
    (false, (channelResults ++ [line])%list)
  else if (3 <? d)%float && (d <=? 5)%float && (30 <? depth)%float then
    let line := "Canale √ò" ++ toFixed d 1 ++ "mm: profondit√† "
                ++ toFixed depth 1 ++ "mm > 30mm max" in
    (false, (channelResults ++ [line])%list)
  else
    let line := "Canale √ò" ++ toFixed d 1 ++ "mm: conforme" in
    (channelOk, (channelResults ++ [line])%list).

Definition validateModel (data : ModelData) : list ValidationResult :=
  let length := Dimensions.length (dimensions data) in
  let width := Dimensions.width (dimensions data) in
  let height := Dimensions.height (dimensions data) in
  (* 1. Dimensioni massime *)
  let withinDimensions :=
    (length <=? Dimensions.length GUIDELINES.maxDimensions)%float
    && (width <=? Dimensions.width GUIDELINES.maxDimensions)%float
    && (height <=? Dimensions.height GUIDELINES.maxDimensions)%float in
  let r1 :=
    {| name := "Dimensioni Massime";
       passed := withinDimensions;
       severity := Some (if withinDimensions then info else error);
       message :=
         if withinDimensions
         then "Dimensioni OK: " ++ toFixed length 2 ++ " √ó " ++ toFixed width 2
              ++ " √ó " ++ toFixed height 2 ++ " mm"
         else "ERRORE: Dimensioni superano il limite di "
              ++ Number_toString (Dimensions.length GUIDELINES.maxDimensions)
              ++ " √ó "
              ++ Number_toString (Dimensions.width GUIDELINES.maxDimensions)
              ++ " √ó "
              ++ Number_toString (Dimensions.height GUIDELINES.maxDimensions)
              ++ " mm";
       details :=
         Some ("Dimensioni rilevate: L=" ++ toFixed length 3 ++ "mm, W="
               ++ toFixed width 3 ++ "mm, H=" ++ toFixed height 3
               ++ "mm. Limiti: 50mm √ó 80mm √ó 40mm.") |} in
  (* 2. Tolleranze *)
  let toleranceInfo :=
    [toleranceLine "L" length; toleranceLine "W" width;
     toleranceLine "H" height] in
  let r2 :=
    {| name := "Tolleranze Applicabili";
       passed := true;
       severity := Some info;
       message := "Tolleranze calcolate in base alle dimensioni";
       details := Some (String.concat " | " toleranceInfo) |} in
  (* 3. Aspect Ratio *)
  let dims := Array_sort (fun a b => (b - a)%float) [length; width; height] in
  let aspectRatio := (nth 0 dims nan / nth 2 dims nan)%float in
  let aspectOk := (aspectRatio <=? GUIDELINES.aspectRatioMax)%float in
  let aspectRecommended :=
    (aspectRatio <=? GUIDELINES.aspectRatioRecommended)%float in
  let r3 :=
    {| name := "Aspect Ratio";
       passed := aspectOk;
       severity :=
         Some (if aspectOk then (if aspectRecommended then info else warning)
               else error);
       message :=
         if aspectOk
         then (if aspectRecommended
               then "Ottimo: " ++ toFixed aspectRatio 2
                    ++ ":1 (‚â§5:1 consigliato)"
               else "Accettabile: " ++ toFixed aspectRatio 2
                    ++ ":1 (consigliato ‚â§5:1)")
         else "ERRORE: " ++ toFixed aspectRatio 2 ++ ":1 supera il massimo 10:1";
       details :=
         Some ("Dimensione maggiore: " ++ toFixed (nth 0 dims nan) 2
               ++ "mm, minore: " ++ toFixed (nth 2 dims nan) 2
               ++ "mm. Rapporto: " ++ toFixed aspectRatio 3 ++ ":1") |} in
  (* 4. Spigoli e Raccordi (Edge Analysis) *)
  let ea := edgeAnalysis data in
  let edgeOk :=
    (sharpEdges ea =? 0)%float
    && ((estimatedMinCurvatureRadius ea =? 0)%float
        || (GUIDELINES.minCurvatureRadius <=? estimatedMinCurvatureRadius ea)%float)
  in
  let tJunctionOk :=
    (tJunctionCount ea =? 0)%float
    || (GUIDELINES.minTJunctionRadius <=? estimatedMinCurvatureRadius ea)%float in
  let r4 :=
    {| name := "Spigoli e Raccordi";
       passed := edgeOk && tJunctionOk;
       severity := Some (if edgeOk && tJunctionOk then info else warning);
       message :=
         if (0 <? sharpEdges ea)%float
         then "ATTENZIONE: " ++ Number_toString (sharpEdges ea)
              ++ " spigoli vivi rilevati"
         else "Nessuno spigolo vivo rilevato";
       details :=
         Some ("Spigoli totali: " ++ toLocaleString (totalEdges ea)
               ++ ". Spigoli vivi (<90¬∞): " ++ Number_toString (sharpEdges ea)
               ++ ". Giunzioni a T: " ++ Number_toString (tJunctionCount ea)
               ++ ". Raggio curvatura min stimato: "
               ++ (if (0 <? estimatedMinCurvatureRadius ea)%float
                   then toFixed (estimatedMinCurvatureRadius ea) 3 ++ "mm"
                   else "N/A")
               ++ ". Requisiti: raggio min 0.5mm, giunzioni T min 2mm.") |} in
  (* 5. Cavita' e Fori Ciechi *)
  let ca := cavityAnalysis data in
  let cavityOk :=
    (potentialCavities ca =? 0)%float
    || ((List.length (estimatedHoleDepths ca) =? 0)%nat
        || forallb (fun d => (GUIDELINES.minCavityWidth <=? d)%float)
                   (estimatedHoleDepths ca)) in
  let r5 :=
    {| name := "Cavit√† e Fori Ciechi";
       passed := cavityOk;
       severity := Some (if cavityOk then info else warning);
       message :=
         if (0 <? potentialCavities ca)%float
         then Number_toString (potentialCavities ca)
              ++ " potenziali cavit√† rilevate"
         else "Nessuna cavit√† significativa rilevata";
       details :=
         Some ("Cavit√† potenziali: " ++ Number_toString (potentialCavities ca)
               ++ ". Fori ciechi stimati: "
               ++ Number_toString (blindHoleCount ca)
               ++ ". Fori passanti stimati: "
               ++ Number_toString (throughHoleCount ca)
               ++ ". Loop di bordo: " ++ Number_toString (boundaryLoops ca)
               ++ ". Requisiti: larghezza min "
               ++ Number_toString GUIDELINES.minCavityWidth
               ++ "mm, rapporto profondit√†/larghezza 2:1-4:1.") |} in
  (* 6. Canali Aperti *)
  let cha := channelAnalysis data in
  let channelScan :=
    if (0 <? potentialChannels cha)%float
    then fold_left (checkChannel (estimatedDepths cha))
                   (combine (estimatedDiameters cha)
                            (seq 0 (List.length (estimatedDiameters cha))))
                   (true, [])
    else (true, []) in
  let channelOk := fst channelScan in
  let channelResults := snd channelScan in
  let r6 :=
    {| name := "Canali Aperti";
       passed := channelOk;
       severity := Some (if channelOk then info else warning);
       message :=
         if (0 <? potentialChannels cha)%float
         then Number_toString (potentialChannels cha) ++ " canali potenziali ("
              ++ Number_toString (straightChannels cha) ++ " rettilinei, "
              ++ Number_toString (curvedChannels cha) ++ " curvi)"
         else "Nessun canale rilevato";
       details :=
         Some ((if (0 <? List.length channelResults)%nat
                then String.concat ". " channelResults ++ ". " else EmptyString)
               ++ "Specifiche: √ò1-3mm max 10mm rettilineo, √ò3-5mm max 30mm rettilineo, √ò>5mm raggio curvatura min 25mm.")
    |} in
  (* 7. Rilievi e Incisioni *)
  let sf := surfaceFeatures data in
  let featureOk :=
    (minFeatureWidth sf =? 0)%float
    || (GUIDELINES.minLineWidth <=? minFeatureWidth sf)%float in
  let r7 :=
    {| name := "Rilievi e Incisioni";
       passed := featureOk;
       severity := Some (if featureOk then info else warning);
       message :=
         if (0 <? potentialReliefs sf)%float
            || (0 <? potentialEngravings sf)%float
         then Number_toString (potentialReliefs sf) ++ " rilievi, "
              ++ Number_toString (potentialEngravings sf)
              ++ " incisioni rilevate"
         else "Nessun rilievo/incisione significativo rilevato";
       details :=
         Some ("Rilievi: " ++ Number_toString (potentialReliefs sf)
               ++ ". Incisioni: " ++ Number_toString (potentialEngravings sf)
               ++ ". Larghezza min caratteristica: "
               ++ (if (0 <? minFeatureWidth sf)%float
                   then toFixed (minFeatureWidth sf) 3 ++ "mm" else "N/A")
               ++ ". Altezza max variazione: "
               ++ toFixed (maxFeatureHeight sf) 3
               ++ "mm. Requisiti: altezza caratteri min 4mm, linee min 0.5mm.")
    |} in
  (* 8. Spessore Parete *)
  let wt := wallThickness data in
  let wallOk :=
    (GUIDELINES.wallThickness.min <=? minThickness wt)%float
    && (maxThickness wt <=? GUIDELINES.wallThickness.max)%float in
  let r8 :=
    {| name := "Spessore Parete";
       passed := wallOk;
       severity :=
         Some (if wallOk then info
               else if (minThickness wt <? GUIDELINES.wallThickness.min)%float
                    then error else warning);
       message :=
         if wallOk
         then "Spessore OK: " ++ toFixed (minThickness wt) 2 ++ " - "
              ++ toFixed (maxThickness wt) 2 ++ " mm"
         else "Spessore fuori range: " ++ toFixed (minThickness wt) 2 ++ " - "
              ++ toFixed (maxThickness wt) 2 ++ " mm";
       details :=
         Some ("Min: " ++ toFixed (minThickness wt) 3 ++ "mm. Max: "
               ++ toFixed (maxThickness wt) 3 ++ "mm. Media: "
               ++ toFixed (avgThickness wt) 3 ++ "mm. Campioni: "
               ++ Number_toString (numOfN (N.of_nat (List.length (samples wt))))
               ++ ". Aree sottili (<1mm): " ++ Number_toString (thinAreas wt)
               ++ ". Range richiesto: "
               ++ Number_toString GUIDELINES.wallThickness.min ++ "-"
               ++ Number_toString GUIDELINES.wallThickness.max ++ "mm.") |} in
  (* 9. Base di Appoggio *)
  let gc := geometricComplexity data in
  let r9 :=
    {| name := "Base di Appoggio";
       passed := hasFlatBase gc;
       severity := Some (if hasFlatBase gc then info else warning);
       message :=
         if hasFlatBase gc
         then "Base piana rilevata (" ++ toFixed (flatBaseArea gc) 2 ++ " mm¬≤)"
         else "ATTENZIONE: Nessuna base piana significativa rilevata";
       details :=
         Some ("Base piana: " ++ (if hasFlatBase gc then "S√¨" else "No")
               ++ ". Area base: " ++ toFixed (flatBaseArea gc) 3
               ++ " mm¬≤. Normale base: "
               ++ match flatBaseNormal gc with
                  | Some n =>
                      "(" ++ toFixed (Vector3.x n) 2 ++ ", "
                      ++ toFixed (Vector3.y n) 2 ++ ", "
                      ++ toFixed (Vector3.z n) 2 ++ ")"
                  | None => "N/A"
                  end
               ++ ". Requisito: almeno una superficie piana per l'appoggio.")
    |} in
  (* 10. Filettature *)
  let r10 :=
    {| name := "Filettature";
       passed := true;
       severity := Some info;
       message := "Filetto abbozzato da M10";
       details :=
         Some ("Per filettature: utilizzare filetto abbozzato a partire da M"
               ++ Number_toString GUIDELINES.minThreadSize
               ++ ". Verifica manuale consigliata per dettagli filettatura.")
    |} in
  (* 11. Oggetti Cavi *)
  let hollowOk := (GUIDELINES.hollowWallThickness <=? minThickness wt)%float in
  let r11 :=
    {| name := "Oggetti Cavi";
       passed := hollowOk;
       severity := Some (if hollowOk then info else warning);
       message :=
         if hollowOk
         then "Spessore parete adeguato per oggetti cavi (‚â•"
              ++ Number_toString GUIDELINES.hollowWallThickness ++ "mm)"
         else "Verifica spessore per oggetti cavi: min "
              ++ Number_toString GUIDELINES.hollowWallThickness
              ++ "mm richiesto";
       details :=
         Some ("Spessore minimo rilevato: " ++ toFixed (minThickness wt) 3
               ++ "mm. Per oggetti cavi: min "
               ++ Number_toString GUIDELINES.hollowWallThickness
               ++ "mm. Fori svuotamento necessari: 2, diametro min "
               ++ Number_toString GUIDELINES.drainHoleDiameter.min
               ++ "mm (consigliato "
               ++ Number_toString GUIDELINES.drainHoleDiameter.recommended
               ++ "mm).") |} in
  (* 12. Parti Concatenate *)
  let r12 :=
    {| name := "Parti Concatenate";
       passed := true;
       severity := Some info;
       message :=
         "Distanza minima tra parti: " ++ Number_toString GUIDELINES.minGap
         ++ "mm";
       details :=
         Some "Se il modello contiene parti concatenate o mobili, mantenere distanza minima di 1mm tra le parti. Verifica manuale consigliata."
    |} in
  [r1; r2; r3; r4; r5; r6; r7; r8; r9; r10; r11; r12].

End Engine.

(** ** The page: what an upload does to its state

    The state of the [Index] component and the part of it that
    [processFile] and the two handlers of its [FileReader] set.  A file is
    its name together with what the reader delivers for it: a read error, or
    the buffer, of which the embedding keeps what [STLLoader.parse] makes,
    a position attribute or a throw.  [processFile file st] is the state
    once the reader has fired, no other event coming in between.
    [toLowerCase] is the built-in of that name. *)

Module Index.

Record State : Type := {
  isDragging : bool;
  modelData : option ModelData;
  validationResults : list ValidationResult;
  fileName : string;
  isLoading : bool;
  error : string;
  showDataPanel : bool
}.

(** The state of [useState] at the first render. *)
Definition initial : State :=
  {| isDragging := false; modelData := None; validationResults := [];
     fileName := EmptyString; isLoading := false; error := EmptyString;
     showDataPanel := true |}.

Definition setModelData (data : ModelData) (st : State) : State :=
  {| isDragging := isDragging st; modelData := Some data;
     validationResults := validationResults st; fileName := fileName st;
     isLoading := isLoading st; error := error st;
     showDataPanel := showDataPanel st |}.

Definition setValidationResults (results : list ValidationResult) (st : State)
  : State :=
  {| isDragging := isDragging st; modelData := modelData st;
     validationResults := results; fileName := fileName st;
     isLoading := isLoading st; error := error st;
     showDataPanel := showDataPanel st |}.

Definition setFileName (n : string) (st : State) : State :=
  {| isDragging := isDragging st; modelData := modelData st;
     validationResults := validationResults st; fileName := n;
     isLoading := isLoading st; error := error st;
     showDataPanel := showDataPanel st |}.

Definition setIsLoading (b : bool) (st : State) : State :=
  {| isDragging := isDragging st; modelData := modelData st;
     validationResults := validationResults st; fileName := fileName st;
     isLoading := b; error := error st;
     showDataPanel := showDataPanel st |}.

Definition setError (e : string) (st : State) : State :=
  {| isDragging := isDragging st; modelData := modelData st;
     validationResults := validationResults st; fileName := fileName st;
     isLoading := isLoading st; error := e;
     showDataPanel := showDataPanel st |}.

(** What [reader.readAsArrayBuffer(file)] ends with. *)
Inductive ReadResult : Type :=
| loaded (parsed : outcome BufferAttribute)
| unreadable.

Record File : Type := { file_name : string; file_read : ReadResult }.

(** [s.endsWith(suffix)]. *)
Definition endsWith (s suffix : string) : bool :=
  let n := String.length s in
  let k := String.length suffix in
  (k <=? n)%nat && String.eqb (substring (n - k) k s) suffix.

Section Handlers.

Context {host : Host}.
Variable toLowerCase : string -> string.

(** [reader.onload]: the [try], its [catch] and its [finally]. *)
Definition onload (parsed : outcome BufferAttribute) (st : State) : State :=
  let st :=
    match (geometry <- parsed ;; analyzeSTLGeometry geometry) with
    | Ok data => setValidationResults (validateModel data) (setModelData data st)
    | Throw _ => setError "Errore nel parsing del file STL" st
    end in
  setIsLoading false st.

(** [reader.onerror]. *)
Definition onerror (st : State) : State :=
  setIsLoading false (setError "Errore nella lettura del file" st).

Definition processFile (file : File) (st : State) : State :=
  if negb (endsWith (toLowerCase (file_name file)) ".stl")
  then setError "Per favore carica un file STL" st
  else
    let st := setIsLoading true st in
    let st := setError EmptyString st in
    let st := setFileName (file_name file) st in
    match file_read file with
    | loaded parsed => onload parsed st
    | unreadable => onerror st
    end.

(** The three counters of the badges. *)
Definition passedCount (st : State) : nat :=
  List.length (filter (fun r => passed r) (validationResults st)).

Definition failedCount (st : State) : nat :=
  List.length (filter (fun r => negb (passed r)) (validationResults st)).

Definition warningCount (st : State) : nat :=
  List.length
    (filter (fun r => match severity r with Some warning => true | _ => false end)
            (validationResults st)).

End Handlers.

End Index.

(** ** The data panel: which sections are open

    [expandedSections] is an object from section ids to booleans, here the
    list of its properties in their order; a section is open when its
    property is truthy, and the property of an id the object does not have
    is [undefined]. *)

Module DataPanel.

(** The state of [useState] at the first render. *)
Definition initial : list (string * bool) :=
  [("mesh", true); ("dimensions", true); ("edges", false);
   ("cavities", false); ("channels", false); ("surface", false);
   ("walls", false); ("complexity", false)].

(** [expandedSections[id]] where it is tested. *)
Definition isExpanded (id : string) (expandedSections : list (string * bool))
  : bool :=
  match Map_get id expandedSections with
  | Some b => b
  | None => false
  end.

(** The update of [toggleSection]:
    [prev => ({ ...prev, [section]: !prev[section] })]. *)
Definition toggleSection (section : string) (prev : list (string * bool))
  : list (string * bool) :=
  Map_set section (negb (isExpanded section prev)) prev.

End DataPanel.

(** ** The earlier page

    [src/web/pages/index.tsx] is the page before the feature analyzers were
    added: its [analyzeSTLGeometry] measures the bounding box, the volume
    and the surface area only and never throws, and its [validateModel] has
    14 checks, most of them reminders.  Its [GUIDELINES] are the same
    constants. *)

Module PagesIndex.

Record ValidationResult : Type := {
  name : string;
  passed : bool;
  message : string;
  details : option string
}.

Record ModelData : Type := {
  geometry : BufferAttribute;
  dimensions : Dimensions.t;
  volume : float;
  surfaceArea : float;
  triangleCount : float;
  hasManifoldEdges : bool;
  boundingBox : Box3.t
}.

(** The variables the loop of [analyzeSTLGeometry] updates. *)
Record BulkScan : Type := {
  scan_volume : float;
  scan_surfaceArea : float
}.

Section EarlierEngine.

Context {host : Host}.

Definition validateModel (data : ModelData) : list ValidationResult :=
  let length := Dimensions.length (dimensions data) in
  let width := Dimensions.width (dimensions data) in
  let height := Dimensions.height (dimensions data) in
  (* 1. Dimensioni massime *)
  let withinDimensions :=
    (length <=? Dimensions.length GUIDELINES.maxDimensions)%float
    && (width <=? Dimensions.width GUIDELINES.maxDimensions)%float
    && (height <=? Dimensions.height GUIDELINES.maxDimensions)%float in
  let r1 :=
    {| name := "Dimensioni Massime";
       passed := withinDimensions;
       message :=
         if withinDimensions
         then "Dimensioni OK: " ++ toFixed length 1 ++ " x " ++ toFixed width 1
              ++ " x " ++ toFixed height 1 ++ " mm"
         else "Dimensioni SUPERANO il limite di "
              ++ Number_toString (Dimensions.length GUIDELINES.maxDimensions)
              ++ " x "
              ++ Number_toString (Dimensions.width GUIDELINES.maxDimensions)
              ++ " x "
              ++ Number_toString (Dimensions.height GUIDELINES.maxDimensions)
              ++ " mm";
       details :=
         Some ("Il modello misura " ++ toFixed length 2 ++ "mm (L) x "
               ++ toFixed width 2 ++ "mm (W) x " ++ toFixed height 2
               ++ "mm (H). Limite: 50mm x 80mm x 40mm.") |} in
  (* 2. Tolleranze *)
  let toleranceInfo :=
    ((if (length <? 10)%float || (width <? 10)%float || (height <? 10)%float
      then ["Tolleranza ±0.1mm per dimensioni < 10mm"] else [])
     ++ (if (10 <=? length)%float || (10 <=? width)%float
            || (10 <=? height)%float
         then ["Tolleranza ±1% per dimensioni ≥ 10mm"] else []))%list in
  let r2 :=
    {| name := "Tolleranze";
       passed := true;
       message := "Informazione sulle tolleranze applicabili";
       details :=
         Some (String.concat ". " toleranceInfo
               ++ ". Dimensioni minori di 10mm: ±0.1mm. Dimensioni maggiori: ±1%.")
    |} in
  (* 3. Aspect Ratio *)
  let dims := Array_sort (fun a b => (b - a)%float) [length; width; height] in
  let aspectRatio := (nth 0 dims nan / nth 2 dims nan)%float in
  let aspectOk := (aspectRatio <=? GUIDELINES.aspectRatioMax)%float in
  let aspectRecommended :=
    (aspectRatio <=? GUIDELINES.aspectRatioRecommended)%float in
  let r3 :=
    {| name := "Aspect Ratio";
       passed := aspectOk;
       message :=
         if aspectOk
         then (if aspectRecommended
               then "Aspect ratio ottimale: " ++ toFixed aspectRatio 1 ++ ":1"
               else "Aspect ratio accettabile: " ++ toFixed aspectRatio 1
                    ++ ":1 (consigliato ≤5:1)")
         else "Aspect ratio " ++ toFixed aspectRatio 1
              ++ ":1 supera il massimo 10:1";
       details :=
         Some ("Rapporto tra dimensione maggiore e minore: "
               ++ toFixed aspectRatio 2
               ++ ":1. Massimo: 10:1, Consigliato: 5:1.") |} in
  (* 4. Volume e triangoli *)
  let r4 :=
    {| name := "Complessità Geometrica";
       passed := true;
       message :=
         toLocaleString (triangleCount data) ++ " triangoli, volume "
         ++ toFixed (volume data) 2 ++ " mm³";
       details :=
         Some ("Area superficiale: " ++ toFixed (surfaceArea data) 2
               ++ " mm². Geometria analizzata con successo.") |} in
  (* 5. Spessore parete (stima basata su volume/area) *)
  let estimatedWallThickness := (volume data / surfaceArea data)%float in
  let wallThicknessOk :=
    (GUIDELINES.wallThickness.min * 0.5 <=? estimatedWallThickness)%float
    && (estimatedWallThickness <=? GUIDELINES.wallThickness.max * 2)%float in
  let r5 :=
    {| name := "Spessore Parete (Stima)";
       passed := wallThicknessOk;
       message :=
         if wallThicknessOk
         then "Spessore stimato compatibile: ~"
              ++ toFixed estimatedWallThickness 2 ++ "mm"
         else "Verifica spessore parete: range 1-15mm richiesto";
       details :=
         Some ("Spessore parete richiesto: "
               ++ Number_toString GUIDELINES.wallThickness.min ++ "mm - "
               ++ Number_toString GUIDELINES.wallThickness.max
               ++ "mm. Per oggetti cavi: min "
               ++ Number_toString GUIDELINES.hollowWallThickness ++ "mm.") |} in
  (* 6. Raccomandazioni geometriche *)
  let r6 :=
    {| name := "Spigoli e Raccordi";
       passed := true;
       message := "Verificare manualmente: no spigoli vivi, raggi min 0.5mm";
       details :=
         Some ("Evitare spigoli vivi. Raggio di curvatura minimo: "
               ++ Number_toString GUIDELINES.minCurvatureRadius
               ++ "mm. Per giunzioni a T: min "
               ++ Number_toString GUIDELINES.minTJunctionRadius ++ "mm.") |} in
  (* 7. Cavita' e fori *)
  let r7 :=
    {| name := "Cavità e Fori Ciechi";
       passed := true;
       message :=
         "Verificare: larghezza min 0.4mm, rapporto profondità 2:1 - 4:1";
       details :=
         Some ("Larghezza minima cavità: "
               ++ Number_toString GUIDELINES.minCavityWidth
               ++ "mm. Rapporto profondità/larghezza: "
               ++ Number_toString GUIDELINES.cavityDepthRatio.min ++ ":1 - "
               ++ Number_toString GUIDELINES.cavityDepthRatio.max ++ ":1.") |} in
  (* 8. Canali aperti *)
  let r8 :=
    {| name := "Canali Aperti";
       passed := true;
       message := "Verificare specifiche diametro/profondità";
       details :=
         Some "Ø 1-3mm: max 10mm rettilineo. Ø 3-5mm: max 30mm rettilineo. Ø >5mm: raggio curvatura min 25mm."
    |} in
  (* 9. Incisioni *)
  let r9 :=
    {| name := "Incisioni";
       passed := true;
       message := "Verificare: caratteri min 4mm, linee min 0.5mm";
       details :=
         Some ("Altezza carattere minima: "
               ++ Number_toString GUIDELINES.minCharacterHeight
               ++ "mm. Larghezza linea minima: "
               ++ Number_toString GUIDELINES.minLineWidth
               ++ "mm. Rapporto profondità/larghezza: 2:1 - 4:1.") |} in
  (* 10. Rilievi *)
  let r10 :=
    {| name := "Rilievi";
       passed := true;
       message := "Verificare: caratteri min 4mm, linee min 0.5mm";
       details :=
         Some ("Altezza carattere minima: "
               ++ Number_toString GUIDELINES.minCharacterHeight
               ++ "mm. Larghezza linea minima: "
               ++ Number_toString GUIDELINES.minLineWidth
               ++ "mm. Rapporto profondità/larghezza: 2:1 - 3:1.") |} in
  (* 11. Filettature *)
  let r11 :=
    {| name := "Filettature";
       passed := true;
       message := "Filetto abbozzato da M10";
       details :=
         Some ("Per filettature: utilizzare filetto abbozzato a partire da M"
               ++ Number_toString GUIDELINES.minThreadSize ++ ".") |} in
  (* 12. Oggetti cavi *)
  let r12 :=
    {| name := "Oggetti Cavi";
       passed := true;
       message := "Verificare: parete min 1.2mm, 2 fori svuotamento min Ø2mm";
       details :=
         Some ("Spessore parete minimo: "
               ++ Number_toString GUIDELINES.hollowWallThickness
               ++ "mm. Necessari almeno 2 fori di svuotamento, diametro min "
               ++ Number_toString GUIDELINES.drainHoleDiameter.min
               ++ "mm (consigliato "
               ++ Number_toString GUIDELINES.drainHoleDiameter.recommended
               ++ "mm).") |} in
  (* 13. Base piana *)
  let r13 :=
    {| name := "Base di Appoggio";
       passed := true;
       message := "Verificare presenza di almeno una base piana";
       details :=
         Some "Requisito geometrico: il modello deve avere almeno una superficie piana per l'appoggio durante la stampa."
    |} in
  (* 14. Parti concatenate *)
  let r14 :=
    {| name := "Parti Concatenate";
       passed := true;
       message :=
         "Distanza minima tra parti: " ++ Number_toString GUIDELINES.minGap
         ++ "mm";
       details :=
         Some "Se il modello contiene parti concatenate o mobili, mantenere distanza minima di 1mm tra le parti."
    |} in
  [r1; r2; r3; r4; r5; r6; r7; r8; r9; r10; r11; r12; r13; r14].

(** The body of the loop on the triangle whose first point has index
    [t * 3]; [cb.cross(ab)] overwrites [cb]. *)
Definition scanTriangle (positions : BufferAttribute) (st : BulkScan) (t : N)
  : BulkScan :=
  let i := (t * 3)%N in
  let pA := point positions i in
  let pB := point positions (i + 1) in
  let pC := point positions (i + 2) in
  let cb := Vector3.subVectors pC pB in
  let ab := Vector3.subVectors pA pB in
  let cb := Vector3.crossVectors cb ab in
  {| scan_surfaceArea :=
       (scan_surfaceArea st + Vector3.length cb * 0.5)%float;
     scan_volume :=
       (scan_volume st + Vector3.dot pA (Vector3.crossVectors pB pC) / 6)%float
  |}.

Definition analyzeSTLGeometry (geometry : BufferAttribute) : ModelData :=
  let boundingBox := computeBoundingBox geometry in
  let size := Box3.getSize boundingBox in
  let positions := geometry in
  let triangleCount := (numOfN (count positions) / 3)%float in
  let st :=
    fold_left (scanTriangle positions) (for_indices (count positions) 1)
              {| scan_volume := 0; scan_surfaceArea := 0 |} in
  let volume := abs (scan_volume st) in
  {| geometry := geometry;
     dimensions := Dimensions.new (Vector3.x size) (Vector3.y size)
                                  (Vector3.z size);
     volume := volume;
     surfaceArea := scan_surfaceArea st;
     triangleCount := triangleCount;
     hasManifoldEdges := true;
     boundingBox := boundingBox |}.

End EarlierEngine.

End PagesIndex.

(** ** Vocabulary of the properties *)

Section Vocabulary.

Context {host : Host}.

(** An edge as one of the two loops of [buildEdgeMap] visits it: the index
    of the triangle and the two end points. *)
Definition EdgeVisit : Type := N * (option Vector3.t * option Vector3.t).

(** The visits of [buildEdgeMap], in the order of its two loops. *)
Definition edgeVisits (positions : BufferAttribute) : list EdgeVisit :=
  flat_map (fun i => map (pair i) (triangleEdges positions i))
           (for_indices (count positions) 1).

(** Whether a visit is to an edge whose key is [key]. *)
Definition visitsKey (key : string) (v : EdgeVisit) : bool :=
  match makeEdgeKey (fst (snd v)) (snd (snd v)) with
  | Ok k => String.eqb k key
  | Throw _ => false
  end.

(** The entry under a key once the visits [vs] to that key are done, [e0]
    being the entry before them: the first visit creates the entry with its
    end points and every visit appends its triangle. *)
Definition extendEntry (e0 : option Edge) (vs : list EdgeVisit) : option Edge :=
  match e0, vs with
  | Some e, _ =>
      Some {| faces := (faces e ++ map fst vs)%list; vertices := vertices e |}
  | None, [] => None
  | None, (i, (a, b)) :: rest =>
      Some {| faces := i :: map fst rest; vertices := (numeric a, numeric b) |}
  end.

(** The dihedral angle of two face normals, in degrees: 180 minus the
    arc cosine of their dot product clamped to [-1, 1]. *)
Definition dihedralAngleOf (n1 n2 : Vector3.t) : float :=
  (180 - Math_acos (Math_min [1; Math_max [-1; Vector3.dot n1 n2]])
         * (180 / Math_PI))%float.

(** The curvature radius estimated for a sharp edge: its length over
    twice the sine of (90 - dihedral) * pi / 360. *)
Definition curvatureRadiusOf (edgeLength dihedral : float) : float :=
  (edgeLength / (2 * Math_sin ((90 - dihedral) * Math_PI / 360)))%float.

(** The dihedral angle and the estimated radius of an entry of the edge map
    that is a sharp edge: two incident faces, both with a normal, and a
    dihedral angle below 90 degrees. *)
Definition sharpEdgeOf (faceNormals : list Vector3.t) (entry : string * Edge)
  : list (float * float) :=
  match faces (snd entry) with
  | [f0; f1] =>
      match nth_error faceNormals (N.to_nat f0),
            nth_error faceNormals (N.to_nat f1) with
      | Some n1, Some n2 =>
          let dihedral := dihedralAngleOf n1 n2 in
          if (dihedral <? 90)%float
          then [(dihedral,
                 curvatureRadiusOf
                   (Vector3.distanceTo (fst (vertices (snd entry)))
                                       (snd (vertices (snd entry))))
                   dihedral)]
          else []
      | _, _ => []
      end
  | _ => []
  end.

Definition sharpEdgesOf (faceNormals : list Vector3.t) (edgeMap : EdgeMap)
  : list (float * float) :=
  flat_map (sharpEdgeOf faceNormals) edgeMap.

(** The triangles [analyzeCavities] counts as concave regions: those whose
    normal has a dot product above 0.7 with the direction from the centroid
    to the centre of the bounding box. *)
Definition inwardTriangles (positions : BufferAttribute)
  (faceNormals : list Vector3.t) (boundingBox : Box3.t) : list N :=
  filter (fun i =>
            match nth_error faceNormals (N.to_nat i) with
            | Some normal => pointsInward positions boundingBox normal i
            | None => false
            end)
         (for_indices (count positions) 1).

(** The names of the checks, in the order [validateModel] pushes them. *)
Definition checkNames : list string :=
  ["Dimensioni Massime"; "Tolleranze Applicabili"; "Aspect Ratio";
   "Spigoli e Raccordi"; "Cavit√† e Fori Ciechi"; "Canali Aperti";
   "Rilievi e Incisioni"; "Spessore Parete"; "Base di Appoggio";
   "Filettature"; "Oggetti Cavi"; "Parti Concatenate"].

(** The result of the check called [n], the first one if several are. *)
Definition resultNamed (n : string) (results : list ValidationResult)
  : option ValidationResult :=
  find (fun r => String.eqb (name r) n) results.

(** [faceNormals] has a normal for every triangle of the soup. *)
Definition covers (faceNormals : list Vector3.t) (positions : BufferAttribute)
  : Prop :=
  (N.to_nat ((count positions + 2) / 3) <= List.length faceNormals)%nat.

(** Every index [analyzeWallThickness] draws, [Math.floor] of a random
    number times the triangle count, is the index of a triangle: what a
    [Math.random] with values in [0, 1) gives. *)
Definition drawsInRange (positions : BufferAttribute) : Prop :=
  forall s : nat,
    (s < N.to_nat (N.min 100 (count positions / 30)))%nat ->
    exists triIndex,
      floor_index (Math_random (N.of_nat s) * (numOfN (count positions) / 3))
      = Some triIndex
      /\ (3 * triIndex < count positions)%N.

(** The unit normal the first loop of [analyzeSTLGeometry] adds for the
    triangle [t]. *)
Definition unitNormalOf (positions : BufferAttribute) (t : N) : Vector3.t :=
  let pA := point positions (t * 3) in
  let pB := point positions (t * 3 + 1) in
  let pC := point positions (t * 3 + 2) in
  Vector3.normalize
    (Vector3.crossVectors (Vector3.subVectors pC pB) (Vector3.subVectors pA pB)).

(** The sum of the unit normals of all triangles, signs kept. *)
Definition normalSumOf (positions : BufferAttribute) : Vector3.t :=
  fold_left Vector3.addVectors
            (map (unitNormalOf positions) (for_indices (count positions) 1))
            (Vector3.new 0 0 0).

(** The design document's histogram: per axis, the mean over the triangles
    of the absolute value of the unit normal's component. *)
Definition meanAbsNormal (positions : BufferAttribute) : Vector3.t :=
  let triangleCount := (numOfN (count positions) / 3)%float in
  let sums :=
    fold_left (fun acc n =>
                 Vector3.new (Vector3.x acc + abs (Vector3.x n))
                             (Vector3.y acc + abs (Vector3.y n))
                             (Vector3.z acc + abs (Vector3.z n)))
              (map (unitNormalOf positions) (for_indices (count positions) 1))
              (Vector3.new 0 0 0) in
  Vector3.new (Vector3.x sums / triangleCount)
              (Vector3.y sums / triangleCount)
              (Vector3.z sums / triangleCount).

(** A vector whose three components are zeros, of either sign. *)
Definition isZeroVector (v : Vector3.t) : bool :=
  (Vector3.x v =? 0)%float && (Vector3.y v =? 0)%float
  && (Vector3.z v =? 0)%float.

(** A vector whose three components are finite. *)
Definition isFiniteVector (v : Vector3.t) : bool :=
  is_finite (Vector3.x v) && is_finite (Vector3.y v) && is_finite (Vector3.z v).

(** The cross product [calculateFaceNormals] normalizes for triangle [i]. *)
Definition crossOf (positions : BufferAttribute) (i : N) : Vector3.t :=
  let v0 := point positions (i * 3) in
  let v1 := point positions (i * 3 + 1) in
  let v2 := point positions (i * 3 + 2) in
  Vector3.crossVectors (Vector3.subVectors v1 v0) (Vector3.subVectors v2 v0).

End Vocabulary.

(** ** Vocabulary of the further properties *)

Section Counting.

Context {host : Host}.

(** The number of (edge, face) incidences an edge map holds. *)
Definition incidences (edgeMap : EdgeMap) : nat :=
  list_sum (map (fun entry => List.length (faces (snd entry))) edgeMap).

(** The entries [analyzeEdges] counts as T-junctions. *)
Definition tJunctionsOf (edgeMap : EdgeMap) : EdgeMap :=
  filter (fun entry => (3 <=? List.length (faces (snd entry)))%nat) edgeMap.

(** The entries with exactly one incident face. *)
Definition boundaryEdgesOf (edgeMap : EdgeMap) : EdgeMap :=
  filter (fun entry => (List.length (faces (snd entry)) =? 1)%nat) edgeMap.

(** Neither negative nor NaN below zero: [x < 0] is false. *)
Definition notNegative (x : float) : Prop := (x <? 0)%float = false.

(** The names of the checks whose result can have the severity error. *)
Definition hardChecks : list string :=
  ["Dimensioni Massime"; "Aspect Ratio"; "Spessore Parete"].

(** The names of the checks that are reminders. *)
Definition advisoryChecks : list string :=
  ["Tolleranze Applicabili"; "Filettature"; "Parti Concatenate"].


(** The sample [analyzeWallThickness] falls back on. *)
Definition fallbackThickness (boundingBox : Box3.t) : float :=
  let size := Box3.getSize boundingBox in
  (Math_min [Vector3.x size; Vector3.y size; Vector3.z size] * 0.1)%float.

(** The results [validateModel] shows for the model of the page, none
    before the first model. *)
Definition resultsOf (modelData : option ModelData) : list ValidationResult :=
  match modelData with
  | Some data => validateModel data
  | None => []
  end.

(** The sign bit of a number is clear, or the number is a zero or NaN. *)
Definition signNotNegative (f : spec_float) : Prop :=
  match f with
  | S754_nan | S754_zero _ => True
  | S754_infinity s | S754_finite s _ _ => s = false
  end.

(** An upload that ends in one of the two error messages: the file cannot
    be read, parsing it throws, or the position attribute it parses to has
    a point count that is not a multiple of 3. *)
Definition uploadFails (read : Index.ReadResult) : Prop :=
  match read with
  | Index.unreadable => True
  | Index.loaded (Throw _) => True
  | Index.loaded (Ok positions) => (count positions mod 3 <> 0)%N
  end.

(** The message such an upload ends with. *)
Definition failureMessage (read : Index.ReadResult) : string :=
  match read with
  | Index.unreadable => "Errore nella lettura del file"
  | Index.loaded _ => "Errore nel parsing del file STL"
  end.

(** The sign bit of a number is clear, or the number is NaN. *)
Definition signClear (f : spec_float) : Prop :=
  match f with
  | S754_nan => True
  | S754_zero s | S754_infinity s | S754_finite s _ _ => s = false
  end.

(** What the first loop of [analyzeSurfaceFeatures] keeps true, [k] being
    the number of triangles it has looked at. *)
Definition heightScanOk (k : nat) (st : HeightScan) : Prop :=
  Forall (fun v => (0.1 <? v)%float = true) (scan_heightVariations st)
  /\ (List.length (scan_heightVariations st) <= k)%nat
  /\ (N.to_nat (scan_reliefCount st) + N.to_nat (scan_engravingCount st)
      <= List.length (scan_heightVariations st))%nat
  /\ (scan_maxHeight st = 0%float \/ (2 <? scan_maxHeight st)%float = true).

(** A wall thickness sample that was measured: a finite distance above
    0.1. *)
Definition measuredThickness (s : float) : Prop :=
  (0.1 <? s)%float = true /\ (s <? infinity)%float = true.

(** The test of the flat base loop on the normal of a bin. *)
Definition facesDown (bin : NormalBin.t) : bool :=
  (Vector3.y (NormalBin.normal bin) <? -0.9)%float
  || (Vector3.z (NormalBin.normal bin) <? -0.9)%float.

(** The names of the checks of the earlier page. *)
Definition earlierCheckNames : list string :=
  ["Dimensioni Massime"; "Tolleranze"; "Aspect Ratio";
   "Complessità Geometrica"; "Spessore Parete (Stima)";
   "Spigoli e Raccordi"; "Cavità e Fori Ciechi"; "Canali Aperti";
   "Incisioni"; "Rilievi"; "Filettature"; "Oggetti Cavi";
   "Base di Appoggio"; "Parti Concatenate"].

(** The integer a positive finite number is, in units of the smallest
    positive number 2^-1074; 0 for every other number. *)
Definition ulpsOf (x : float) : Z :=
  match Prim2SF x with
  | S754_finite false m e => (Z.pos m * 2 ^ (e + 1074))%Z
  | _ => 0%Z
  end.

(** The order of [a <= b] on numbers. *)
Definition ascending (a b : float) : Prop := (a <=? b)%float = true.

End Counting.

(** ** Sample meshes *)

Module Samples.

Definition P (a b c : float) : Vector3.t := Vector3.new a b c.

(** The unit square in the plane z = 0, cut along a diagonal that the two
    triangles traverse in opposite orders. *)
Definition square : BufferAttribute :=
  [P 0 0 0; P 0 1 0; P 1 1 0;
   P 0 0 0; P 1 1 0; P 1 0 0].

(** Two long triangles folded along the edge from (0, 0, 0) to
    (2e154, 0, 0), at about 5.7 degrees of each other: the square of that
    length is beyond the largest binary64 number. *)
Definition longFold : BufferAttribute :=
  [P 0 0 0; P 2e154 0 0; P 0 0.001 0;
   P 2e154 0 0; P 0 0 0; P 0 0.001 0.0001].

(** A triangle with two coincident vertices next to a proper one. *)
Definition withDegenerate : BufferAttribute :=
  [P 0 0 0; P 0 0 0; P 1 0 0;
   P 0 0 0; P 1 0 0; P 0 1 0].

(** Two triangles 10 apart that face each other. *)
Definition facingPlates : BufferAttribute :=
  [P 0 0 0; P 1 0 0; P 0 1 0;
   P 0 0 10; P 0 1 10; P 1 0 10].

(** The box [0, lx] x [0, ly] x [0, lz], normals outward. *)
Definition box (lx ly lz : float) : BufferAttribute :=
  [P 0 0 0; P 0 ly 0; P lx ly 0;      P 0 0 0; P lx ly 0; P lx 0 0;
   P 0 0 lz; P lx 0 lz; P lx ly lz;   P 0 0 lz; P lx ly lz; P 0 ly lz;
   P 0 0 0; P lx 0 0; P lx 0 lz;      P 0 0 0; P lx 0 lz; P 0 0 lz;
   P 0 ly 0; P 0 ly lz; P lx ly lz;   P 0 ly 0; P lx ly lz; P lx ly 0;
   P 0 0 0; P 0 0 lz; P 0 ly lz;      P 0 0 0; P 0 ly lz; P 0 ly 0;
   P lx 0 0; P lx ly 0; P lx ly lz;   P lx 0 0; P lx ly lz; P lx 0 lz].

(** A triangle with two coincident vertices and a proper one, followed by
    the unit cube: 14 triangles, enough for the wall thickness sampler to
    draw one. *)
Definition degenerateAndCube : BufferAttribute :=
  (withDegenerate ++ box 1 1 1)%list.

End Samples.

(** ** Sample assemblies *)

Module Assemblies.

(** A triangle at the height [z] that faces up, and one that faces down. *)
Definition facingUp (z : float) : BufferAttribute :=
  [Samples.P 0 0 z; Samples.P 1 0 z; Samples.P 0 1 z].

Definition facingDown (z : float) : BufferAttribute :=
  [Samples.P 0 0 z; Samples.P 0 1 z; Samples.P 1 0 z].

(** Twenty triangles above one another: with the random numbers of the
    reference host the wall thickness sampler draws the third, at height 0,
    and the tenth, at height 1, and measures them against the first, which
    faces down at height 3: the distances 3 and 2, in this order. *)
Definition shelves : BufferAttribute :=
  (facingDown 3 ++ facingUp 0 ++ facingUp 0 ++ facingUp 0 ++ facingUp 0
   ++ facingDown 7 ++ facingUp 0 ++ facingUp 0 ++ facingUp 0 ++ facingUp 1
   ++ flat_map (fun _ => facingUp 0) (seq 0 10))%list.


End Assemblies.

(** ** Sample uploads *)

Module Uploads.

(** [toLowerCase] on the letters A to Z, which is what it does to a name
    written in ASCII. *)
Definition lowerLetter (c : ascii) : ascii :=
  let n := nat_of_ascii c in
  if (65 <=? n)%nat && (n <=? 90)%nat then ascii_of_nat (n + 32) else c.

Fixpoint toLowerCase (s : string) : string :=
  match s with
  | EmptyString => EmptyString
  | String c s' => String (lowerLetter c) (toLowerCase s')
  end.

(** The unit cube. *)
Definition cube : Index.File :=
  {| Index.file_name := "cube.STL";
     Index.file_read := Index.loaded (Ok (Samples.box 1 1 1)) |}.

(** A file that is read and on which [STLLoader.parse] throws. *)
Definition garbled : Index.File :=
  {| Index.file_name := "garbled.stl";
     Index.file_read := Index.loaded (Throw TypeError) |}.

(** The page once the cube is uploaded into its first state. *)
Definition afterCube : Index.State :=
  @Index.processFile Reference.host toLowerCase cube Index.initial.

End Uploads.

(** * Properties *)

Section Properties.

Context {host : Host}.

(** ** Loops, maps and indices *)

Lemma exn_unique : forall e : exn, e = TypeError.
Proof. intros []. reflexivity. Qed.

Lemma bind_Ok_inv :
  forall (A B : Type) (c : outcome A) (k : A -> outcome B) (b : B),
    bind c k = Ok b -> exists a, c = Ok a /\ k a = Ok b.
Proof.
  intros A B [a|e] k b H; simpl in H; [eauto | discriminate].
Qed.

Lemma foldM_Throw_inv :
  forall (S A : Type) (body : S -> A -> outcome S) (l : list A) (s : S) e,
    foldM body l s = Throw e ->
    exists a s', In a l /\ body s' a = Throw e.
Proof.
  intros S A body l. induction l as [|a l IH]; intros s e H; simpl in H.
  - discriminate.
  - destruct (body s a) as [s1|e1] eqn:E; simpl in H.
    + destruct (IH _ _ H) as (a' & s' & Hin & Hb).
      exists a', s'. split; [right; exact Hin | exact Hb].
    + injection H as ->. exists a, s. split; [left; reflexivity | exact E].
Qed.

Lemma foldM_throws :
  forall (S A : Type) (body : S -> A -> outcome S) (l : list A) (a : A),
    In a l ->
    (forall s, body s a = Throw TypeError) ->
    forall s, foldM body l s = Throw TypeError.
Proof.
  intros S A body l a Hin Hthrow.
  induction l as [|a' l IH]; intros s; simpl; [destruct Hin|].
  destruct Hin as [->|Hin].
  - rewrite Hthrow. reflexivity.
  - destruct (body s a') as [s1|e]; simpl.
    + apply IH. exact Hin.
    + rewrite (exn_unique e). reflexivity.
Qed.

Lemma foldM_app :
  forall (S A : Type) (body : S -> A -> outcome S) (l1 l2 : list A) (s : S),
    foldM body (l1 ++ l2)%list s = (s1 <- foldM body l1 s ;; foldM body l2 s1).
Proof.
  intros S A body l1. induction l1 as [|a l1 IH]; intros l2 s; simpl.
  - reflexivity.
  - destruct (body s a) as [s1|e]; simpl; [apply IH | reflexivity].
Qed.

Lemma element_covered :
  forall (A : Type) (arr : list A) (i : N),
    (N.to_nat i < List.length arr)%nat -> exists a, element arr i = Ok a.
Proof.
  intros A arr i H. unfold element.
  destruct (nth_error arr (N.to_nat i)) eqn:E; [eauto|].
  apply nth_error_None in E. lia.
Qed.

Lemma element_Throw_inv :
  forall (A : Type) (arr : list A) (i : N) e,
    element arr i = Throw e -> nth_error arr (N.to_nat i) = None.
Proof.
  intros A arr i e. unfold element.
  destruct (nth_error arr (N.to_nat i)); [discriminate | reflexivity].
Qed.

Lemma in_for_indices :
  forall c stride i : N,
    (0 < stride)%N -> In i (for_indices c stride) -> (3 * i < c)%N.
Proof.
  intros c stride i Hs Hin. unfold for_indices in Hin.
  apply in_map_iff in Hin. destruct Hin as (k & <- & Hk).
  apply in_seq in Hk. destruct Hk as [_ Hk].
  set (q := ((c + 3 * stride - 1) / (3 * stride))%N) in *.
  assert (Hq : (N.of_nat k + 1 <= q)%N) by lia.
  pose proof (N.Div0.mul_div_le (c + 3 * stride - 1) (3 * stride)) as Hd.
  fold q in Hd.
  assert (H1 : (3 * stride * (N.of_nat k + 1) <= 3 * stride * q)%N)
    by (apply N.mul_le_mono_l; exact Hq).
  lia.
Qed.

Lemma for_indices_one :
  forall c : N,
    for_indices c 1 = map N.of_nat (seq 0 (N.to_nat ((c + 2) / 3))).
Proof.
  intros c. unfold for_indices.
  replace (c + 3 * 1 - 1)%N with (c + 2)%N by lia.
  replace (3 * 1)%N with 3%N by lia.
  apply map_ext. intros k. lia.
Qed.

Lemma in_for_indices_one :
  forall c i : N, In i (for_indices c 1) <-> (3 * i < c)%N.
Proof.
  intros c i. split; [apply in_for_indices; lia|].
  intros H. rewrite for_indices_one. apply in_map_iff.
  exists (N.to_nat i). split; [lia|].
  apply in_seq. split; [lia|]. simpl.
  assert (i < (c + 2) / 3)%N; [|lia].
  pose proof (N.Div0.div_mod (c + 2) 3) as Hd.
  pose proof (N.mod_lt (c + 2) 3 ltac:(lia)) as Hm.
  lia.
Qed.

Lemma length_for_indices_one :
  forall c : N, List.length (for_indices c 1) = N.to_nat ((c + 2) / 3).
Proof.
  intros c. rewrite for_indices_one, length_map, length_seq. reflexivity.
Qed.

Lemma Map_get_set_same :
  forall (V : Type) (key : string) (v : V) (m : list (string * V)),
    Map_get key (Map_set key v m) = Some v.
Proof.
  intros V key v m. induction m as [|[k w] m IH]; simpl.
  - rewrite String.eqb_refl. reflexivity.
  - destruct (String.eqb k key) eqn:E; simpl; rewrite E; [reflexivity | exact IH].
Qed.

Lemma Map_get_set_other :
  forall (V : Type) (key key' : string) (v : V) (m : list (string * V)),
    key <> key' -> Map_get key' (Map_set key v m) = Map_get key' m.
Proof.
  intros V key key' v m Hne. induction m as [|[k w] m IH]; simpl.
  - apply String.eqb_neq in Hne. rewrite Hne. reflexivity.
  - destruct (String.eqb k key) eqn:E; simpl.
    + apply String.eqb_eq in E. subst k.
      apply String.eqb_neq in Hne. rewrite Hne. reflexivity.
    + destruct (String.eqb k key'); [reflexivity | exact IH].
Qed.

Lemma Map_get_None :
  forall (V : Type) (key : string) (m : list (string * V)),
    Map_get key m = None -> ~ In key (map fst m).
Proof.
  intros V key m. induction m as [|[k w] m IH]; simpl; [tauto|].
  destruct (String.eqb_spec k key) as [->|Hne]; [discriminate|].
  intros H [Hk|Hin]; [contradiction | exact (IH H Hin)].
Qed.

Lemma Map_set_keys :
  forall (V : Type) (key : string) (v : V) (m : list (string * V)),
    map fst (Map_set key v m)
    = if Map_has key m then map fst m else (map fst m ++ [key])%list.
Proof.
  intros V key v m. unfold Map_has.
  induction m as [|[k w] m IH]; simpl; [reflexivity|].
  destruct (String.eqb k key) eqn:E; simpl; [reflexivity|].
  rewrite IH. destruct (Map_get key m); reflexivity.
Qed.

Lemma Map_set_NoDup :
  forall (V : Type) (key : string) (v : V) (m : list (string * V)),
    NoDup (map fst m) -> NoDup (map fst (Map_set key v m)).
Proof.
  intros V key v m Hnd. rewrite Map_set_keys. unfold Map_has.
  destruct (Map_get key m) eqn:E; [exact Hnd|].
  apply Map_get_None in E.
  apply NoDup_app; [exact Hnd | repeat constructor; simpl; tauto |].
  intros k Hk [<-|[]]. exact (E Hk).
Qed.

Lemma Map_In_get :
  forall (V : Type) (key : string) (v : V) (m : list (string * V)),
    NoDup (map fst m) -> In (key, v) m -> Map_get key m = Some v.
Proof.
  intros V key v m. induction m as [|[k w] m IH]; simpl; [tauto|].
  intros Hnd Hin. inversion Hnd as [|? ? Hk Hnd']; subst.
  destruct (String.eqb_spec k key) as [->|Hne].
  - destruct Hin as [[= ->]|Hin]; [reflexivity|].
    exfalso. apply Hk. apply (in_map fst) in Hin. exact Hin.
  - destruct Hin as [[= -> ->]|Hin]; [contradiction|]. apply IH; assumption.
Qed.

(** With distinct keys, the entries under one key are the one [Map_get]
    finds. *)
Lemma Map_filter_key :
  forall (V : Type) (key : string) (v : V) (m : list (string * V)),
    NoDup (map fst m) ->
    Map_get key m = Some v ->
    filter (fun entry => String.eqb (fst entry) key) m = [(key, v)].
Proof.
  intros V key v m. induction m as [|[k w] m IH]; simpl; [discriminate|].
  intros Hnd Hget. inversion Hnd as [|? ? Hk Hnd']; subst.
  destruct (String.eqb_spec k key) as [->|Hne].
  - injection Hget as ->. f_equal.
    clear IH Hnd. induction m as [|[k' w'] m IH]; simpl; [reflexivity|].
    simpl in Hk, Hnd'. inversion Hnd'; subst.
    destruct (String.eqb_spec k' key) as [->|Hne]; [tauto|].
    apply IH; tauto.
  - apply IH; assumption.
Qed.

(** ** The edge adjacency builder *)

Lemma foldM_total :
  forall (S A : Type) (body : S -> A -> outcome S) (l : list A),
    (forall a, In a l -> forall s, exists s', body s a = Ok s') ->
    forall s, exists s', foldM body l s = Ok s'.
Proof.
  intros S A body l. induction l as [|a l IH]; intros H s; simpl.
  - eauto.
  - destruct (H a (or_introl eq_refl) s) as [s1 E]. rewrite E. simpl.
    apply IH. intros a' Ha'. apply H. right. exact Ha'.
Qed.

Lemma foldM_map :
  forall (S A B : Type) (body : S -> B -> outcome S) (f : A -> B)
         (l : list A) (s : S),
    foldM body (map f l) s = foldM (fun s a => body s (f a)) l s.
Proof.
  intros S A B body f l. induction l as [|a l IH]; intros s; simpl.
  - reflexivity.
  - destruct (body s (f a)); simpl; [apply IH | reflexivity].
Qed.

Lemma buildEdgeMap_visits :
  forall positions : BufferAttribute,
    buildEdgeMap positions
    = foldM (fun edgeMap (v : EdgeVisit) => addEdge (fst v) edgeMap (snd v))
            (edgeVisits positions) [].
Proof.
  intros positions. unfold buildEdgeMap, edgeVisits.
  generalize (@nil (string * Edge)) as m.
  induction (for_indices (count positions) 1) as [|i l IH]; intros m.
  - reflexivity.
  - cbn [foldM flat_map]. rewrite foldM_app, foldM_map. cbn [fst snd].
    change (fun (s : EdgeMap) (a : option Vector3.t * option Vector3.t) =>
              addEdge i s a) with (addEdge i).
    destruct (foldM (addEdge i) (triangleEdges positions i) m); simpl;
      [apply IH | reflexivity].
Qed.

Lemma in_edgeVisits :
  forall (positions : BufferAttribute) (v : EdgeVisit),
    In v (edgeVisits positions) ->
    (3 * fst v < count positions)%N
    /\ In (snd v) (triangleEdges positions (fst v)).
Proof.
  intros positions [i e] Hin. unfold edgeVisits in Hin.
  apply in_flat_map in Hin. destruct Hin as (i' & Hi' & Hin).
  apply in_map_iff in Hin. destruct Hin as (e' & [= <- <-] & He').
  simpl. split; [apply in_for_indices_one; exact Hi' | exact He'].
Qed.

Lemma fromBufferAttribute_Some :
  forall (positions : BufferAttribute) (i : N),
    (i < count positions)%N -> exists p, fromBufferAttribute positions i = Some p.
Proof.
  intros positions i Hi. unfold fromBufferAttribute, count in *.
  destruct (nth_error positions (N.to_nat i)) eqn:E; [eauto|].
  apply nth_error_None in E. lia.
Qed.

Lemma fromBufferAttribute_None :
  forall (positions : BufferAttribute) (i : N),
    (count positions <= i)%N -> fromBufferAttribute positions i = None.
Proof.
  intros positions i Hi. unfold fromBufferAttribute, count in *.
  apply nth_error_None. lia.
Qed.

Lemma makeEdgeKey_defined :
  forall a b : Vector3.t, exists key, makeEdgeKey (Some a) (Some b) = Ok key.
Proof. intros a b. simpl. eauto. Qed.

Lemma makeEdgeKey_undefined :
  forall a : option Vector3.t,
    makeEdgeKey a None = Throw TypeError /\ makeEdgeKey None a = Throw TypeError.
Proof. intros [a|]; split; reflexivity. Qed.

(** One visit: the entry under the key of the edge gets the triangle
    appended, after it was created if need be; nothing else changes. *)
Lemma addEdge_spec :
  forall (i : N) (edgeMap : EdgeMap) (a b : option Vector3.t) (key : string),
    makeEdgeKey a b = Ok key ->
    exists edgeMap',
      addEdge i edgeMap (a, b) = Ok edgeMap'
      /\ (NoDup (map fst edgeMap) -> NoDup (map fst edgeMap'))
      /\ forall k,
           Map_get k edgeMap'
           = if String.eqb key k
             then extendEntry (Map_get key edgeMap) [(i, (a, b))]
             else Map_get k edgeMap.
Proof.
  intros i edgeMap a b key Hkey. unfold addEdge. rewrite Hkey. simpl.
  unfold Map_has. destruct (Map_get key edgeMap) as [e|] eqn:E; simpl.
  - rewrite E. eexists. split; [reflexivity|]. split.
    + apply Map_set_NoDup.
    + intros k. destruct (String.eqb_spec key k) as [<-|Hne].
      * apply Map_get_set_same.
      * apply Map_get_set_other. exact Hne.
  - rewrite Map_get_set_same. eexists. split; [reflexivity|]. split.
    + intros Hnd. apply Map_set_NoDup. apply Map_set_NoDup. exact Hnd.
    + intros k. destruct (String.eqb_spec key k) as [<-|Hne].
      * rewrite Map_get_set_same. reflexivity.
      * rewrite !Map_get_set_other by exact Hne. reflexivity.
Qed.

Lemma extendEntry_cons :
  forall (e0 : option Edge) (v : EdgeVisit) (vs : list EdgeVisit),
    extendEntry (extendEntry e0 [v]) vs = extendEntry e0 (v :: vs).
Proof.
  intros [e|] [i [a b]] vs; simpl.
  - rewrite <- app_assoc. reflexivity.
  - reflexivity.
Qed.

Lemma extendEntry_nil :
  forall e0 : option Edge, extendEntry e0 [] = e0.
Proof.
  intros [[f v]|]; simpl; [rewrite app_nil_r|]; reflexivity.
Qed.

(** The visits [vs], run from the map [m0]: each key ends with the entry
    its visits build. *)
Lemma visits_spec :
  forall (vs : list EdgeVisit) (m0 m : EdgeMap),
    foldM (fun edgeMap (v : EdgeVisit) => addEdge (fst v) edgeMap (snd v)) vs m0
    = Ok m ->
    (NoDup (map fst m0) -> NoDup (map fst m))
    /\ forall k,
         Map_get k m = extendEntry (Map_get k m0) (filter (visitsKey k) vs).
Proof.
  induction vs as [|[i [a b]] vs IH]; intros m0 m H; cbn [foldM fst snd] in H.
  - injection H as <-. split; [auto|].
    intros k. simpl. symmetry. apply extendEntry_nil.
  - destruct (makeEdgeKey a b) as [key|e] eqn:Hkey.
    + destruct (addEdge_spec i m0 a b key Hkey) as (m1 & E1 & Hnd1 & Hget1).
      rewrite E1 in H. simpl in H.
      destruct (IH m1 m H) as [Hnd Hget]. split; [auto|].
      intros k. rewrite Hget, Hget1. simpl. unfold visitsKey at 2. simpl.
      rewrite Hkey. destruct (String.eqb_spec key k) as [<-|Hne].
      * apply extendEntry_cons.
      * reflexivity.
    + unfold addEdge in H. rewrite Hkey in H. discriminate.
Qed.

(** The edge map, key by key: the visits to a key, in order. *)
Lemma buildEdgeMap_get :
  forall (positions : BufferAttribute) (edgeMap : EdgeMap),
    buildEdgeMap positions = Ok edgeMap ->
    NoDup (map fst edgeMap)
    /\ forall k,
         Map_get k edgeMap
         = extendEntry None (filter (visitsKey k) (edgeVisits positions)).
Proof.
  intros positions edgeMap H. rewrite buildEdgeMap_visits in H.
  destruct (visits_spec _ _ _ H) as [Hnd Hget].
  split; [apply Hnd; constructor | exact Hget].
Qed.

(** The faces of an entry are indices of triangles of the soup. *)
Lemma edgeMap_faces_in_range :
  forall (positions : BufferAttribute) (edgeMap : EdgeMap) entry f,
    buildEdgeMap positions = Ok edgeMap ->
    In entry edgeMap -> In f (faces (snd entry)) ->
    (3 * f < count positions)%N.
Proof.
  intros positions edgeMap [k e] f H Hin Hf. simpl in Hf.
  destruct (buildEdgeMap_get _ _ H) as [Hnd Hget].
  pose proof (Map_In_get _ _ _ _ Hnd Hin) as Hk. rewrite Hget in Hk.
  assert (Hsub : forall v, In v (filter (visitsKey k) (edgeVisits positions)) ->
                           (3 * fst v < count positions)%N).
  { intros v Hv. apply filter_In in Hv. apply in_edgeVisits. apply Hv. }
  destruct (filter (visitsKey k) (edgeVisits positions)) as [|[i [a b]] rest];
    simpl in Hk; [discriminate|].
  injection Hk as <-. simpl in Hf. destruct Hf as [<-|Hf].
  - apply (Hsub (i, (a, b))). left; reflexivity.
  - apply in_map_iff in Hf. destruct Hf as (v & <- & Hv).
    apply Hsub. right. exact Hv.
Qed.

(** Every visit of a soup whose point count is a multiple of 3 has both of
    its end points. *)
Lemma edgeVisits_defined :
  forall (positions : BufferAttribute) (v : EdgeVisit),
    (count positions mod 3 = 0)%N ->
    In v (edgeVisits positions) ->
    exists a b, snd v = (Some a, Some b).
Proof.
  intros positions [i e] Hmod Hin.
  apply in_edgeVisits in Hin. cbn [fst snd] in Hin. destruct Hin as [Hi He].
  pose proof (N.Div0.div_mod (count positions) 3) as Hd. rewrite Hmod in Hd.
  destruct (fromBufferAttribute_Some positions (i * 3)) as [p0 E0]; [lia|].
  destruct (fromBufferAttribute_Some positions (i * 3 + 1)) as [p1 E1]; [lia|].
  destruct (fromBufferAttribute_Some positions (i * 3 + 2)) as [p2 E2]; [lia|].
  unfold triangleEdges in He. rewrite E0, E1, E2 in He. simpl in He.
  destruct He as [<-|[<-|[<-|[]]]]; simpl; eauto.
Qed.

(** A soup whose point count is a multiple of 3 gets its edge map. *)
Lemma buildEdgeMap_returns :
  forall positions : BufferAttribute,
    (count positions mod 3 = 0)%N ->
    exists edgeMap, buildEdgeMap positions = Ok edgeMap.
Proof.
  intros positions Hmod. rewrite buildEdgeMap_visits.
  apply foldM_total. intros [i e] Hin m. simpl.
  destruct (edgeVisits_defined _ _ Hmod Hin) as (a & b & He). simpl in He.
  subst e. destruct (makeEdgeKey_defined a b) as [key Hkey].
  destruct (addEdge_spec i m _ _ key Hkey) as (m' & E & _). eauto.
Qed.

(** A soup whose point count is not a multiple of 3 has a last, incomplete
    triangle, and building the key of its second edge throws. *)
Lemma buildEdgeMap_throws :
  forall positions : BufferAttribute,
    (count positions mod 3 <> 0)%N ->
    buildEdgeMap positions = Throw TypeError.
Proof.
  intros positions Hmod. unfold buildEdgeMap.
  pose proof (N.Div0.div_mod (count positions) 3) as Hd.
  pose proof (N.mod_lt (count positions) 3 ltac:(lia)) as Hlt.
  set (q := (count positions / 3)%N) in *. clearbody q.
  set (r := (count positions mod 3)%N) in *. clearbody r.
  apply (foldM_throws _ _ _ _ q).
  - apply in_for_indices_one. lia.
  - intros m. unfold triangleEdges.
    rewrite (fromBufferAttribute_None positions (q * 3 + 2)) by lia.
    cbn [foldM].
    destruct (addEdge q m (fromBufferAttribute positions (q * 3),
                           fromBufferAttribute positions (q * 3 + 1)))
      as [m1|e]; cbn [bind].
    + unfold addEdge at 1.
      destruct (makeEdgeKey_undefined (fromBufferAttribute positions (q * 3 + 1)))
        as [-> _].
      reflexivity.
    + rewrite (exn_unique e). reflexivity.
Qed.

Lemma makeEdgeKey_sym :
  forall A B : option Vector3.t, makeEdgeKey A B = makeEdgeKey B A.
Proof.
  intros [a|] [b|]; try reflexivity. simpl. f_equal.
  unfold String.ltb. rewrite (String.compare_antisym (pointKey a) (pointKey b)).
  destruct (String.compare (pointKey b) (pointKey a)) eqn:E; simpl;
    try reflexivity.
  apply String.compare_eq_iff in E. rewrite E. reflexivity.
Qed.

Lemma filter_none :
  forall (A : Type) (f : A -> bool) (l : list A),
    (forall a, In a l -> f a = false) -> filter f l = [].
Proof.
  intros A f l. induction l as [|a l IH]; intros H; simpl; [reflexivity|].
  rewrite (H a (or_introl eq_refl)). apply IH.
  intros a' Ha'. apply H. right. exact Ha'.
Qed.

(** C8: the key of an edge does not depend on the order of its end points;
    hence an edge that the loops of [buildEdgeMap] visit twice, as (A, B)
    in triangle [i] and later as (B, A) in triangle [j], and that no other
    visit shares, is one entry of the map, with the two faces [i] and [j]. *)
Theorem edge_key_order_independent :
  (forall A B : option Vector3.t, makeEdgeKey A B = makeEdgeKey B A)
  /\ forall (positions : BufferAttribute) (edgeMap : EdgeMap) (i j : N)
            (A B : Vector3.t) (key : string) (vs1 vs2 vs3 : list EdgeVisit),
       buildEdgeMap positions = Ok edgeMap ->
       makeEdgeKey (Some A) (Some B) = Ok key ->
       edgeVisits positions
       = (vs1 ++ (i, (Some A, Some B)) :: vs2
              ++ (j, (Some B, Some A)) :: vs3)%list ->
       (forall v, In v (vs1 ++ vs2 ++ vs3)%list -> visitsKey key v = false) ->
       filter (fun entry => String.eqb (fst entry) key) edgeMap
       = [(key, {| faces := [i; j]; vertices := (A, B) |})].
Proof.
  split; [exact makeEdgeKey_sym|].
  intros positions edgeMap i j A B key vs1 vs2 vs3 Hmap Hkey Hvisits Hothers.
  destruct (buildEdgeMap_get _ _ Hmap) as [Hnd Hget].
  apply Map_filter_key; [exact Hnd|].
  rewrite Hget, Hvisits.
  assert (Hi : visitsKey key (i, (Some A, Some B)) = true).
  { unfold visitsKey. cbn [fst snd]. rewrite Hkey. apply String.eqb_refl. }
  assert (Hj : visitsKey key (j, (Some B, Some A)) = true).
  { unfold visitsKey. cbn [fst snd]. rewrite makeEdgeKey_sym, Hkey.
    apply String.eqb_refl. }
  rewrite filter_app. cbn [filter]. rewrite Hi, filter_app. cbn [filter].
  rewrite Hj.
  rewrite (filter_none _ _ vs1), (filter_none _ _ vs2), (filter_none _ _ vs3).
  - reflexivity.
  - intros v Hv. apply Hothers. apply in_or_app. right.
    apply in_or_app. right. exact Hv.
  - intros v Hv. apply Hothers. apply in_or_app. right.
    apply in_or_app. left. exact Hv.
  - intros v Hv. apply Hothers. apply in_or_app. left. exact Hv.
Qed.

(** ** The edge and curvature analyzer *)

Lemma float_of_spec :
  forall (x : float) (f : spec_float), Prim2SF x = f -> x = SF2Prim f.
Proof. intros x f <-. symmetry. apply SF2Prim_Prim2SF. Qed.

Lemma is_nan_spec :
  forall x : float, is_nan x = true <-> Prim2SF x = S754_nan.
Proof.
  intros x. unfold is_nan. rewrite FloatAxioms.eqb_spec.
  destruct (Prim2SF x) as [s|s| |s m e]; unfold SFeqb, SFcompare.
  - split; discriminate.
  - destruct s; split; discriminate.
  - split; reflexivity.
  - rewrite Z.compare_refl, Pos.compare_cont_refl.
    destruct s; split; discriminate.
Qed.

Lemma is_nan_true : forall x : float, is_nan x = true -> x = nan.
Proof.
  intros x H. apply is_nan_spec in H. apply float_of_spec in H. exact H.
Qed.

(** [Math.min(Infinity, x)] is [x]. *)
Lemma Math_min_step_infinity :
  forall x : float, Math_min_step infinity x = x.
Proof.
  intros x. unfold Math_min_step.
  change (is_nan infinity) with false. change (is_pos_zero infinity) with false.
  cbn [orb]. destruct (is_nan x) eqn:Hnan.
  - symmetry. apply is_nan_true. exact Hnan.
  - rewrite andb_false_r.
    destruct (x <? infinity)%float eqn:Hlt; [reflexivity|].
    rewrite FloatAxioms.ltb_spec in Hlt.
    change (Prim2SF infinity) with (S754_infinity false) in Hlt.
    destruct (Prim2SF x) as [s|s| |s m e] eqn:E.
    + discriminate Hlt.
    + destruct s; [discriminate Hlt|].
      apply float_of_spec in E. rewrite E. reflexivity.
    + apply is_nan_spec in E. congruence.
    + discriminate Hlt.
Qed.

Lemma Math_min_pair :
  forall lowest x : float, Math_min [lowest; x] = Math_min_step lowest x.
Proof.
  intros lowest x. unfold Math_min. cbn [fold_left].
  rewrite Math_min_step_infinity. reflexivity.
Qed.

(** One entry: the counters move by the sharp edge the entry is, if any. *)
Lemma scanEdge_spec :
  forall (faceNormals : list Vector3.t) (st st' : EdgeScan)
         (entry : string * Edge),
    scanEdge faceNormals st entry = Ok st' ->
    scan_sharpEdges st'
    = (scan_sharpEdges st
       + N.of_nat (List.length (sharpEdgeOf faceNormals entry)))%N
    /\ scan_sharpEdgeAngles st'
       = (scan_sharpEdgeAngles st ++ map fst (sharpEdgeOf faceNormals entry))%list
    /\ scan_minCurvatureRadius st'
       = fold_left Math_min_step (map snd (sharpEdgeOf faceNormals entry))
                   (scan_minCurvatureRadius st).
Proof.
  intros faceNormals st st' [k e]. unfold scanEdge, sharpEdgeOf.
  cbn [snd]. destruct (faces e) as [|f0 [|f1 [|f2 rest]]]; cbn [List.length].
  1, 2: intros [= <-]; cbn; rewrite app_nil_r; repeat split; lia.
  - change (3 <=? 2)%nat with false. cbv iota. unfold element.
    destruct (nth_error faceNormals (N.to_nat f0)) as [n1|]; [|discriminate].
    destruct (nth_error faceNormals (N.to_nat f1)) as [n2|]; [|discriminate].
    cbn [bind]. fold (dihedralAngleOf n1 n2).
    destruct (dihedralAngleOf n1 n2 <? 90)%float.
    + intros [= <-]. cbn [scan_sharpEdges scan_sharpEdgeAngles
                          scan_minCurvatureRadius List.length map fst snd
                          fold_left].
      rewrite Math_min_pair. repeat split; lia.
    + intros [= <-]. cbn. rewrite app_nil_r. repeat split; lia.
  - change (3 <=? S (S (S (List.length rest))))%nat with true. cbv iota.
    intros [= <-]. cbn. rewrite app_nil_r. repeat split; lia.
Qed.

Lemma scanEdges_spec :
  forall (faceNormals : list Vector3.t) (edgeMap : EdgeMap) (st st' : EdgeScan),
    foldM (scanEdge faceNormals) edgeMap st = Ok st' ->
    scan_sharpEdges st'
    = (scan_sharpEdges st
       + N.of_nat (List.length (sharpEdgesOf faceNormals edgeMap)))%N
    /\ scan_sharpEdgeAngles st'
       = (scan_sharpEdgeAngles st
          ++ map fst (sharpEdgesOf faceNormals edgeMap))%list
    /\ scan_minCurvatureRadius st'
       = fold_left Math_min_step (map snd (sharpEdgesOf faceNormals edgeMap))
                   (scan_minCurvatureRadius st).
Proof.
  intros faceNormals edgeMap. unfold sharpEdgesOf.
  induction edgeMap as [|entry edgeMap IH]; intros st st' H; cbn [foldM] in H.
  - injection H as <-. cbn. rewrite app_nil_r. repeat split; lia.
  - destruct (scanEdge faceNormals st entry) as [st1|e] eqn:E1;
      cbn [bind] in H; [|discriminate].
    apply scanEdge_spec in E1. destruct E1 as (Hs1 & Ha1 & Hm1).
    apply IH in H. destruct H as (Hs & Ha & Hm).
    cbn [flat_map]. rewrite length_app, !map_app, fold_left_app.
    rewrite Hs, Ha, Hm, Hs1, Ha1, Hm1. rewrite app_assoc.
    repeat split; lia.
Qed.

(** [scanEdge] throws only on an entry with two faces one of which has no
    normal. *)
Lemma scanEdge_Throw_inv :
  forall (faceNormals : list Vector3.t) (st : EdgeScan) (entry : string * Edge) e,
    scanEdge faceNormals st entry = Throw e ->
    exists f, In f (faces (snd entry))
              /\ nth_error faceNormals (N.to_nat f) = None.
Proof.
  intros faceNormals st [k e0] e. unfold scanEdge. cbn [snd].
  destruct (faces e0) as [|f0 [|f1 [|f2 rest]]]; try discriminate.
  unfold element.
  destruct (nth_error faceNormals (N.to_nat f0)) as [n1|] eqn:E0.
  - destruct (nth_error faceNormals (N.to_nat f1)) as [n2|] eqn:E1.
    + cbn [bind]. destruct (_ <? 90)%float; discriminate.
    + intros _. exists f1. split; [right; left; reflexivity | exact E1].
  - intros _. exists f0. split; [left; reflexivity | exact E0].
Qed.




(** ** The channel analyzer *)

(** C7: [analyzeChannels] never reports a curved channel, and when it
    classifies (more than 10 tubular samples) the channel is straight; it
    throws only when a sampled triangle has no normal. *)
Theorem analyzeChannels_never_curved :
  forall (positions : BufferAttribute) (faceNormals : list Vector3.t)
         (boundingBox : Box3.t),
    match analyzeChannels positions faceNormals boundingBox with
    | Ok r =>
        curvedChannels r = 0%float
        /\ exists tubularRegions,
             countTubularRegions positions faceNormals = Ok tubularRegions
             /\ straightChannels r
                = (if (10 <? tubularRegions)%N then 1 else 0)%float
    | Throw _ =>
        exists i, In i (for_indices (count positions) 10)
                  /\ nth_error faceNormals (N.to_nat i) = None
    end.
Proof.
  intros positions faceNormals boundingBox. unfold analyzeChannels.
  destruct (countTubularRegions positions faceNormals) as [t|e] eqn:E;
    cbn [bind].
  - destruct (10 <? t)%N eqn:Ht; cbn; (split; [reflexivity|]);
      exists t; rewrite Ht; split; reflexivity.
  - unfold countTubularRegions in E.
    apply foldM_Throw_inv in E. destruct E as (i & c & Hin & Hbody).
    exists i. split; [exact Hin|].
    destruct (element faceNormals i) as [n|e'] eqn:En; [discriminate|].
    apply element_Throw_inv in En. exact En.
Qed.

(** ** The cavity analyzer *)

Lemma countConcaveRegions_spec :
  forall (positions : BufferAttribute) (faceNormals : list Vector3.t)
         (boundingBox : Box3.t) (c : N),
    countConcaveRegions positions faceNormals boundingBox = Ok c ->
    c = N.of_nat
          (List.length (inwardTriangles positions faceNormals boundingBox)).
Proof.
  intros positions faceNormals boundingBox c.
  unfold countConcaveRegions, inwardTriangles.
  replace (N.of_nat _) with
    (0 + N.of_nat (List.length (filter
       (fun i => match nth_error faceNormals (N.to_nat i) with
                 | Some normal => pointsInward positions boundingBox normal i
                 | None => false
                 end) (for_indices (count positions) 1))))%N by lia.
  generalize 0%N as c0. revert c.
  induction (for_indices (count positions) 1) as [|i l IH]; intros c c0 H;
    cbn [foldM filter] in *.
  - injection H as <-. simpl. lia.
  - unfold element in H at 1.
    destruct (nth_error faceNormals (N.to_nat i)) as [n|]; [|discriminate].
    cbn [bind] in H. apply IH in H. rewrite H.
    destruct (pointsInward positions boundingBox n i); cbn [List.length]; lia.
Qed.

(** C5, as the code has it: the potential cavity count is the concave-region
    count divided by 10, rounded down, and the hole-depth list holds the one
    value 0.3 x the smallest bounding-box dimension exactly when the
    concave-region count is positive, a count the division may well round
    down to no cavity at all; it is empty otherwise.  The analyzer throws
    only on a point count that is not a multiple of 3 or on a triangle
    without a normal. *)
Theorem analyzeCavities_estimates :
  forall (positions : BufferAttribute) (faceNormals : list Vector3.t)
         (boundingBox : Box3.t),
    match analyzeCavities positions faceNormals boundingBox with
    | Ok r =>
        let concaveRegions :=
          N.of_nat (List.length
                      (inwardTriangles positions faceNormals boundingBox)) in
        let size := Box3.getSize boundingBox in
        countConcaveRegions positions faceNormals boundingBox
        = Ok concaveRegions
        /\ potentialCavities r = numOfN (concaveRegions / 10)
        /\ estimatedHoleDepths r
           = (if (0 <? concaveRegions)%N
              then [(Math_min [Vector3.x size; Vector3.y size; Vector3.z size]
                     * 0.3)%float]
              else [])
    | Throw _ =>
        (count positions mod 3 <> 0)%N
        \/ exists i, (3 * i < count positions)%N
                     /\ nth_error faceNormals (N.to_nat i) = None
    end.
Proof.
  intros positions faceNormals boundingBox. unfold analyzeCavities.
  destruct (buildEdgeMap positions) as [edgeMap|e] eqn:Emap; cbn [bind].
  - destruct (countConcaveRegions positions faceNormals boundingBox)
      as [c|e] eqn:Ec; cbn [bind].
    + pose proof (countConcaveRegions_spec _ _ _ _ Ec) as Hc. rewrite <- Hc.
      cbn. repeat split; reflexivity.
    + right. unfold countConcaveRegions in Ec.
      apply foldM_Throw_inv in Ec. destruct Ec as (i & c & Hin & Hbody).
      exists i. split; [apply in_for_indices_one; exact Hin|].
      destruct (element faceNormals i) as [n|e'] eqn:En; [discriminate|].
      apply element_Throw_inv in En. exact En.
  - left. intros Hmod.
    destruct (buildEdgeMap_returns positions Hmod) as [m Hm]. congruence.
Qed.

(** ** Totality of the analyzers *)

Lemma length_calculateFaceNormals :
  forall positions : BufferAttribute,
    List.length (calculateFaceNormals positions)
    = N.to_nat ((count positions + 2) / 3).
Proof.
  intros positions. unfold calculateFaceNormals.
  rewrite length_map. apply length_for_indices_one.
Qed.

Lemma calculateFaceNormals_covers :
  forall positions : BufferAttribute,
    covers (calculateFaceNormals positions) positions.
Proof.
  intros positions. unfold covers. rewrite length_calculateFaceNormals. lia.
Qed.

Lemma covers_index :
  forall (faceNormals : list Vector3.t) (positions : BufferAttribute) (i : N),
    covers faceNormals positions ->
    (3 * i < count positions)%N ->
    (N.to_nat i < List.length faceNormals)%nat.
Proof.
  intros faceNormals positions i Hc Hi. unfold covers in Hc.
  pose proof (N.Div0.div_mod (count positions + 2) 3) as Hd.
  pose proof (N.mod_lt (count positions + 2) 3 ltac:(lia)) as Hm.
  set (q := ((count positions + 2) / 3)%N) in *. clearbody q.
  set (r := ((count positions + 2) mod 3)%N) in *. clearbody r.
  lia.
Qed.

Lemma covers_element :
  forall (faceNormals : list Vector3.t) (positions : BufferAttribute)
         (stride i : N),
    covers faceNormals positions ->
    (0 < stride)%N ->
    In i (for_indices (count positions) stride) ->
    exists n, element faceNormals i = Ok n.
Proof.
  intros faceNormals positions stride i Hc Hs Hin.
  apply element_covered. apply (covers_index _ positions); [exact Hc|].
  apply (in_for_indices _ stride); assumption.
Qed.

Lemma analyzeEdges_returns :
  forall (positions : BufferAttribute) (faceNormals : list Vector3.t),
    (count positions mod 3 = 0)%N ->
    covers faceNormals positions ->
    exists r, analyzeEdges positions faceNormals = Ok r.
Proof.
  intros positions faceNormals Hmod Hc. unfold analyzeEdges.
  destruct (buildEdgeMap_returns positions Hmod) as [edgeMap Emap].
  rewrite Emap. cbn [bind].
  match goal with
  | |- context [foldM ?b ?l ?s0] =>
      destruct (foldM_total _ _ b l) with (s := s0) as [st Est]
  end.
  - intros entry Hin st.
    destruct (scanEdge faceNormals st entry) as [st'|e] eqn:E; [eauto|].
    apply scanEdge_Throw_inv in E. destruct E as (f & Hf & Hnone).
    apply nth_error_None in Hnone.
    pose proof (edgeMap_faces_in_range positions edgeMap entry f Emap Hin Hf).
    pose proof (covers_index faceNormals positions f Hc H). lia.
  - rewrite Est. cbn [bind]. eauto.
Qed.

Lemma countConcaveRegions_returns :
  forall (positions : BufferAttribute) (faceNormals : list Vector3.t)
         (boundingBox : Box3.t),
    covers faceNormals positions ->
    exists c, countConcaveRegions positions faceNormals boundingBox = Ok c.
Proof.
  intros positions faceNormals boundingBox Hc. unfold countConcaveRegions.
  apply foldM_total. intros i Hin c.
  destruct (covers_element faceNormals positions 1 i Hc ltac:(lia) Hin)
    as [n En].
  rewrite En. cbn [bind]. eauto.
Qed.

Lemma analyzeCavities_returns :
  forall (positions : BufferAttribute) (faceNormals : list Vector3.t)
         (boundingBox : Box3.t),
    (count positions mod 3 = 0)%N ->
    covers faceNormals positions ->
    exists r, analyzeCavities positions faceNormals boundingBox = Ok r.
Proof.
  intros positions faceNormals boundingBox Hmod Hc. unfold analyzeCavities.
  destruct (buildEdgeMap_returns positions Hmod) as [edgeMap Emap].
  destruct (countConcaveRegions_returns positions faceNormals boundingBox Hc)
    as [c Ec].
  rewrite Emap. cbn [bind]. rewrite Ec. cbn [bind]. eauto.
Qed.

Lemma analyzeChannels_returns :
  forall (positions : BufferAttribute) (faceNormals : list Vector3.t)
         (boundingBox : Box3.t),
    covers faceNormals positions ->
    exists r, analyzeChannels positions faceNormals boundingBox = Ok r.
Proof.
  intros positions faceNormals boundingBox Hc. unfold analyzeChannels.
  assert (Ht : exists t, countTubularRegions positions faceNormals = Ok t).
  { unfold countTubularRegions. apply foldM_total. intros i Hin c.
    destruct (covers_element faceNormals positions 10 i Hc ltac:(lia) Hin)
      as [n En].
    rewrite En. cbn [bind]. eauto. }
  destruct Ht as [t Et]. rewrite Et. cbn [bind].
  destruct (10 <? t)%N; cbn; eauto.
Qed.

Lemma binNormals_returns :
  forall (positions : BufferAttribute) (faceNormals : list Vector3.t),
    covers faceNormals positions ->
    exists bins, binNormals positions faceNormals = Ok bins.
Proof.
  intros positions faceNormals Hc. unfold binNormals.
  apply foldM_total. intros i Hin bins.
  destruct (covers_element faceNormals positions 1 i Hc ltac:(lia) Hin)
    as [n En].
  rewrite En. cbn [bind]. cbv zeta.
  match goal with
  | |- context [Map_has ?k bins] =>
      unfold Map_has; destruct (Map_get k bins) as [bin|] eqn:Eb; cbn [negb]
  end.
  - rewrite Eb. eauto.
  - rewrite Map_get_set_same. eauto.
Qed.

Lemma analyzeGeometricComplexity_returns :
  forall (positions : BufferAttribute) (faceNormals : list Vector3.t)
         (boundingBox : Box3.t) (surfaceArea : float),
    (count positions mod 3 = 0)%N ->
    covers faceNormals positions ->
    exists r,
      analyzeGeometricComplexity positions faceNormals boundingBox surfaceArea
      = Ok r.
Proof.
  intros positions faceNormals boundingBox area Hmod Hc.
  unfold analyzeGeometricComplexity.
  destruct (buildEdgeMap_returns positions Hmod) as [edgeMap Emap].
  destruct (binNormals_returns positions faceNormals Hc) as [bins Eb].
  destruct (match faceNormals with
            | [] => (0%float, 0%float)
            | n0 :: rest => curvatureSums n0 rest (0%float, 0%float)
            end) as [cs cq].
  rewrite Eb. cbn [bind].
  destruct (fold_left _ bins (0%float, None, false)) as [[a n] b].
  rewrite Emap. cbn [bind]. eauto.
Qed.

Lemma nearestOpposite_returns :
  forall (positions : BufferAttribute) (faceNormals : list Vector3.t)
         (triIndex : N),
    covers faceNormals positions ->
    (3 * triIndex < count positions)%N ->
    exists d, nearestOpposite positions faceNormals triIndex = Ok d.
Proof.
  intros positions faceNormals t Hc Ht. unfold nearestOpposite.
  destruct (element_covered _ faceNormals t (covers_index _ _ _ Hc Ht))
    as [n En].
  rewrite En. cbn [bind].
  apply foldM_total. intros i Hin d.
  destruct (i =? t)%N; [eauto|].
  destruct (covers_element faceNormals positions 5 i Hc ltac:(lia) Hin)
    as [cn Ecn].
  rewrite Ecn. cbn [bind].
  destruct (-0.5 <? Vector3.dot n cn)%float; eauto.
Qed.

Lemma analyzeWallThickness_returns :
  forall (positions : BufferAttribute) (faceNormals : list Vector3.t)
         (boundingBox : Box3.t),
    covers faceNormals positions ->
    drawsInRange positions ->
    exists r, analyzeWallThickness positions faceNormals boundingBox = Ok r.
Proof.
  intros positions faceNormals boundingBox Hc Hdraws.
  unfold analyzeWallThickness. cbv zeta.
  match goal with
  | |- context [foldM ?b ?l ?s0] =>
      destruct (foldM_total _ _ b l) with (s := s0) as [samples Es]
  end.
  - intros s Hin samples. apply in_seq in Hin.
    destruct (Hdraws s ltac:(lia)) as (t & Et & Ht).
    rewrite Et.
    destruct (nearestOpposite_returns positions faceNormals t Hc Ht) as [d Ed].
    rewrite Ed. cbn [bind]. eauto.
  - rewrite Es. cbn [bind]. eauto.
Qed.

Lemma analyzeSTLGeometry_returns :
  forall positions : BufferAttribute,
    (count positions mod 3 = 0)%N ->
    drawsInRange positions ->
    exists data, analyzeSTLGeometry positions = Ok data.
Proof.
  intros positions Hmod Hdraws. unfold analyzeSTLGeometry. cbv zeta.
  pose proof (calculateFaceNormals_covers positions) as Hc.
  destruct (buildEdgeMap_returns positions Hmod) as [edgeMap Emap].
  rewrite Emap. cbn [bind].
  destruct (analyzeEdges_returns positions _ Hmod Hc) as [r1 E1].
  rewrite E1. cbn [bind].
  destruct (analyzeCavities_returns positions _
              (computeBoundingBox positions) Hmod Hc) as [r2 E2].
  rewrite E2. cbn [bind].
  destruct (analyzeChannels_returns positions _
              (computeBoundingBox positions) Hc) as [r3 E3].
  rewrite E3. cbn [bind].
  destruct (analyzeWallThickness_returns positions _
              (computeBoundingBox positions) Hc Hdraws) as [r4 E4].
  rewrite E4. cbn [bind].
  match goal with
  | |- context [analyzeGeometricComplexity ?p ?n ?b ?a] =>
      destruct (analyzeGeometricComplexity_returns p n b a Hmod Hc) as [r5 E5]
  end.
  rewrite E5. cbn [bind]. eauto.
Qed.

(** ** Degenerate triangles *)

Lemma eqb_zero_spec :
  forall x : float,
    (x =? 0)%float = true <-> exists s, Prim2SF x = S754_zero s.
Proof.
  intros x. rewrite FloatAxioms.eqb_spec.
  change (Prim2SF 0) with (S754_zero false).
  destruct (Prim2SF x) as [s|s| |s m e]; unfold SFeqb, SFcompare.
  - split; eauto.
  - destruct s; (split; [discriminate | intros [s' H]; discriminate H]).
  - split; [discriminate | intros [s' H]; discriminate H].
  - destruct s; (split; [discriminate | intros [s' H]; discriminate H]).
Qed.

Lemma eqb_zero_cases :
  forall x : float, (x =? 0)%float = true -> x = zero \/ x = neg_zero.
Proof.
  intros x H. apply eqb_zero_spec in H. destruct H as [s H].
  apply float_of_spec in H. destruct s; [right | left]; exact H.
Qed.

Lemma is_finite_cases :
  forall x : float,
    is_finite x = true ->
    (exists s, Prim2SF x = S754_zero s)
    \/ exists s m e, Prim2SF x = S754_finite s m e.
Proof.
  intros x. unfold is_finite, is_infinity.
  rewrite FloatAxioms.eqb_spec, abs_spec.
  change (Prim2SF infinity) with (S754_infinity false).
  destruct (is_nan x) eqn:Hnan; [discriminate|]. cbn [orb].
  destruct (Prim2SF x) as [s|s| |s m e] eqn:E; cbn; try discriminate; eauto.
  apply is_nan_spec in E. congruence.
Qed.

Lemma zero_mul_finite :
  forall z x : float,
    (z =? 0)%float = true -> is_finite x = true ->
    ((z * x =? 0)%float = true) /\ ((x * z =? 0)%float = true).
Proof.
  intros z x Hz Hx. apply eqb_zero_spec in Hz. destruct Hz as [sz Hz].
  split; apply eqb_zero_spec; rewrite mul_spec, Hz;
    destruct (is_finite_cases x Hx) as [[s E]|(s & m & e & E)]; rewrite E;
    cbn; eauto.
Qed.

Lemma zero_add_zero :
  forall a b : float,
    (a =? 0)%float = true -> (b =? 0)%float = true ->
    (a + b =? 0)%float = true.
Proof.
  intros a b Ha Hb. apply eqb_zero_spec in Ha, Hb.
  destruct Ha as [sa Ha]. destruct Hb as [sb Hb].
  apply eqb_zero_spec. rewrite add_spec, Ha, Hb.
  destruct sa, sb; cbn; eauto.
Qed.

Lemma isZeroVector_spec :
  forall v : Vector3.t,
    isZeroVector v = true ->
    (Vector3.x v =? 0)%float = true /\ (Vector3.y v =? 0)%float = true
    /\ (Vector3.z v =? 0)%float = true.
Proof.
  intros v H. unfold isZeroVector in H.
  apply andb_prop in H. destruct H as [H Hz].
  apply andb_prop in H. tauto.
Qed.

(** Normalizing a zero vector divides it by 1: it comes back as it is. *)
Lemma normalize_zero :
  forall v : Vector3.t, isZeroVector v = true -> Vector3.normalize v = v.
Proof.
  intros [x y z] H. apply isZeroVector_spec in H. cbn in H.
  destruct H as (Hx & Hy & Hz).
  destruct (eqb_zero_cases x Hx) as [->| ->];
    destruct (eqb_zero_cases y Hy) as [->| ->];
    destruct (eqb_zero_cases z Hz) as [->| ->]; reflexivity.
Qed.

(** The dot product of a zero vector and a finite vector is zero. *)
Lemma dot_zero :
  forall v n : Vector3.t,
    isZeroVector v = true -> isFiniteVector n = true ->
    (Vector3.dot v n =? 0)%float = true /\ (Vector3.dot n v =? 0)%float = true.
Proof.
  intros v n Hv Hn. apply isZeroVector_spec in Hv. destruct Hv as (Hx & Hy & Hz).
  unfold isFiniteVector in Hn.
  apply andb_prop in Hn. destruct Hn as [Hn Hnz].
  apply andb_prop in Hn. destruct Hn as [Hnx Hny].
  unfold Vector3.dot.
  split; repeat apply zero_add_zero;
    first [ apply (zero_mul_finite _ _ Hx Hnx)
          | apply (zero_mul_finite _ _ Hy Hny)
          | apply (zero_mul_finite _ _ Hz Hnz) ].
Qed.

Lemma nth_error_calculateFaceNormals :
  forall (positions : BufferAttribute) (i : N),
    (3 * i < count positions)%N ->
    nth_error (calculateFaceNormals positions) (N.to_nat i)
    = Some (Vector3.normalize (crossOf positions i)).
Proof.
  intros positions i Hi. unfold calculateFaceNormals.
  rewrite for_indices_one, nth_error_map, nth_error_map.
  assert (Hlt : (N.to_nat i < N.to_nat ((count positions + 2) / 3))%nat).
  { pose proof (covers_index _ positions i
                  (calculateFaceNormals_covers positions) Hi) as H.
    rewrite length_calculateFaceNormals in H. exact H. }
  rewrite (nth_error_nth' _ 0%nat) by (rewrite length_seq; exact Hlt).
  rewrite seq_nth by exact Hlt. cbn [option_map].
  rewrite Nat.add_0_l, N2Nat.id. reflexivity.
Qed.

(** C9: the face normal computer returns one normal per triangle without
    ever throwing; the normal of a triangle whose cross product is the zero
    vector is that zero vector, not NaN; the dot product of a zero normal
    and a finite vector is zero; and on every soup whose point count is a
    multiple of 3 each consumer of the normals returns (the wall thickness
    sampler as long as the indices it draws are indices of triangles). *)
Theorem degenerate_normals_tolerated :
  (forall positions : BufferAttribute,
      List.length (calculateFaceNormals positions)
      = N.to_nat ((count positions + 2) / 3))
  /\ (forall (positions : BufferAttribute) (i : N),
         (3 * i < count positions)%N ->
         isZeroVector (crossOf positions i) = true ->
         nth_error (calculateFaceNormals positions) (N.to_nat i)
         = Some (crossOf positions i))
  /\ (forall v n : Vector3.t,
         isZeroVector v = true -> isFiniteVector n = true ->
         (Vector3.dot v n =? 0)%float = true
         /\ (Vector3.dot n v =? 0)%float = true)
  /\ (forall positions : BufferAttribute,
         (count positions mod 3 = 0)%N ->
         let faceNormals := calculateFaceNormals positions in
         let boundingBox := computeBoundingBox positions in
         (exists r, analyzeEdges positions faceNormals = Ok r)
         /\ (exists r, analyzeCavities positions faceNormals boundingBox = Ok r)
         /\ (exists r, analyzeChannels positions faceNormals boundingBox = Ok r)
         /\ (forall surfaceArea,
                exists r,
                  analyzeGeometricComplexity positions faceNormals boundingBox
                                             surfaceArea = Ok r)
         /\ (drawsInRange positions ->
             exists r,
               analyzeWallThickness positions faceNormals boundingBox = Ok r)).
Proof.
  split; [exact length_calculateFaceNormals|].
  split.
  { intros positions i Hi Hz.
    rewrite nth_error_calculateFaceNormals by exact Hi.
    rewrite normalize_zero by exact Hz. reflexivity. }
  split; [exact dot_zero|].
  intros positions Hmod faceNormals boundingBox.
  pose proof (calculateFaceNormals_covers positions) as Hc.
  split; [apply analyzeEdges_returns; assumption|].
  split; [apply analyzeCavities_returns; assumption|].
  split; [apply analyzeChannels_returns; assumption|].
  split; [intros a; apply analyzeGeometricComplexity_returns; assumption|].
  intros Hd. apply analyzeWallThickness_returns; assumption.
Qed.

(** ** The entry point *)

Lemma scanTriangle_normalSum :
  forall (positions : BufferAttribute) (l : list N) (st : BulkScan),
    scan_normalSum (fold_left (scanTriangle positions) l st)
    = fold_left Vector3.addVectors (map (unitNormalOf positions) l)
                (scan_normalSum st).
Proof.
  intros positions l. induction l as [|t l IH]; intros st; cbn [fold_left map].
  - reflexivity.
  - rewrite IH. reflexivity.
Qed.

(** C4, as the code has it: each component of the normal distribution is
    the absolute value of the sum, over the triangles, of the signed
    component of the unit normal, divided by the triangle count.  The entry
    point throws only on a point count that is not a multiple of 3 or when
    the wall thickness sampler draws an index that is not a triangle's. *)
Theorem normalDistribution_abs_of_sum :
  forall positions : BufferAttribute,
    match analyzeSTLGeometry positions with
    | Ok data =>
        let normalSum := normalSumOf positions in
        let triangleCount := (numOfN (count positions) / 3)%float in
        normalDistribution data
        = Vector3.new (abs (Vector3.x normalSum) / triangleCount)
                      (abs (Vector3.y normalSum) / triangleCount)
                      (abs (Vector3.z normalSum) / triangleCount)
    | Throw _ => (count positions mod 3 <> 0)%N \/ ~ drawsInRange positions
    end.
Proof.
  intros positions.
  destruct (analyzeSTLGeometry positions) as [data|e] eqn:E.
  - unfold analyzeSTLGeometry in E. cbv zeta in E.
    repeat (apply bind_Ok_inv in E; destruct E as (? & _ & E)).
    injection E as <-. cbn [normalDistribution].
    rewrite scanTriangle_normalSum. reflexivity.
  - destruct (N.eq_dec (count positions mod 3) 0) as [Hmod|Hmod];
      [right | left; exact Hmod].
    intros Hd. destruct (analyzeSTLGeometry_returns positions Hmod Hd).
    congruence.
Qed.

(** C1, as the code has it: the entry point validates nothing.  On a point
    count that is not a multiple of 3 it throws, the TypeError of
    [buildEdgeMap] reading past the end of the positions, which it calls
    before any of the [analyze] functions, so that no bundle is returned;
    an empty point sequence is analyzed like any other and gets a bundle,
    with zero counts. *)
Theorem malformed_input_outcome :
  (forall positions : BufferAttribute,
      (count positions mod 3 <> 0)%N ->
      buildEdgeMap positions = Throw TypeError
      /\ analyzeSTLGeometry positions = Throw TypeError)
  /\ exists data,
       analyzeSTLGeometry [] = Ok data
       /\ vertexCount data = 0%float /\ triangleCount data = 0%float.
Proof.
  split.
  - intros positions Hmod.
    pose proof (buildEdgeMap_throws positions Hmod) as Hmap.
    split; [exact Hmap|].
    unfold analyzeSTLGeometry. cbv zeta. rewrite Hmap. reflexivity.
  - eexists. split; [reflexivity|]. split; reflexivity.
Qed.

(** ** The validation engine *)

(** C2: whatever the metrics of the bundle are, NaN and the sentinels
    included, [validateModel] returns the same twelve checks, under the same
    names and in the same order. *)
Theorem validateModel_fixed_checks :
  forall data : ModelData,
    map name (validateModel data) = checkNames
    /\ List.length (validateModel data) = 12%nat.
Proof.
  intros data. split; reflexivity.
Qed.

(** The envelope check fails with severity error as soon as the length is
    not within the 50 mm of the guideline. *)
Lemma envelope_check_fails :
  forall data : ModelData,
    (Dimensions.length (dimensions data)
     <=? Dimensions.length GUIDELINES.maxDimensions)%float = false ->
    exists r,
      resultNamed "Dimensioni Massime" (validateModel data) = Some r
      /\ passed r = false /\ severity r = Some error.
Proof.
  intros data Hlen.
  eexists. split; [reflexivity|].
  cbn [passed severity]. rewrite Hlen. split; reflexivity.
Qed.

(** C6: a bundle whose length is 60 mm fails the check "Dimensioni Massime"
    with severity error, whatever the rest of the bundle is. *)
Theorem envelope_check_60mm :
  forall data : ModelData,
    Dimensions.length (dimensions data) = 60%float ->
    exists r,
      resultNamed "Dimensioni Massime" (validateModel data) = Some r
      /\ passed r = false /\ severity r = Some error.
Proof.
  intros data Hlen. apply envelope_check_fails.
  rewrite Hlen. reflexivity.
Qed.

(** C10: every result carries a severity, one of error, warning and info,
    and a result of severity error has not passed. *)
Theorem validateModel_severity :
  forall data : ModelData,
    Forall (fun r =>
              exists s, severity r = Some s
                        /\ (s = error \/ s = warning \/ s = info)
                        /\ (s = error -> passed r = false))
           (validateModel data).
Proof.
  intros data. unfold validateModel.
  repeat (apply Forall_cons || apply Forall_nil);
    cbn [severity passed];
    repeat match goal with
           | |- context [if ?b then _ else _] => destruct b
           end;
    eexists; (split; [reflexivity|]);
    (split; [auto|]); intros H; (reflexivity || discriminate H).
Qed.

End Properties.

(** * The engine on the sample meshes, with the reference host *)

(** C1: the empty point sequence is not rejected; the entry point returns a
    bundle for it, whatever the host. *)
Lemma empty_input_is_analyzed :
  (count [] =? 0)%N = true
  /\ forall host : Host, exists data, @analyzeSTLGeometry host [] = Ok data.
Proof.
  split; [reflexivity|]. intros host. eexists. reflexivity.
Defined.

(** C1: four points, one triangle and a stray point. *)
Lemma malformed_input_outcome_witness :
  (count (firstn 4 Samples.square) mod 3 <> 0)%N
  /\ @buildEdgeMap Reference.host (firstn 4 Samples.square) = Throw TypeError
  /\ @analyzeSTLGeometry Reference.host (firstn 4 Samples.square)
     = Throw TypeError.
Proof.
  split; [vm_compute; discriminate|].
  apply (proj1 (@malformed_input_outcome Reference.host)).
  vm_compute; discriminate.
Defined.


(** The fold of [Samples.longFold], whose points are further apart than
    binary32 coordinates can be, has one sharp edge, whose estimated radius
    is +Infinity, and the analyzer reports the radius 0: a radius other than
    +Infinity is needed for the reported minimum to be the minimum. *)
Lemma infinite_radius_reported_as_zero :
  exists edgeMap r,
    @buildEdgeMap Reference.host Samples.longFold = Ok edgeMap
    /\ @analyzeEdges Reference.host Samples.longFold
         (calculateFaceNormals Samples.longFold) = Ok r
    /\ sharpEdges r = 1%float
    /\ map snd (@sharpEdgesOf Reference.host
                  (calculateFaceNormals Samples.longFold) edgeMap)
       = [infinity]
    /\ estimatedMinCurvatureRadius r = 0%float.
Proof.
  do 2 eexists.
  split; [vm_compute; reflexivity|].
  split; [vm_compute; reflexivity|].
  split; [reflexivity|].
  split; [vm_compute; reflexivity | reflexivity].
Defined.

(** C4: on the unit cube the normals cancel and the reported distribution
    is zero on every axis, where the mean of the absolute components is a
    third. *)
Lemma closed_mesh_distribution_is_zero :
  exists data,
    @analyzeSTLGeometry Reference.host (Samples.box 1 1 1) = Ok data
    /\ normalDistribution data = Vector3.new 0 0 0
    /\ meanAbsNormal (Samples.box 1 1 1)
       = Vector3.new (4 / 12) (4 / 12) (4 / 12).
Proof.
  eexists.
  split; [vm_compute; reflexivity|].
  split; [reflexivity | vm_compute; reflexivity].
Defined.

(** C5: the two facing plates are 2 concave regions, which is no potential
    cavity, and yet a hole depth is estimated. *)
Lemma hole_depth_without_cavity :
  exists r,
    @analyzeCavities Reference.host Samples.facingPlates
      (calculateFaceNormals Samples.facingPlates)
      (computeBoundingBox Samples.facingPlates) = Ok r
    /\ @countConcaveRegions Samples.facingPlates
         (calculateFaceNormals Samples.facingPlates)
         (computeBoundingBox Samples.facingPlates) = Ok 2%N
    /\ potentialCavities r = 0%float
    /\ estimatedHoleDepths r = [(1 * 0.3)%float].
Proof.
  eexists.
  split; [vm_compute; reflexivity|].
  split; [vm_compute; reflexivity|].
  split; reflexivity.
Defined.

(** C6: a bar of 60 x 10 x 10 mm. *)
Lemma envelope_check_60mm_witness :
  exists data,
    @analyzeSTLGeometry Reference.host (Samples.box 60 10 10) = Ok data
    /\ Dimensions.length (dimensions data) = 60%float
    /\ exists r,
         resultNamed "Dimensioni Massime" (@validateModel Reference.host data)
         = Some r
         /\ passed r = false /\ severity r = Some error.
Proof.
  eexists.
  split; [vm_compute; reflexivity|].
  split; [reflexivity|].
  apply (@envelope_check_60mm Reference.host). reflexivity.
Defined.

(** C8: the diagonal of the square, from (1, 1, 0) to (0, 0, 0) in triangle
    0 and back in triangle 1. *)
Lemma edge_key_order_independent_witness :
  exists edgeMap,
    @buildEdgeMap Reference.host Samples.square = Ok edgeMap
    /\ filter (fun entry =>
                 String.eqb (fst entry)
                   "0.0000,0.0000,0.0000-1.0000,1.0000,0.0000")
              edgeMap
       = [("0.0000,0.0000,0.0000-1.0000,1.0000,0.0000",
           {| faces := [0%N; 1%N];
              vertices := (Samples.P 1 1 0, Samples.P 0 0 0) |})].
Proof.
  eexists.
  split; [vm_compute; reflexivity|].
  apply (proj2 (@edge_key_order_independent Reference.host)
           Samples.square _ 0%N 1%N (Samples.P 1 1 0) (Samples.P 0 0 0) _
           [(0%N, (Some (Samples.P 0 0 0), Some (Samples.P 0 1 0)));
            (0%N, (Some (Samples.P 0 1 0), Some (Samples.P 1 1 0)))]
           []
           [(1%N, (Some (Samples.P 1 1 0), Some (Samples.P 1 0 0)));
            (1%N, (Some (Samples.P 1 0 0), Some (Samples.P 0 0 0)))]).
  - vm_compute; reflexivity.
  - vm_compute; reflexivity.
  - vm_compute; reflexivity.
  - intros v [<-|[<-|[<-|[<-|[]]]]]; vm_compute; reflexivity.
Defined.

(** C9: the first triangle of [Samples.degenerateAndCube] has two
    coincident vertices; its normal is the zero vector, the analyzers
    return, and so does the wall thickness sampler on the triangle it
    draws. *)
Lemma degenerate_normals_tolerated_witness :
  nth_error (calculateFaceNormals Samples.degenerateAndCube) 0
  = Some (Vector3.new 0 0 0)
  /\ (exists r,
         @analyzeEdges Reference.host Samples.degenerateAndCube
           (calculateFaceNormals Samples.degenerateAndCube) = Ok r)
  /\ (exists r,
         @analyzeWallThickness Reference.host Samples.degenerateAndCube
           (calculateFaceNormals Samples.degenerateAndCube)
           (computeBoundingBox Samples.degenerateAndCube) = Ok r).
Proof.
  destruct (@degenerate_normals_tolerated Reference.host)
    as (_ & Hzero & _ & Hconsumers).
  split.
  - apply (Hzero Samples.degenerateAndCube 0%N); vm_compute; reflexivity.
  - destruct (Hconsumers Samples.degenerateAndCube) as (He & _ & _ & _ & Hw).
    + vm_compute; reflexivity.
    + split; [exact He|]. apply Hw.
      intros s Hs. change (s < 1)%nat in Hs.
      assert (Hs0 : s = 0%nat) by lia. subst s.
      eexists. split; vm_compute; reflexivity.
Defined.

(** The unit cube: what the engine finds on it. *)
Example unit_cube_bundle :
  exists data,
    @analyzeSTLGeometry Reference.host (Samples.box 1 1 1) = Ok data
    /\ dimensions data = Dimensions.new 1 1 1
    /\ surfaceArea data = 6%float
    /\ triangleCount data = 12%float
    /\ edgeCount data = 18%float
    /\ sharpEdges (edgeAnalysis data) = 0%float
    /\ tJunctionCount (edgeAnalysis data) = 0%float
    /\ boundaryLoops (cavityAnalysis data) = 0%float
    /\ hasFlatBase (geometricComplexity data) = true
    /\ flatBaseArea (geometricComplexity data) = 1%float
    /\ flatBaseNormal (geometricComplexity data) = Some (Vector3.new 0 0 (-1)).
Proof.
  eexists. split; [vm_compute; reflexivity|]. repeat split.
Qed.

(** The edge map of the square: five edges, the diagonal with two faces. *)
Example square_edge_map :
  exists edgeMap,
    @buildEdgeMap Reference.host Samples.square = Ok edgeMap
    /\ map (fun entry => (fst entry, faces (snd entry))) edgeMap
       = [("0.0000,0.0000,0.0000-0.0000,1.0000,0.0000", [0%N]);
          ("0.0000,1.0000,0.0000-1.0000,1.0000,0.0000", [0%N]);
          ("0.0000,0.0000,0.0000-1.0000,1.0000,0.0000", [0%N; 1%N]);
          ("1.0000,0.0000,0.0000-1.0000,1.0000,0.0000", [1%N]);
          ("0.0000,0.0000,0.0000-1.0000,0.0000,0.0000", [1%N])].
Proof.
  eexists. split; [vm_compute; reflexivity | reflexivity].
Qed.

(** * Further properties of the engine, the page and the earlier page *)

Section FurtherProperties.

Context {host : Host}.

(** ** Comparisons and signs of numbers *)

Lemma SFcompare_antisym :
  forall f1 f2 : spec_float,
    SFcompare f2 f1 = option_map CompOpp (SFcompare f1 f2).
Proof.
  intros [s1|s1| |s1 m1 e1] [s2|s2| |s2 m2 e2]; cbn;
    try reflexivity;
    try (destruct s1; reflexivity);
    try (destruct s2; reflexivity);
    try (destruct s1, s2; reflexivity).
  f_equal. destruct s1, s2; try reflexivity.
  - rewrite (Z.compare_antisym e2 e1).
    destruct (e2 ?= e1)%Z; cbn; try reflexivity.
    rewrite (Pos.compare_cont_antisym m1 m2 Eq). reflexivity.
  - rewrite (Z.compare_antisym e2 e1).
    destruct (e2 ?= e1)%Z; cbn; try reflexivity.
    rewrite (Pos.compare_cont_antisym m1 m2 Eq). reflexivity.
Qed.

(** [a <= b] excludes [b < a]. *)
Lemma leb_ltb_false :
  forall a b : float, (a <=? b)%float = true -> (b <? a)%float = false.
Proof.
  intros a b. rewrite FloatAxioms.leb_spec, FloatAxioms.ltb_spec.
  unfold SFleb, SFltb. rewrite (SFcompare_antisym (Prim2SF a) (Prim2SF b)).
  destruct (SFcompare (Prim2SF a) (Prim2SF b)) as [[| |]|]; cbn;
    intros H; (reflexivity || discriminate H).
Qed.

(** Neither side of a comparison that holds is NaN. *)
Lemma ltb_not_nan :
  forall a b : float,
    (a <? b)%float = true -> is_nan a = false /\ is_nan b = false.
Proof.
  intros a b. rewrite FloatAxioms.ltb_spec. unfold SFltb.
  intros H. split.
  - destruct (is_nan a) eqn:E; [|reflexivity].
    apply is_nan_spec in E. rewrite E in H. discriminate H.
  - destruct (is_nan b) eqn:E; [|reflexivity].
    apply is_nan_spec in E. rewrite E in H.
    destruct (Prim2SF a); discriminate H.
Qed.

Lemma compare_cont_Lt_le :
  forall mm c1 c2 : positive,
    (c1 <= c2)%positive ->
    Pos.compare_cont Eq mm c1 = Lt -> Pos.compare_cont Eq mm c2 = Lt.
Proof.
  intros mm c1 c2 Hle H.
  change ((mm ?= c1)%positive = Lt) in H. change ((mm ?= c2)%positive = Lt).
  apply Pos.compare_lt_iff in H. apply Pos.compare_lt_iff.
  exact (Pos.lt_le_trans _ _ _ H Hle).
Qed.

(** The mantissa of 1 is below that of 1.2, both at the exponent -52. *)
Lemma mantissa_one_le_hollow :
  (4503599627370496 <= 5404319552844595)%positive.
Proof. intros H. vm_compute in H. discriminate H. Qed.

(** A number below 1 is below the 1.2 of hollow objects. *)
Lemma below_one_below_hollow :
  forall m : float,
    (m <? 1)%float = true -> (m <? GUIDELINES.hollowWallThickness)%float = true.
Proof.
  intros m. rewrite !FloatAxioms.ltb_spec.
  change (Prim2SF 1) with (S754_finite false 4503599627370496 (-52)).
  change (Prim2SF GUIDELINES.hollowWallThickness)
    with (S754_finite false 5404319552844595 (-52)).
  unfold SFltb, SFcompare.
  destruct (Prim2SF m) as [s|s| |s mm e]; try (intros H; exact H).
  destruct s; [intros H; exact H|].
  destruct (e ?= -52)%Z; try (intros H; exact H).
  destruct (Pos.compare_cont Eq mm 4503599627370496) eqn:E;
    try (intros H; discriminate H).
  intros _.
  pose proof (compare_cont_Lt_le mm _ _ mantissa_one_le_hollow E) as H.
  rewrite H. reflexivity.
Qed.

(** Rounding keeps the sign it is given. *)
Lemma binary_round_aux_sign :
  forall (sx : bool) (mx ex : Z) (lx : location),
    match binary_round_aux prec emax sx mx ex lx with
    | S754_nan => True
    | S754_zero s | S754_infinity s | S754_finite s _ _ => s = sx
    end.
Proof.
  intros sx mx ex lx. unfold binary_round_aux.
  destruct (shr_fexp prec emax mx ex lx) as [mrs' e'].
  destruct (shr_fexp prec emax _ e' loc_Exact) as [mrs'' e''].
  destruct (shr_m mrs''); [reflexivity | | exact I].
  destruct (Z.leb e'' (emax - prec)); reflexivity.
Qed.

Lemma binary_round_aux_notNegative :
  forall (mx ex : Z) (lx : location),
    signNotNegative (binary_round_aux prec emax false mx ex lx).
Proof.
  intros mx ex lx. pose proof (binary_round_aux_sign false mx ex lx) as H.
  destruct (binary_round_aux prec emax false mx ex lx); cbn; auto.
Qed.

Lemma sqrt_notNegative :
  forall x : float, signNotNegative (Prim2SF (sqrt x)).
Proof.
  intros x. rewrite FloatAxioms.sqrt_spec. unfold SF64sqrt, SFsqrt.
  destruct (Prim2SF x) as [s|s| |s m e]; try exact I.
  - destruct s; cbn; auto.
  - destruct s; [exact I|].
    destruct (SFsqrt_core_binary prec emax (Z.pos m) e) as [[mz ez] lz].
    apply binary_round_aux_notNegative.
Qed.

Lemma half_notNegative :
  forall x : float,
    signNotNegative (Prim2SF x) -> signNotNegative (Prim2SF (x * 0.5)).
Proof.
  intros x H. rewrite mul_spec. unfold SF64mul, SFmul.
  change (Prim2SF 0.5) with (S754_finite false 4503599627370496 (-53)).
  destruct (Prim2SF x) as [s|s| |s m e]; try exact I.
  - cbn in H. subst s. reflexivity.
  - cbn in H. subst s. apply binary_round_aux_notNegative.
Qed.

Lemma add_notNegative :
  forall x y : float,
    signNotNegative (Prim2SF x) -> signNotNegative (Prim2SF y) ->
    signNotNegative (Prim2SF (x + y)).
Proof.
  intros x y Hx Hy. rewrite FloatAxioms.add_spec. unfold SF64add, SFadd.
  destruct (Prim2SF x) as [sx|sx| |sx mx ex];
    destruct (Prim2SF y) as [sy|sy| |sy my ey]; cbn in Hx, Hy; subst;
    try exact I; try reflexivity.
  - destruct sx, sy; exact I.
  - cbv zeta. unfold cond_Zopp.
    destruct (shl_align mx ex (Z.min ex ey)) as [m1 e1].
    destruct (shl_align my ey (Z.min ex ey)) as [m2 e2].
    cbn [fst Z.add binary_normalize]. unfold binary_round.
    destruct (shl_align _ _ _) as [mz ez].
    apply binary_round_aux_notNegative.
Qed.

Lemma signNotNegative_ltb :
  forall x : float, signNotNegative (Prim2SF x) -> notNegative x.
Proof.
  intros x H. unfold notNegative. rewrite FloatAxioms.ltb_spec.
  change (Prim2SF 0) with (S754_zero false).
  destruct (Prim2SF x) as [s|s| |s m e]; cbn in H; subst; reflexivity.
Qed.

Lemma abs_notNegative : forall x : float, notNegative (abs x).
Proof.
  intros x. apply signNotNegative_ltb. rewrite abs_spec.
  destruct (Prim2SF x); cbn; auto.
Qed.

Lemma binary_round_aux_signClear :
  forall (mx ex : Z) (lx : location),
    signClear (binary_round_aux prec emax false mx ex lx).
Proof.
  intros mx ex lx. pose proof (binary_round_aux_sign false mx ex lx) as H.
  destruct (binary_round_aux prec emax false mx ex lx); cbn; auto.
Qed.

Lemma signClear_notNegative :
  forall f : spec_float, signClear f -> signNotNegative f.
Proof. intros [s|s| |s m e]; cbn; auto. Qed.

Lemma abs_signClear : forall x : float, signClear (Prim2SF (abs x)).
Proof.
  intros x. rewrite abs_spec. destruct (Prim2SF x); cbn; auto.
Qed.

(** The number of a count has a clear sign. *)
Lemma numOfN_signClear : forall n : N, signClear (Prim2SF (numOfN n)).
Proof.
  intros n. unfold numOfN, numOfZ.
  destruct (Z.ltb_spec (Z.of_N n) 0) as [H|_]; [lia|].
  rewrite of_uint63_spec.
  pose proof (Uint63.to_Z_bounded (Uint63.of_Z (Z.of_N n))) as Hb.
  destruct (Uint63.to_Z (Uint63.of_Z (Z.of_N n))) as [|p|p]; [reflexivity| |lia].
  cbn [binary_normalize]. unfold binary_round.
  destruct (shl_align _ _ _) as [mz ez].
  apply binary_round_aux_signClear.
Qed.

Lemma digits2_pos_bound :
  forall (p : positive) (k : Z),
    (0 <= k)%Z -> (Z.pos p < 2 ^ k)%Z -> (Z.pos (digits2_pos p) <= k)%Z.
Proof.
  induction p as [p IH|p IH|]; intros k Hk H; cbn [digits2_pos].
  - assert (Hk1 : (1 <= k)%Z).
    { destruct (Z.eq_dec k 0) as [->|]; [cbn in H; lia | lia]. }
    replace k with (Z.succ (k - 1)) in H by lia.
    rewrite Z.pow_succ_r in H by lia.
    specialize (IH (k - 1)%Z ltac:(lia) ltac:(lia)). lia.
  - assert (Hk1 : (1 <= k)%Z).
    { destruct (Z.eq_dec k 0) as [->|]; [cbn in H; lia | lia]. }
    replace k with (Z.succ (k - 1)) in H by lia.
    rewrite Z.pow_succ_r in H by lia.
    specialize (IH (k - 1)%Z ltac:(lia) ltac:(lia)). lia.
  - destruct (Z.eq_dec k 0) as [->|]; [cbn in H; lia | lia].
Qed.

Lemma digits2_pos_shift :
  forall p k : positive,
    Z.pos (digits2_pos (Pos.iter xO p k)) = (Z.pos (digits2_pos p) + Z.pos k)%Z.
Proof.
  intros p k. induction k as [|k IH] using Pos.peano_ind.
  - cbn. lia.
  - rewrite Pos.iter_succ. cbn [digits2_pos]. lia.
Qed.

Lemma binary_round_aux_exact :
  forall (mz : positive) (ez : Z),
    Z.pos (digits2_pos mz) = 53%Z -> (-52 <= ez <= 0)%Z ->
    binary_round_aux prec emax false (Z.pos mz) ez loc_Exact
    = S754_finite false mz ez.
Proof.
  intros mz ez Hd He. unfold binary_round_aux, shr_fexp.
  cbn [Zdigits2 shr_record_of_loc]. rewrite Hd.
  assert (Hn : (fexp prec emax (53 + ez) - ez = 0)%Z).
  { unfold fexp, emin, prec, emax. lia. }
  rewrite Hn. cbn [shr shr_m loc_of_shr_record round_nearest_even Zdigits2
                   shr_record_of_loc].
  rewrite Hd, Hn. cbn [shr shr_m].
  assert (Hle : (ez <=? emax - prec)%Z = true).
  { apply Z.leb_le. unfold prec, emax. lia. }
  rewrite Hle. reflexivity.
Qed.

Lemma binary_round_exact :
  forall p : positive,
    (Z.pos p < 2 ^ 53)%Z ->
    exists mz ez, binary_round prec emax false p 0 = S754_finite false mz ez.
Proof.
  intros p Hp.
  pose proof (digits2_pos_bound p 53 ltac:(lia) Hp) as Hd.
  unfold binary_round.
  assert (Hf : fexp prec emax (Z.pos (digits2_pos p) + 0)
               = (Z.pos (digits2_pos p) - 53)%Z).
  { unfold fexp, emin, prec, emax. lia. }
  rewrite Hf. unfold shl_align.
  destruct (Z.pos (digits2_pos p) - 53 - 0)%Z as [|k|k] eqn:Ek.
  - exists p, 0%Z. apply binary_round_aux_exact; lia.
  - lia.
  - exists (Pos.iter xO p k), (Z.pos (digits2_pos p) - 53)%Z.
    apply binary_round_aux_exact; [rewrite digits2_pos_shift|]; lia.
Qed.

(** A count below 2^53 is converted exactly: the number of a positive
    count is above zero. *)
Lemma numOfN_positive :
  forall n : N,
    (0 < n < 2 ^ 53)%N ->
    (0 <? numOfN n)%float = true /\ (numOfN n =? 0)%float = false.
Proof.
  intros n Hn. unfold numOfN, numOfZ.
  destruct (Z.ltb_spec (Z.of_N n) 0) as [H|_]; [lia|].
  assert (Hz : (0 < Z.of_N n < 2 ^ 53)%Z).
  { split; [lia|]. change (2 ^ 53)%Z with (Z.of_N (2 ^ 53)). lia. }
  assert (Hsf : exists mz ez,
             Prim2SF (of_uint63 (Uint63.of_Z (Z.of_N n)))
             = S754_finite false mz ez).
  { rewrite of_uint63_spec, Uint63.of_Z_spec.
    rewrite Z.mod_small
      by (split; [lia|]; apply Z.lt_trans with (2 ^ 53)%Z; [lia|];
          vm_compute; reflexivity).
    destruct (Z.of_N n) as [|p|p] eqn:Ep; [lia| |lia].
    cbn [binary_normalize]. apply binary_round_exact. lia. }
  destruct Hsf as (mz & ez & Hsf).
  rewrite FloatAxioms.ltb_spec, FloatAxioms.eqb_spec, Hsf.
  split; reflexivity.
Qed.

Lemma numOfN_eqb_zero :
  forall n : N, (n < 2 ^ 53)%N -> (numOfN n =? 0)%float = (n =? 0)%N.
Proof.
  intros n Hn. destruct (N.eqb_spec n 0) as [->|Hne]; [reflexivity|].
  apply numOfN_positive. lia.
Qed.

Lemma numOfN_ltb_zero :
  forall n : N, (n < 2 ^ 53)%N -> (0 <? numOfN n)%float = (0 <? n)%N.
Proof.
  intros n Hn. destruct (N.ltb_spec 0 n) as [Hpos|Hz].
  - apply numOfN_positive. lia.
  - assert (n = 0%N) as -> by lia. reflexivity.
Qed.

Lemma div_signClear :
  forall x y : float,
    signClear (Prim2SF x) -> signClear (Prim2SF y) ->
    signClear (Prim2SF (x / y)).
Proof.
  intros x y Hx Hy. rewrite FloatAxioms.div_spec. unfold SF64div, SFdiv.
  destruct (Prim2SF x) as [sx|sx| |sx mx ex];
    destruct (Prim2SF y) as [sy|sy| |sy my ey]; cbn in Hx, Hy; subst;
    try exact I; try reflexivity.
  destruct (SFdiv_core_binary prec emax (Z.pos mx) ex (Z.pos my) ey)
    as [[mz ez] lz].
  apply binary_round_aux_signClear.
Qed.

(** An absolute value over a triangle count is not below zero. *)
Lemma abs_over_count_notNegative :
  forall (x : float) (n : N), notNegative (abs x / (numOfN n / 3)).
Proof.
  intros x n. apply signNotNegative_ltb. apply signClear_notNegative.
  apply div_signClear; [apply abs_signClear|].
  apply div_signClear; [apply numOfN_signClear | reflexivity].
Qed.

(** A number above 0.1 is truthy. *)
Lemma js_or_measured :
  forall s : float, (0.1 <? s)%float = true -> js_or s 0 = s.
Proof.
  intros s H. unfold js_or.
  destruct (ltb_not_nan _ _ H) as [_ Hn]. rewrite Hn, orb_false_r.
  destruct (s =? 0)%float eqn:E; [|reflexivity].
  exfalso. apply eqb_zero_spec in E. destruct E as [sg E].
  rewrite FloatAxioms.ltb_spec, E in H. destruct sg; discriminate H.
Qed.

(** A number above 0 is truthy. *)
Lemma js_or_positive :
  forall s : float, (0 <? s)%float = true -> js_or s 0 = s.
Proof.
  intros s H. unfold js_or.
  destruct (ltb_not_nan _ _ H) as [_ Hn]. rewrite Hn, orb_false_r.
  destruct (s =? 0)%float eqn:E; [|reflexivity].
  exfalso. apply eqb_zero_spec in E. destruct E as [sg E].
  rewrite FloatAxioms.ltb_spec, E in H. destruct sg; discriminate H.
Qed.

(** [Math.max(-Infinity, x)] is [x]. *)
Lemma Math_max_step_neg_infinity :
  forall x : float, Math_max_step neg_infinity x = x.
Proof.
  intros x. unfold Math_max_step.
  change (is_nan neg_infinity) with false.
  change (is_neg_zero neg_infinity) with false.
  cbn [orb]. destruct (is_nan x) eqn:Hnan.
  - symmetry. apply is_nan_true. exact Hnan.
  - rewrite andb_false_r.
    destruct (neg_infinity <? x)%float eqn:Hlt; [reflexivity|].
    rewrite FloatAxioms.ltb_spec in Hlt.
    change (Prim2SF neg_infinity) with (S754_infinity true) in Hlt.
    destruct (Prim2SF x) as [s|s| |s m e] eqn:E.
    + discriminate Hlt.
    + destruct s; [|discriminate Hlt].
      apply float_of_spec in E. rewrite E. reflexivity.
    + apply is_nan_spec in E. congruence.
    + discriminate Hlt.
Qed.

Lemma Math_max_pair :
  forall highest x : float, Math_max [highest; x] = Math_max_step highest x.
Proof.
  intros highest x. unfold Math_max. cbn [fold_left].
  rewrite Math_max_step_neg_infinity. reflexivity.
Qed.

Lemma Math_max_step_cases :
  forall a b : float,
    is_nan a = false -> is_nan b = false ->
    Math_max_step a b = a \/ Math_max_step a b = b.
Proof.
  intros a b Ha Hb. unfold Math_max_step. rewrite Ha, Hb. cbn [orb].
  destruct (is_pos_zero b && is_neg_zero a); [right; reflexivity|].
  destruct (a <? b)%float; [right | left]; reflexivity.
Qed.

Lemma Math_min_step_cases :
  forall a b : float,
    is_nan a = false -> is_nan b = false ->
    Math_min_step a b = a \/ Math_min_step a b = b.
Proof.
  intros a b Ha Hb. unfold Math_min_step. rewrite Ha, Hb. cbn [orb].
  destruct (is_neg_zero b && is_pos_zero a); [right; reflexivity|].
  destruct (b <? a)%float; [right | left]; reflexivity.
Qed.

(** ** Loops *)

Lemma foldM_invariant :
  forall (S A : Type) (P : S -> Prop) (body : S -> A -> outcome S)
         (l : list A) (s s' : S),
    (forall s a s1, P s -> In a l -> body s a = Ok s1 -> P s1) ->
    P s -> foldM body l s = Ok s' -> P s'.
Proof.
  intros S A P body l. induction l as [|a l IH]; intros s s' Hb Hs H;
    cbn [foldM] in H.
  - injection H as <-. exact Hs.
  - destruct (body s a) as [s1|e] eqn:E; cbn [bind] in H; [|discriminate].
    apply (IH s1 s'); [|exact (Hb s a s1 Hs (or_introl eq_refl) E) | exact H].
    intros s2 a' s3 H2 Ha'. apply Hb; [exact H2 | right; exact Ha'].
Qed.

Lemma fold_left_ext_in :
  forall (S A : Type) (f g : S -> A -> S) (l : list A) (s : S),
    (forall a, In a l -> forall s', f s' a = g s' a) ->
    fold_left f l s = fold_left g l s.
Proof.
  intros S A f g l. induction l as [|a l IH]; intros s H; cbn [fold_left].
  - reflexivity.
  - rewrite (H a (or_introl eq_refl)). apply IH.
    intros a' Ha'. apply H. right. exact Ha'.
Qed.

Lemma length_flat_map_const :
  forall (A B : Type) (f : A -> list B) (l : list A) (k : nat),
    (forall a, List.length (f a) = k) ->
    List.length (flat_map f l) = (k * List.length l)%nat.
Proof.
  intros A B f l k H. induction l as [|a l IH]; cbn [flat_map List.length].
  - lia.
  - rewrite length_app, IH, H. lia.
Qed.

Lemma length_for_indices :
  forall c stride : N,
    List.length (for_indices c stride)
    = N.to_nat ((c + 3 * stride - 1) / (3 * stride)).
Proof.
  intros c stride. unfold for_indices.
  rewrite length_map, length_seq. reflexivity.
Qed.

(** A point count that is a multiple of 3 is three times the number of
    triangles the loops visit. *)
Lemma triangles_of_multiple :
  forall c : N, (c mod 3 = 0)%N -> (3 * ((c + 2) / 3) = c)%N.
Proof.
  intros c Hmod.
  pose proof (N.Div0.div_mod c 3) as Hd. rewrite Hmod in Hd.
  assert (Hq : ((c + 2) / 3 = c / 3)%N).
  { set (q := (c / 3)%N) in *. clearbody q.
    rewrite Hd. replace (3 * q + 0 + 2)%N with (2 + q * 3)%N by lia.
    rewrite N.div_add by lia. reflexivity. }
  rewrite Hq. lia.
Qed.

Lemma buildEdgeMap_Ok_multiple :
  forall (positions : BufferAttribute) (edgeMap : EdgeMap),
    buildEdgeMap positions = Ok edgeMap -> (count positions mod 3 = 0)%N.
Proof.
  intros positions edgeMap H.
  destruct (N.eq_dec (count positions mod 3) 0) as [Hmod|Hmod]; [exact Hmod|].
  rewrite (buildEdgeMap_throws positions Hmod) in H. discriminate H.
Qed.

(** ** The edge map: incidences *)

Lemma incidences_cons :
  forall (k : string) (w : Edge) (m : EdgeMap),
    incidences ((k, w) :: m) = (List.length (faces w) + incidences m)%nat.
Proof. reflexivity. Qed.

Lemma Map_set_set :
  forall (V : Type) (key : string) (v w : V) (m : list (string * V)),
    Map_set key v (Map_set key w m) = Map_set key v m.
Proof.
  intros V key v w m. induction m as [|[k u] m IH]; cbn [Map_set].
  - rewrite String.eqb_refl. reflexivity.
  - destruct (String.eqb k key) eqn:E; cbn [Map_set]; rewrite E;
      [reflexivity | rewrite IH; reflexivity].
Qed.

Lemma incidences_set_new :
  forall (key : string) (e : Edge) (m : EdgeMap),
    Map_get key m = None ->
    incidences (Map_set key e m) = (incidences m + List.length (faces e))%nat.
Proof.
  intros key e m.
  induction m as [|[k w] m IH]; cbn [Map_get Map_set]; intros H.
  - cbn. lia.
  - destruct (String.eqb k key); [discriminate H|].
    rewrite !incidences_cons, (IH H). lia.
Qed.

Lemma incidences_set_old :
  forall (key : string) (e e0 : Edge) (m : EdgeMap),
    Map_get key m = Some e0 ->
    (incidences (Map_set key e m) + List.length (faces e0)
     = incidences m + List.length (faces e))%nat.
Proof.
  intros key e e0 m.
  induction m as [|[k w] m IH]; cbn [Map_get Map_set]; intros H.
  - discriminate H.
  - destruct (String.eqb k key).
    + injection H as ->. rewrite !incidences_cons. lia.
    + rewrite !incidences_cons. pose proof (IH H). lia.
Qed.

Lemma Map_set_Forall :
  forall (V : Type) (P : string * V -> Prop) (key : string) (v : V)
         (m : list (string * V)),
    (forall k, P (k, v)) -> Forall P m -> Forall P (Map_set key v m).
Proof.
  intros V P key v m Hv. induction m as [|[k w] m IH]; cbn [Map_set]; intros H.
  - constructor; [apply Hv | constructor].
  - inversion H as [|? ? Hw Hm]; subst.
    destruct (String.eqb k key); constructor; auto.
Qed.

(** One visit adds one incidence and leaves no entry without a face. *)
Lemma addEdge_incidences :
  forall (i : N) (edgeMap edgeMap' : EdgeMap)
         (e : option Vector3.t * option Vector3.t),
    addEdge i edgeMap e = Ok edgeMap' ->
    incidences edgeMap' = S (incidences edgeMap)
    /\ (Forall (fun entry => faces (snd entry) <> []) edgeMap ->
        Forall (fun entry => faces (snd entry) <> []) edgeMap').
Proof.
  intros i m m' [va vb]. unfold addEdge.
  destruct (makeEdgeKey va vb) as [key|ex]; cbn [bind]; [|discriminate].
  unfold Map_has. destruct (Map_get key m) as [e0|] eqn:E; cbn [negb].
  - rewrite E. intros [= <-]. split.
    + pose proof (incidences_set_old key
                    {| faces := (faces e0 ++ [i])%list; vertices := vertices e0 |}
                    e0 m E) as H.
      cbn [faces] in H. rewrite length_app in H. cbn [List.length] in H. lia.
    + apply Map_set_Forall. intros k. cbn.
      destruct (faces e0); discriminate.
  - rewrite Map_get_set_same, Map_set_set. cbn [faces vertices app].
    intros [= <-]. split.
    + rewrite incidences_set_new by exact E. cbn. lia.
    + apply Map_set_Forall. intros k. cbn. discriminate.
Qed.

Lemma visits_incidences :
  forall (vs : list EdgeVisit) (m0 m : EdgeMap),
    foldM (fun edgeMap (v : EdgeVisit) => addEdge (fst v) edgeMap (snd v)) vs m0
    = Ok m ->
    incidences m = (incidences m0 + List.length vs)%nat
    /\ (Forall (fun entry => faces (snd entry) <> []) m0 ->
        Forall (fun entry => faces (snd entry) <> []) m).
Proof.
  induction vs as [|v vs IH]; intros m0 m H; cbn [foldM] in H.
  - injection H as <-. cbn. split; [lia | auto].
  - destruct (addEdge (fst v) m0 (snd v)) as [m1|e] eqn:E1; cbn [bind] in H;
      [|discriminate].
    apply addEdge_incidences in E1. destruct E1 as [Hi1 Hf1].
    apply IH in H. destruct H as [Hi Hf].
    cbn [List.length]. split; [lia | auto].
Qed.

Lemma length_edgeVisits :
  forall positions : BufferAttribute,
    List.length (edgeVisits positions)
    = (3 * N.to_nat ((count positions + 2) / 3))%nat.
Proof.
  intros positions. unfold edgeVisits.
  rewrite (length_flat_map_const _ _ _ _ 3%nat) by reflexivity.
  rewrite length_for_indices_one. reflexivity.
Qed.

Lemma incidences_ge_length :
  forall edgeMap : EdgeMap,
    Forall (fun entry => faces (snd entry) <> []) edgeMap ->
    (List.length edgeMap <= incidences edgeMap)%nat.
Proof.
  intros m H. induction H as [|[k w] m Hw Hm IH]; [cbn; lia|].
  rewrite incidences_cons. cbn [List.length snd] in *.
  destruct (faces w); [contradiction|]. cbn [List.length]. lia.
Qed.

(** The edge map has no more entries than the soup has points. *)
Lemma buildEdgeMap_length_le :
  forall (positions : BufferAttribute) (edgeMap : EdgeMap),
    buildEdgeMap positions = Ok edgeMap ->
    (List.length edgeMap <= N.to_nat (count positions))%nat.
Proof.
  intros positions edgeMap Emap.
  pose proof (buildEdgeMap_Ok_multiple _ _ Emap) as Hmod.
  rewrite buildEdgeMap_visits in Emap.
  apply visits_incidences in Emap. destruct Emap as [Hi Hf].
  rewrite length_edgeVisits in Hi. cbn in Hi.
  pose proof (triangles_of_multiple _ Hmod) as Hc.
  pose proof (incidences_ge_length edgeMap (Hf (Forall_nil _))) as Hle.
  lia.
Qed.

(** X1: in the edge map [buildEdgeMap] returns the keys are distinct, every
    entry has at least one face, and the faces of all entries together are
    as many as the points of the soup, three per triangle; so the map has at
    most that many edges.  It returns no map only for a point count that is
    not a multiple of 3. *)
Theorem edge_map_incidences :
  forall positions : BufferAttribute,
    match buildEdgeMap positions with
    | Ok edgeMap =>
        NoDup (map fst edgeMap)
        /\ Forall (fun entry => faces (snd entry) <> []) edgeMap
        /\ incidences edgeMap = N.to_nat (count positions)
        /\ (List.length edgeMap <= N.to_nat (count positions))%nat
    | Throw _ => (count positions mod 3 <> 0)%N
    end.
Proof.
  intros positions.
  destruct (buildEdgeMap positions) as [edgeMap|e] eqn:Emap.
  - pose proof (buildEdgeMap_Ok_multiple _ _ Emap) as Hmod.
    destruct (buildEdgeMap_get _ _ Emap) as [Hnd _].
    rewrite buildEdgeMap_visits in Emap.
    apply visits_incidences in Emap. destruct Emap as [Hi Hf].
    rewrite length_edgeVisits in Hi. cbn in Hi.
    pose proof (triangles_of_multiple _ Hmod) as Hc.
    assert (Hinc : incidences edgeMap = N.to_nat (count positions)) by lia.
    pose proof (incidences_ge_length edgeMap (Hf (Forall_nil _))) as Hle.
    repeat split; [exact Hnd | exact (Hf (Forall_nil _)) | exact Hinc | lia].
  - intros Hmod.
    destruct (buildEdgeMap_returns positions Hmod) as [m Hm]. congruence.
Qed.

(** ** The edge analyzer: totals *)

Lemma scanEdge_tJunction :
  forall (faceNormals : list Vector3.t) (st st' : EdgeScan)
         (entry : string * Edge),
    scanEdge faceNormals st entry = Ok st' ->
    scan_tJunctionCount st'
    = (scan_tJunctionCount st
       + N.of_nat (List.length (tJunctionsOf [entry])))%N.
Proof.
  intros faceNormals st st' [k e]. unfold scanEdge, tJunctionsOf.
  cbn [snd filter]. destruct (faces e) as [|f0 [|f1 [|f2 rest]]]; cbn [List.length].
  1, 2: intros [= <-]; cbn; lia.
  - change (3 <=? 2)%nat with false. cbv iota. unfold element.
    destruct (nth_error faceNormals (N.to_nat f0)) as [n1|]; [|discriminate].
    destruct (nth_error faceNormals (N.to_nat f1)) as [n2|]; [|discriminate].
    cbn [bind]. destruct (_ <? 90)%float; intros [= <-]; cbn; lia.
  - change (3 <=? S (S (S (List.length rest))))%nat with true. cbv iota.
    intros [= <-]. cbn. lia.
Qed.

Lemma scanEdges_tJunction :
  forall (faceNormals : list Vector3.t) (edgeMap : EdgeMap) (st st' : EdgeScan),
    foldM (scanEdge faceNormals) edgeMap st = Ok st' ->
    scan_tJunctionCount st'
    = (scan_tJunctionCount st
       + N.of_nat (List.length (tJunctionsOf edgeMap)))%N.
Proof.
  intros faceNormals edgeMap.
  induction edgeMap as [|entry edgeMap IH]; intros st st' H; cbn [foldM] in H.
  - injection H as <-. cbn. lia.
  - destruct (scanEdge faceNormals st entry) as [st1|e] eqn:E1;
      cbn [bind] in H; [|discriminate].
    apply scanEdge_tJunction in E1. apply IH in H. rewrite H, E1.
    unfold tJunctionsOf. cbn [filter].
    destruct (3 <=? List.length (faces (snd entry)))%nat; cbn [List.length]; lia.
Qed.

Lemma sharpEdgeOf_angle :
  forall (faceNormals : list Vector3.t) (entry : string * Edge)
         (p : float * float),
    In p (sharpEdgeOf faceNormals entry) -> (fst p <? 90)%float = true.
Proof.
  intros faceNormals [k e] p. unfold sharpEdgeOf. cbn [snd].
  destruct (faces e) as [|f0 [|f1 [|f2 rest]]]; try (intros []).
  destruct (nth_error faceNormals (N.to_nat f0)) as [n1|]; [|intros []].
  destruct (nth_error faceNormals (N.to_nat f1)) as [n2|]; [|intros []].
  cbv zeta. destruct (dihedralAngleOf n1 n2 <? 90)%float eqn:E; [|intros []].
  intros [<-|[]]. exact E.
Qed.

(** An entry is a sharp edge or a T-junction or neither, never both. *)
Lemma sharp_or_tJunction :
  forall (faceNormals : list Vector3.t) (edgeMap : EdgeMap),
    (List.length (sharpEdgesOf faceNormals edgeMap)
     + List.length (tJunctionsOf edgeMap) <= List.length edgeMap)%nat.
Proof.
  intros faceNormals edgeMap. unfold sharpEdgesOf, tJunctionsOf.
  induction edgeMap as [|[k e] edgeMap IH]; [cbn; lia|].
  cbn [flat_map filter]. rewrite length_app.
  assert (H : (List.length (sharpEdgeOf faceNormals (k, e))
               + (if (3 <=? List.length (faces e))%nat then 1 else 0) <= 1)%nat).
  { unfold sharpEdgeOf. cbn [snd].
    destruct (faces e) as [|f0 [|f1 [|f2 rest]]]; cbn; try lia.
    destruct (nth_error faceNormals (N.to_nat f0)); [|cbn; lia].
    destruct (nth_error faceNormals (N.to_nat f1)); [|cbn; lia].
    destruct (_ <? 90)%float; cbn; lia. }
  cbn [snd]. destruct (3 <=? List.length (faces e))%nat; cbn [List.length] in *; lia.
Qed.

(** X2: what [analyzeEdges] reports beside the sharp edges: the total is the
    number of entries of the edge map, the T-junctions are the entries with
    three faces or more, the sharp edge count is the number of angles
    listed, every listed angle is below 90 degrees, and sharp edges and
    T-junctions together are no more than the edges.  It throws only on a
    point count that is not a multiple of 3 or on a triangle without a
    normal. *)
Theorem analyzeEdges_counts :
  forall (positions : BufferAttribute) (faceNormals : list Vector3.t),
    match analyzeEdges positions faceNormals with
    | Ok r =>
        exists edgeMap,
          buildEdgeMap positions = Ok edgeMap
          /\ totalEdges r = numOfN (N.of_nat (List.length edgeMap))
          /\ tJunctionCount r
             = numOfN (N.of_nat (List.length (tJunctionsOf edgeMap)))
          /\ sharpEdges r
             = numOfN (N.of_nat (List.length (sharpEdgeAngles r)))
          /\ Forall (fun angle => (angle <? 90)%float = true) (sharpEdgeAngles r)
          /\ (List.length (sharpEdgeAngles r)
              + List.length (tJunctionsOf edgeMap) <= List.length edgeMap)%nat
    | Throw _ =>
        ~ ((count positions mod 3 = 0)%N /\ covers faceNormals positions)
    end.
Proof.
  intros positions faceNormals.
  destruct (analyzeEdges positions faceNormals) as [r|e] eqn:E.
  2: { intros [Hmod Hc].
       destruct (analyzeEdges_returns positions faceNormals Hmod Hc) as [r Hr].
       congruence. }
  unfold analyzeEdges in E.
  destruct (buildEdgeMap positions) as [edgeMap|e] eqn:Emap; cbn [bind] in E;
    [|discriminate].
  destruct (foldM (scanEdge faceNormals) edgeMap _) as [st|e] eqn:Escan;
    cbn [bind] in E; [|discriminate].
  injection E as <-.
  exists edgeMap. split; [reflexivity|].
  pose proof (scanEdges_tJunction _ _ _ _ Escan) as Ht.
  apply scanEdges_spec in Escan. destruct Escan as (Hs & Ha & _).
  cbn [scan_sharpEdges scan_sharpEdgeAngles scan_tJunctionCount] in *.
  cbn [totalEdges tJunctionCount sharpEdges sharpEdgeAngles].
  rewrite Hs, Ha, Ht. cbn [app]. rewrite length_map.
  split; [reflexivity|]. split; [reflexivity|]. split; [reflexivity|].
  split; [|apply sharp_or_tJunction].
  apply Forall_forall. intros a Ha'. apply in_map_iff in Ha'.
  destruct Ha' as (p & <- & Hp). unfold sharpEdgesOf in Hp.
  apply in_flat_map in Hp. destruct Hp as (entry & _ & Hp).
  exact (sharpEdgeOf_angle _ _ _ Hp).
Qed.

(** ** The cavity analyzer: holes *)

Lemma countBoundaryEdges_spec :
  forall edgeMap : EdgeMap,
    countBoundaryEdges edgeMap = N.of_nat (List.length (boundaryEdgesOf edgeMap)).
Proof.
  intros edgeMap. unfold countBoundaryEdges, boundaryEdgesOf.
  replace (N.of_nat _) with
    (0 + N.of_nat (List.length
           (filter (fun entry => (List.length (faces (snd entry)) =? 1)%nat)
                   edgeMap)))%N by lia.
  generalize 0%N as b.
  induction edgeMap as [|entry edgeMap IH]; intros b; cbn [fold_left filter].
  - cbn. lia.
  - rewrite IH.
    destruct (List.length (faces (snd entry)) =? 1)%nat; cbn [List.length]; lia.
Qed.

Lemma length_inwardTriangles :
  forall (positions : BufferAttribute) (faceNormals : list Vector3.t)
         (boundingBox : Box3.t),
    (List.length (inwardTriangles positions faceNormals boundingBox)
     <= N.to_nat ((count positions + 2) / 3))%nat.
Proof.
  intros positions faceNormals boundingBox. unfold inwardTriangles.
  rewrite <- length_for_indices_one. apply filter_length_le.
Qed.

(** X3: the three hole figures of [analyzeCavities] are one measurement:
    with [b] the number of edges that have exactly one face, the boundary
    loops are b / 3, the blind holes half the loops and the through holes
    half the blind holes, all rounded down.  A soup of fewer than 10
    triangles never has a potential cavity.  The analyzer throws only on a
    point count that is not a multiple of 3 or on a triangle without a
    normal. *)
Theorem analyzeCavities_hole_counts :
  forall (positions : BufferAttribute) (faceNormals : list Vector3.t)
         (boundingBox : Box3.t),
    match analyzeCavities positions faceNormals boundingBox with
    | Ok r =>
        (exists edgeMap,
            buildEdgeMap positions = Ok edgeMap
            /\ let loops :=
                 (N.of_nat (List.length (boundaryEdgesOf edgeMap)) / 3)%N in
               boundaryLoops r = numOfN loops
               /\ blindHoleCount r = numOfN (loops / 2)
               /\ throughHoleCount r = numOfN (loops / 2 / 2))
        /\ ((count positions < 30)%N -> potentialCavities r = 0%float)
    | Throw _ =>
        ~ ((count positions mod 3 = 0)%N /\ covers faceNormals positions)
    end.
Proof.
  intros positions faceNormals boundingBox.
  destruct (analyzeCavities positions faceNormals boundingBox) as [r|e] eqn:E.
  2: { intros [Hmod Hc].
       destruct (analyzeCavities_returns positions faceNormals boundingBox
                   Hmod Hc) as [r Hr].
       congruence. }
  unfold analyzeCavities in E.
  destruct (buildEdgeMap positions) as [edgeMap|e] eqn:Emap; cbn [bind] in E;
    [|discriminate].
  destruct (countConcaveRegions positions faceNormals boundingBox)
    as [c|e] eqn:Ec; cbn [bind] in E; [|discriminate].
  injection E as <-.
  cbn [boundaryLoops blindHoleCount throughHoleCount potentialCavities].
  split.
  - exists edgeMap. split; [reflexivity|]. cbv zeta.
    rewrite countBoundaryEdges_spec.
    rewrite !N.Div0.div_div. repeat split.
  - intros Hsmall.
    pose proof (buildEdgeMap_Ok_multiple _ _ Emap) as Hmod.
    apply countConcaveRegions_spec in Ec.
    pose proof (length_inwardTriangles positions faceNormals boundingBox) as Hl.
    pose proof (triangles_of_multiple _ Hmod) as Hc.
    rewrite (N.div_small c 10) by lia. reflexivity.
Qed.

(** ** The channel analyzer: estimates *)

Lemma countTubularRegions_bound :
  forall (positions : BufferAttribute) (faceNormals : list Vector3.t) (t : N),
    countTubularRegions positions faceNormals = Ok t ->
    (t <= N.of_nat (List.length (for_indices (count positions) 10)))%N.
Proof.
  intros positions faceNormals t. unfold countTubularRegions.
  replace (N.of_nat (List.length (for_indices (count positions) 10)))
    with (0 + N.of_nat (List.length (for_indices (count positions) 10)))%N
    by lia.
  generalize 0%N as t0. revert t.
  induction (for_indices (count positions) 10) as [|i l IH]; intros t t0 H;
    cbn [foldM] in H.
  - injection H as <-. cbn. lia.
  - destruct (element faceNormals i) as [n|]; cbn [bind] in H; [|discriminate].
    apply IH in H. cbn [List.length].
    destruct (_ && _) in H; lia.
Qed.

Lemma analyzeChannels_inv :
  forall (positions : BufferAttribute) (faceNormals : list Vector3.t)
         (boundingBox : Box3.t) (r : ChannelAnalysis),
    analyzeChannels positions faceNormals boundingBox = Ok r ->
    let size := Box3.getSize boundingBox in
    exists tubularRegions,
      countTubularRegions positions faceNormals = Ok tubularRegions
      /\ potentialChannels r = numOfN (tubularRegions / 20)
      /\ estimatedDiameters r
         = (if (5 <? tubularRegions)%N
            then [(Vector3.x size * 0.1)%float; (Vector3.y size * 0.1)%float]
            else [])
      /\ estimatedDepths r
         = (if (5 <? tubularRegions)%N
            then [(Vector3.z size * 0.5)%float] else []).
Proof.
  intros positions faceNormals boundingBox r. unfold analyzeChannels.
  destruct (countTubularRegions positions faceNormals) as [t|e] eqn:E;
    cbn [bind]; [|discriminate].
  destruct (10 <? t)%N; cbn; intros [= <-]; exists t; repeat split.
Qed.

(** X4: [analyzeChannels] reports the tubular samples divided by 20 as
    potential channels; it estimates two diameters, a tenth of the box in x
    and in y, and one depth, half the box in z, exactly when more than 5
    samples are tubular, so that a reported channel always comes with them;
    and a soup of up to 190 triangles has too few samples for a channel.
    The analyzer throws only on a triangle without a normal. *)
Theorem analyzeChannels_estimates :
  forall (positions : BufferAttribute) (faceNormals : list Vector3.t)
         (boundingBox : Box3.t),
    match analyzeChannels positions faceNormals boundingBox with
    | Ok r =>
        let size := Box3.getSize boundingBox in
        (exists tubularRegions,
            countTubularRegions positions faceNormals = Ok tubularRegions
            /\ potentialChannels r = numOfN (tubularRegions / 20)
            /\ (if (5 <? tubularRegions)%N
                then estimatedDiameters r
                     = [(Vector3.x size * 0.1)%float; (Vector3.y size * 0.1)%float]
                     /\ estimatedDepths r = [(Vector3.z size * 0.5)%float]
                else estimatedDiameters r = [] /\ estimatedDepths r = [])
            /\ ((0 < tubularRegions / 20)%N ->
                List.length (estimatedDiameters r) = 2%nat
                /\ List.length (estimatedDepths r) = 1%nat))
        /\ ((count positions <= 570)%N -> potentialChannels r = 0%float)
    | Throw _ => ~ covers faceNormals positions
    end.
Proof.
  intros positions faceNormals boundingBox.
  destruct (analyzeChannels positions faceNormals boundingBox) as [r|e] eqn:Er.
  2: { intros Hc.
       destruct (analyzeChannels_returns positions faceNormals boundingBox Hc)
         as [r Hr].
       congruence. }
  destruct (analyzeChannels_inv _ _ _ _ Er) as (t & E & Hp & Hd & Hz).
  cbv zeta. split.
  - exists t. split; [exact E|]. split; [exact Hp|]. rewrite Hd, Hz. split.
    + destruct (5 <? t)%N; split; reflexivity.
    + intros Hpos. assert (H5 : (5 <? t)%N = true).
      { apply N.ltb_lt.
        destruct (N.lt_ge_cases t 20) as [Hlt|Hge]; [|lia].
        rewrite (N.div_small t 20 Hlt) in Hpos. lia. }
      rewrite H5. split; reflexivity.
  - intros Hsmall. apply countTubularRegions_bound in E.
    rewrite length_for_indices in E. rewrite N2Nat.id in E.
    replace (3 * 10)%N with 30%N in E by lia.
    assert (Hq : ((count positions + 30 - 1) / 30 <= 19)%N).
    { transitivity ((570 + 30 - 1) / 30)%N; [|vm_compute; discriminate].
      apply N.Div0.div_le_mono. lia. }
    rewrite Hp. rewrite (N.div_small t 20) by lia. reflexivity.
Qed.

(** ** The surface feature analyzer *)

Lemma count_firstn :
  forall (n : nat) (positions : BufferAttribute),
    count (firstn n positions) = N.min (N.of_nat n) (count positions).
Proof.
  intros n positions. unfold count. rewrite length_firstn. lia.
Qed.

Lemma point_firstn :
  forall (n : nat) (positions : BufferAttribute) (i : N),
    (N.to_nat i < n)%nat -> point (firstn n positions) i = point positions i.
Proof.
  intros n positions i H. unfold point, fromBufferAttribute.
  rewrite nth_error_firstn.
  destruct (Nat.ltb_spec (N.to_nat i) n); [reflexivity | lia].
Qed.

(** X5: [analyzeSurfaceFeatures] looks at the first 1000 triangles only,
    the first 3000 points, and not at the bounding box: it returns the same
    on the soup cut after them, under any box. *)
Theorem analyzeSurfaceFeatures_reads_1000_triangles :
  forall (positions : BufferAttribute) (boundingBox boundingBox' : Box3.t),
    analyzeSurfaceFeatures positions boundingBox
    = analyzeSurfaceFeatures (firstn 3000 positions) boundingBox'.
Proof.
  intros positions boundingBox boundingBox'. unfold analyzeSurfaceFeatures.
  rewrite count_firstn.
  replace (N.min (N.min (N.of_nat 3000) (count positions)) 3000)
    with (N.min (count positions) 3000) by lia.
  replace (N.min (N.min (N.of_nat 3000) (count positions)) 1500)
    with (N.min (count positions) 1500) by lia.
  rewrite (fold_left_ext_in _ _ (scanHeight (firstn 3000 positions))
             (scanHeight positions)).
  2: { intros i Hi st. apply in_for_indices in Hi; [|lia].
       unfold scanHeight. rewrite point_firstn by lia. reflexivity. }
  match goal with
  | |- context [fold_left ?f (for_indices (N.min (count positions) 1500) 1)
                          infinity] =>
      match goal with
      | |- context [fold_left ?g (for_indices (N.min (count positions) 1500) 1)
                              infinity] =>
          tryif constr_eq f g then fail else
            rewrite (fold_left_ext_in _ _ g f)
      end
  end.
  - reflexivity.
  - intros i Hi w. apply in_for_indices in Hi; [|lia].
    rewrite !point_firstn by lia. reflexivity.
Qed.

Lemma scanHeight_ok :
  forall (positions : BufferAttribute) (k : nat) (st : HeightScan) (i : N),
    heightScanOk k st -> heightScanOk (S k) (scanHeight positions st i).
Proof.
  intros positions k st i (Hv & Hl & Hc & Hm). unfold scanHeight. cbv zeta.
  destruct (0.1 <? abs (Vector3.z (point positions (i * 3)) - scan_prevHeight st))%float
    eqn:E1.
  - change (GUIDELINES.minCharacterHeight * 0.5)%float with 2%float.
    destruct (2 <? abs (Vector3.z (point positions (i * 3)) - scan_prevHeight st))%float
      eqn:E2; unfold heightScanOk;
      cbn [scan_heightVariations scan_reliefCount scan_engravingCount
           scan_maxHeight]; rewrite length_app; cbn [List.length].
    + split; [apply Forall_app; split; [exact Hv | repeat constructor; exact E1]|].
      split; [lia|]. split.
      * destruct (scan_prevHeight st <? Vector3.z (point positions (i * 3)))%float;
          lia.
      * rewrite Math_max_pair.
        assert (Ha : is_nan (scan_maxHeight st) = false).
        { destruct Hm as [->|Hm]; [reflexivity|].
          apply ltb_not_nan in Hm. apply Hm. }
        pose proof (proj2 (ltb_not_nan _ _ E2)) as Hb.
        destruct (Math_max_step_cases _ _ Ha Hb) as [->| ->];
          [exact Hm | right; exact E2].
    + split; [apply Forall_app; split; [exact Hv | repeat constructor; exact E1]|].
      split; [lia|]. split; [lia | exact Hm].
  - unfold heightScanOk;
      cbn [scan_heightVariations scan_reliefCount scan_engravingCount
           scan_maxHeight].
    split; [exact Hv|]. split; [lia|]. split; [lia | exact Hm].
Qed.

Lemma scanHeights_ok :
  forall (positions : BufferAttribute) (l : list N) (k : nat) (st : HeightScan),
    heightScanOk k st ->
    heightScanOk (k + List.length l) (fold_left (scanHeight positions) l st).
Proof.
  intros positions l. induction l as [|i l IH]; intros k st H; cbn [fold_left].
  - cbn. rewrite Nat.add_0_r. exact H.
  - cbn [List.length]. rewrite Nat.add_succ_r.
    apply (IH (S k)). apply scanHeight_ok. exact H.
Qed.

(** The width loop keeps its minimum at [Infinity] or above 0.01. *)
Lemma minWidth_ok :
  forall (positions : BufferAttribute) (l : list N) (w : float),
    (w = infinity \/ (0.01 <? w)%float = true) ->
    let w' :=
      fold_left (fun minWidth i =>
                   let v0 := point positions (i * 3) in
                   let v1 := point positions (i * 3 + 1) in
                   let edgeLength := Vector3.distanceTo v0 v1 in
                   if (0.01 <? edgeLength)%float
                   then Math_min [minWidth; edgeLength] else minWidth)
                l w in
    w' = infinity \/ (0.01 <? w')%float = true.
Proof.
  intros positions l. induction l as [|i l IH]; intros w H; cbn [fold_left].
  - exact H.
  - apply IH. cbv zeta.
    destruct (0.01 <? Vector3.distanceTo (point positions (i * 3))
                                          (point positions (i * 3 + 1)))%float
      eqn:E; [|exact H].
    rewrite Math_min_pair.
    assert (Ha : is_nan w = false).
    { destruct H as [->|H]; [reflexivity|]. apply ltb_not_nan in H. apply H. }
    pose proof (proj2 (ltb_not_nan _ _ E)) as Hb.
    destruct (Math_min_step_cases _ _ Ha Hb) as [->| ->];
      [exact H | right; exact E].
Qed.

(** X6: what [analyzeSurfaceFeatures] returns, on any soup: every height
    variation it lists is above 0.1 and there are at most 334 of them; the
    reliefs and the engravings are a fifth, rounded down, of two counts
    that together do not exceed the number of variations; the maximum
    feature height is 0 or above 2, half the minimum character height; and
    the minimum feature width is 0 or above 0.01. *)
Theorem analyzeSurfaceFeatures_thresholds :
  forall (positions : BufferAttribute) (boundingBox : Box3.t),
    let r := analyzeSurfaceFeatures positions boundingBox in
    Forall (fun v => (0.1 <? v)%float = true) (heightVariations r)
    /\ (List.length (heightVariations r) <= 334)%nat
    /\ (exists reliefCount engravingCount : N,
           potentialReliefs r = numOfN (reliefCount / 5)
           /\ potentialEngravings r = numOfN (engravingCount / 5)
           /\ (N.to_nat reliefCount + N.to_nat engravingCount
               <= List.length (heightVariations r))%nat)
    /\ (maxFeatureHeight r = 0%float \/ (2 <? maxFeatureHeight r)%float = true)
    /\ (minFeatureWidth r = 0%float \/ (0.01 <? minFeatureWidth r)%float = true).
Proof.
  intros positions boundingBox r. subst r. unfold analyzeSurfaceFeatures.
  cbv zeta.
  cbn [heightVariations potentialReliefs potentialEngravings maxFeatureHeight
       minFeatureWidth].
  match goal with
  | |- context [fold_left (scanHeight positions) ?l ?s0] =>
      pose proof (scanHeights_ok positions l 0 s0) as H
  end.
  destruct H as (Hv & Hl & Hc & Hm).
  { unfold heightScanOk. cbn. repeat split; auto. }
  split; [exact Hv|]. split.
  { rewrite length_for_indices in Hl. cbn [Nat.add] in Hl.
    assert (Hq : ((N.min (count positions) 3000 + 3 * 3 - 1) / (3 * 3) <= 334)%N).
    { transitivity ((3000 + 3 * 3 - 1) / (3 * 3))%N; [|vm_compute; discriminate].
      apply N.Div0.div_le_mono. lia. }
    lia. }
  split.
  { eexists _, _. split; [reflexivity|]. split; [reflexivity | exact Hc]. }
  split; [exact Hm|].
  match goal with
  | |- context [fold_left ?f ?l infinity] =>
      pose proof (minWidth_ok positions l infinity (or_introl eq_refl)) as Hw;
      cbv zeta in Hw;
      set (w := fold_left f l infinity) in *
  end.
  destruct (w =? infinity)%float eqn:Einf; [left; reflexivity|].
  destruct Hw as [Hw|Hw]; [|right; exact Hw].
  rewrite Hw in Einf. discriminate Einf.
Qed.

(** ** The wall thickness sampler *)

(** The distance [nearestOpposite] returns is [Infinity] or above 0.1. *)
Lemma nearestOpposite_range :
  forall (positions : BufferAttribute) (faceNormals : list Vector3.t)
         (triIndex : N) (d : float),
    nearestOpposite positions faceNormals triIndex = Ok d ->
    d = infinity \/ (0.1 <? d)%float = true.
Proof.
  intros positions faceNormals t d. unfold nearestOpposite.
  destruct (element faceNormals t) as [n|e]; cbn [bind]; [|discriminate].
  apply (foldM_invariant _ _
           (fun m => m = infinity \/ (0.1 <? m)%float = true));
    [|left; reflexivity].
  intros m i m1 Hm _. destruct (i =? t)%N; [intros [= <-]; exact Hm|].
  destruct (element faceNormals i) as [cn|e]; cbn [bind]; [|discriminate].
  destruct (-0.5 <? Vector3.dot n cn)%float; [intros [= <-]; exact Hm|].
  set (dist := Vector3.distanceTo (centroidOf positions t)
                                  (centroidOf positions i)).
  destruct (dist <? m)%float; cbn [andb]; [|intros [= <-]; exact Hm].
  destruct (0.1 <? dist)%float eqn:E; intros [= <-];
    [right; exact E | exact Hm].
Qed.

Lemma sampling_measured :
  forall (positions : BufferAttribute) (faceNormals : list Vector3.t)
         (triangleCount : float) (l : list nat) (samples0 samples : list float),
    foldM (fun samples s =>
             match floor_index (Math_random (N.of_nat s) * triangleCount) with
             | Some triIndex =>
                 minDist <- nearestOpposite positions faceNormals triIndex ;;
                 Ok (if (minDist <? infinity)%float && (0 <? minDist)%float
                     then (samples ++ [minDist])%list else samples)
             | None => Throw TypeError
             end) l samples0 = Ok samples ->
    (Forall measuredThickness samples0 -> Forall measuredThickness samples)
    /\ (List.length samples <= List.length samples0 + List.length l)%nat.
Proof.
  intros positions faceNormals tc l.
  induction l as [|s l IH]; intros samples0 samples H; cbn [foldM] in H.
  - injection H as <-. split; [auto | cbn; lia].
  - destruct (floor_index _) as [t|]; cbn [bind] in H; [|discriminate].
    destruct (nearestOpposite positions faceNormals t) as [d|e] eqn:Ed;
      cbn [bind] in H; [|discriminate].
    apply IH in H. destruct H as [Hf Hl]. cbn [List.length].
    destruct (d <? infinity)%float eqn:Einf; cbn [andb] in *.
    + destruct (0 <? d)%float.
      * rewrite length_app in Hl. cbn [List.length] in Hl.
        split; [|lia]. intros H0. apply Hf. apply Forall_app.
        split; [exact H0|]. repeat constructor; [|exact Einf].
        destruct (nearestOpposite_range _ _ _ _ Ed) as [->|Hd];
          [discriminate Einf | exact Hd].
      * split; [exact Hf | lia].
    + split; [exact Hf | lia].
Qed.

Lemma length_sort_insert :
  forall (compareFn : float -> float -> float) (v : float) (l : list float),
    List.length (sort_insert compareFn v l) = S (List.length l).
Proof.
  intros f v l. induction l as [|w l IH]; cbn [sort_insert]; [reflexivity|].
  destruct (0 <? f w v)%float; cbn [List.length]; [reflexivity|].
  rewrite IH. reflexivity.
Qed.

Lemma Forall_sort_insert :
  forall (P : float -> Prop) (compareFn : float -> float -> float) (v : float)
         (l : list float),
    P v -> Forall P l -> Forall P (sort_insert compareFn v l).
Proof.
  intros P f v l Hv H. induction H as [|w l Hw Hl IH]; cbn [sort_insert].
  - repeat constructor. exact Hv.
  - destruct (0 <? f w v)%float; repeat constructor; auto.
Qed.

(** Sorting keeps the number of elements and what holds of all of them. *)
Lemma Array_sort_keeps :
  forall (P : float -> Prop) (compareFn : float -> float -> float)
         (l : list float),
    List.length (Array_sort compareFn l) = List.length l
    /\ (Forall P l -> Forall P (Array_sort compareFn l)).
Proof.
  intros P f l. unfold Array_sort.
  assert (H : forall acc,
             List.length (fold_left (fun sorted v => sort_insert f v sorted) l acc)
             = (List.length acc + List.length l)%nat
             /\ (Forall P acc -> Forall P l ->
                 Forall P (fold_left (fun sorted v => sort_insert f v sorted)
                                     l acc))).
  { induction l as [|v l IH]; intros acc; cbn [fold_left List.length].
    - split; [lia | auto].
    - destruct (IH (sort_insert f v acc)) as [Hl Hf]. split.
      + rewrite Hl, length_sort_insert. lia.
      + intros Ha Hv. inversion Hv; subst.
        apply Hf; [apply Forall_sort_insert|]; assumption. }
  destruct (H []) as [Hl Hf]. split; [exact Hl|].
  intros Hall. apply Hf; [constructor | exact Hall].
Qed.

(** X7: [analyzeWallThickness] never returns an empty sample list: there are
    between 1 and 100 samples, which are either the single fallback, a tenth
    of the smallest dimension of the box, or all measured, finite distances
    above 0.1; and the thin areas are a count of samples.  It throws only
    when a triangle has no normal or a drawn index is not a triangle's. *)
Theorem analyzeWallThickness_samples :
  forall (positions : BufferAttribute) (faceNormals : list Vector3.t)
         (boundingBox : Box3.t),
    match analyzeWallThickness positions faceNormals boundingBox with
    | Ok r =>
        (1 <= List.length (samples r) <= 100)%nat
        /\ (samples r = [fallbackThickness boundingBox]
            \/ Forall measuredThickness (samples r))
        /\ exists thin : nat,
             thinAreas r = numOfN (N.of_nat thin)
             /\ (thin <= List.length (samples r))%nat
    | Throw _ => ~ (covers faceNormals positions /\ drawsInRange positions)
    end.
Proof.
  intros positions faceNormals boundingBox.
  destruct (analyzeWallThickness positions faceNormals boundingBox)
    as [r|e] eqn:E.
  - unfold analyzeWallThickness in E. cbv zeta in E.
    match type of E with
    | bind ?c _ = _ => destruct c as [ss|e] eqn:Es; cbn [bind] in E;
                       [|discriminate]
    end.
    apply sampling_measured in Es. destruct Es as [Hf Hl].
    rewrite length_seq in Hl. cbn [List.length Nat.add] in Hl.
    injection E as <-. cbn [samples thinAreas].
    match goal with
    | |- context [Array_sort ?f ?l] =>
        destruct (Array_sort_keeps measuredThickness f l) as [Hsl Hsf];
        set (sorted := Array_sort f l) in *
    end.
    split; [|split].
    + destruct ss as [|s0 ss]; cbn [List.length] in *; lia.
    + destruct ss as [|s0 ss].
      * left. reflexivity.
      * right. apply Hsf. apply Hf. constructor.
    + eexists. split; [reflexivity|]. apply filter_length_le.
  - intros [Hc Hd].
    destruct (analyzeWallThickness_returns positions faceNormals boundingBox
                Hc Hd) as [r Hr].
    congruence.
Qed.

(** X8: on a soup of fewer than 30 points, fewer than 10 triangles,
    [analyzeWallThickness] measures nothing and draws nothing: whatever the
    normals are, its only sample is the fallback, a tenth of the smallest
    dimension of the box, and the minimum and the maximum it reports are
    [samples[0] || 0]: the fallback when that is above 0, and 0, not the
    sample, when the fallback is NaN. *)
Theorem small_mesh_wall_thickness :
  forall (positions : BufferAttribute) (faceNormals : list Vector3.t)
         (boundingBox : Box3.t),
    (count positions < 30)%N ->
    exists r,
      analyzeWallThickness positions faceNormals boundingBox = Ok r
      /\ samples r = [fallbackThickness boundingBox]
      /\ minThickness r = js_or (fallbackThickness boundingBox) 0
      /\ maxThickness r = js_or (fallbackThickness boundingBox) 0
      /\ thinAreas r
         = (if (fallbackThickness boundingBox <? 1)%float then 1 else 0)%float
      /\ ((0 <? fallbackThickness boundingBox)%float = true ->
          minThickness r = fallbackThickness boundingBox
          /\ maxThickness r = fallbackThickness boundingBox)
      /\ (is_nan (fallbackThickness boundingBox) = true ->
          minThickness r = 0%float /\ maxThickness r = 0%float).
Proof.
  intros positions faceNormals boundingBox Hsmall.
  unfold analyzeWallThickness. cbv zeta.
  rewrite (N.div_small (count positions) 30 Hsmall).
  cbn [N.min N.compare N.to_nat seq foldM bind].
  eexists. split; [reflexivity|].
  cbn [samples minThickness maxThickness thinAreas].
  fold (fallbackThickness boundingBox).
  change (Array_sort (fun a b : float => (a - b)%float)
                     [fallbackThickness boundingBox])
    with [fallbackThickness boundingBox].
  cbn [List.length Nat.sub nth_error js_or_undefined filter].
  change GUIDELINES.wallThickness.min with 1%float.
  split; [reflexivity|]. split; [reflexivity|]. split; [reflexivity|].
  split; [destruct (fallbackThickness boundingBox <? 1)%float; reflexivity|].
  split.
  - intros Hpos. rewrite (js_or_positive _ Hpos). split; reflexivity.
  - intros Hnan. unfold js_or. rewrite Hnan, orb_true_r. split; reflexivity.
Qed.

(** ** The order of the samples *)

Lemma digits2_pos_range :
  forall p : positive,
    (2 ^ (Z.pos (digits2_pos p) - 1) <= Z.pos p
     < 2 ^ Z.pos (digits2_pos p))%Z.
Proof.
  induction p as [p IH|p IH|]; cbn [digits2_pos];
    rewrite ?Pos2Z.inj_succ.
  - replace (Z.succ (Z.pos (digits2_pos p)) - 1)%Z
      with (Z.succ (Z.pos (digits2_pos p) - 1)) by lia.
    rewrite !Z.pow_succ_r by lia. rewrite (Pos2Z.inj_xI p). lia.
  - replace (Z.succ (Z.pos (digits2_pos p)) - 1)%Z
      with (Z.succ (Z.pos (digits2_pos p) - 1)) by lia.
    rewrite !Z.pow_succ_r by lia. rewrite (Pos2Z.inj_xO p). lia.
  - cbn. lia.
Qed.

Lemma iter_xO_pow :
  forall m d : positive,
    Z.pos (Pos.iter xO m d) = (Z.pos m * 2 ^ Z.pos d)%Z.
Proof.
  intros m d. induction d as [|d IH] using Pos.peano_ind.
  - cbn. lia.
  - rewrite Pos.iter_succ, Pos2Z.inj_succ, Z.pow_succ_r by lia.
    rewrite (Pos2Z.inj_xO (Pos.iter xO m d)), IH. lia.
Qed.

Lemma shl_align_fst :
  forall (m : positive) (e ez : Z),
    (ez <= e)%Z ->
    Z.pos (fst (shl_align m e ez)) = (Z.pos m * 2 ^ (e - ez))%Z.
Proof.
  intros m e ez Hle. unfold shl_align.
  destruct (ez - e)%Z as [|d|d] eqn:E; cbn [fst].
  - replace (e - ez)%Z with 0%Z by lia. cbn. lia.
  - lia.
  - rewrite iter_xO_pow. replace (e - ez)%Z with (Z.pos d) by lia.
    reflexivity.
Qed.

Lemma iter_pos_invariant :
  forall (A : Type) (f : A -> A) (Q : Z -> A -> Prop),
    (forall k x, Q k x -> Q (k + 1)%Z (f x)) ->
    forall (p : positive) (k : Z) (x : A),
      Q k x -> Q (k + Z.pos p)%Z (iter_pos f p x).
Proof.
  intros A f Q Hstep. induction p as [p IH|p IH|]; intros k x H;
    cbn [iter_pos].
  - replace (k + Z.pos p~1)%Z with (k + 1 + Z.pos p + Z.pos p)%Z by lia.
    apply IH, IH, Hstep, H.
  - replace (k + Z.pos p~0)%Z with (k + Z.pos p + Z.pos p)%Z by lia.
    apply IH, IH, H.
  - apply Hstep, H.
Qed.

(** Shifting a mantissa of [d] digits right by fewer than [d] places leaves
    a positive mantissa. *)
Lemma shr_keeps_positive :
  forall (m p : positive) (l : location),
    (Z.pos p < Z.pos (digits2_pos m))%Z ->
    exists m', shr_m (iter_pos shr_1 p (shr_record_of_loc (Z.pos m) l))
               = Z.pos m'.
Proof.
  intros m p l Hp.
  pose (Q := fun (k : Z) (mrs : shr_record) =>
               (k < Z.pos (digits2_pos m))%Z ->
               exists m', shr_m mrs = Z.pos m'
                          /\ Z.pos (digits2_pos m')
                             = (Z.pos (digits2_pos m) - k)%Z).
  assert (H : Q (0 + Z.pos p)%Z
                (iter_pos shr_1 p (shr_record_of_loc (Z.pos m) l))).
  { apply (iter_pos_invariant _ shr_1 Q).
    - intros k [mx r s] HQ Hk.
      destruct (HQ ltac:(lia)) as (m' & Hm & Hd). cbn [shr_m] in Hm.
      subst mx. destruct m' as [q|q|]; cbn [shr_1 digits2_pos] in *.
      + exists q. split; [reflexivity|]. lia.
      + exists q. split; [reflexivity|]. lia.
      + lia.
    - intros _. exists m. split; [destruct l as [|[| |]]; reflexivity | lia]. }
  destruct (H ltac:(lia)) as (m' & Hm & _). exists m'. exact Hm.
Qed.

Lemma shr_fexp_positive :
  forall (m : positive) (e : Z) (l : location),
    (-1074 <= e)%Z ->
    exists mrs e' m',
      shr_fexp prec emax (Z.pos m) e l = (mrs, e')
      /\ shr_m mrs = Z.pos m' /\ (-1074 <= e')%Z.
Proof.
  intros m e l He. unfold shr_fexp, shr. cbn [Zdigits2].
  destruct (fexp prec emax (Z.pos (digits2_pos m) + e) - e)%Z as [|p|p] eqn:En.
  - do 2 eexists. exists m. split; [reflexivity|].
    split; [destruct l as [|[| |]]; reflexivity | exact He].
  - assert (Hp : (Z.pos p < Z.pos (digits2_pos m))%Z).
    { unfold fexp, emin, prec, emax in En. lia. }
    destruct (shr_keeps_positive m p l Hp) as [m' Hm'].
    do 2 eexists. exists m'. split; [reflexivity|]. split; [exact Hm' | lia].
  - do 2 eexists. exists m. split; [reflexivity|].
    split; [destruct l as [|[| |]]; reflexivity | exact He].
Qed.

(** Rounding a positive mantissa at an exponent of at least -1074 never
    gives zero: the result is finite or infinite, with the sign given. *)
Lemma binary_round_aux_positive :
  forall (sx : bool) (m : positive) (e : Z) (l : location),
    (-1074 <= e)%Z ->
    (exists m' e', binary_round_aux prec emax sx (Z.pos m) e l
                   = S754_finite sx m' e')
    \/ binary_round_aux prec emax sx (Z.pos m) e l = S754_infinity sx.
Proof.
  intros sx m e l He. unfold binary_round_aux.
  destruct (shr_fexp_positive m e l He) as (mrs & e' & m' & E & Hm & He').
  rewrite E, Hm.
  assert (Hr : exists m2, round_nearest_even (Z.pos m') (loc_of_shr_record mrs)
                          = Z.pos m2).
  { destruct (loc_of_shr_record mrs) as [|[| |]]; cbn [round_nearest_even];
      try (eexists; reflexivity).
    destruct (Z.even (Z.pos m')); eexists; reflexivity. }
  destruct Hr as [m2 Hr]. rewrite Hr.
  destruct (shr_fexp_positive m2 e' loc_Exact He')
    as (mrs2 & e2 & m3 & E2 & Hm3 & _).
  rewrite E2, Hm3.
  destruct (e2 <=? emax - prec)%Z; [left; eauto | right; reflexivity].
Qed.

Lemma binary_round_positive :
  forall (sx : bool) (m : positive) (e : Z),
    (-1074 <= e)%Z ->
    (exists m' e', binary_round prec emax sx m e = S754_finite sx m' e')
    \/ binary_round prec emax sx m e = S754_infinity sx.
Proof.
  intros sx m e He. unfold binary_round.
  destruct (shl_align m e _) as [mz ez] eqn:E.
  apply binary_round_aux_positive.
  unfold shl_align in E.
  destruct (fexp prec emax (Z.pos (digits2_pos m) + e) - e)%Z eqn:En;
    injection E as _ <-; try exact He.
  unfold fexp, emin, prec, emax. lia.
Qed.

(** What the format tells about the mantissa and the exponent of a finite
    number. *)
Lemma finite_canonical :
  forall (x : float) (s : bool) (m : positive) (e : Z),
    Prim2SF x = S754_finite s m e ->
    (-1074 <= e)%Z
    /\ (Z.pos (digits2_pos m) <= 53)%Z
    /\ ((-1074 < e)%Z -> Z.pos (digits2_pos m) = 53%Z).
Proof.
  intros x s m e H. pose proof (Prim2SF_valid x) as Hv. rewrite H in Hv.
  cbn [valid_binary] in Hv. unfold bounded, canonical_mantissa in Hv.
  apply andb_prop in Hv. destruct Hv as [Hc _].
  apply Z.eqb_eq in Hc. unfold fexp, emin, prec, emax in Hc. lia.
Qed.

(** On positive finite numbers the comparison is that of the integers
    they are in units of 2^-1074. *)
Lemma SFcompare_ulps :
  forall (a b : float) (m1 m2 : positive) (e1 e2 : Z),
    Prim2SF a = S754_finite false m1 e1 ->
    Prim2SF b = S754_finite false m2 e2 ->
    SFcompare (Prim2SF a) (Prim2SF b) = Some (ulpsOf a ?= ulpsOf b)%Z.
Proof.
  intros a b m1 m2 e1 e2 Ha Hb. unfold ulpsOf. rewrite Ha, Hb.
  destruct (finite_canonical a _ _ _ Ha) as (He1 & Hd1 & Hn1).
  destruct (finite_canonical b _ _ _ Hb) as (He2 & Hd2 & Hn2).
  pose proof (digits2_pos_range m1) as [Hl1 Hu1].
  pose proof (digits2_pos_range m2) as [Hl2 Hu2].
  assert (H53 : forall d : Z, (0 < d <= 53)%Z -> (2 ^ d <= 2 * 2 ^ 52)%Z).
  { intros d Hd. change (2 * 2 ^ 52)%Z with (2 ^ 53)%Z.
    apply Z.pow_le_mono_r; lia. }
  cbn [SFcompare]. f_equal.
  destruct (Z.compare_spec e1 e2) as [Heq|Hlt|Hgt].
  - subst e2. change (Pos.compare_cont Eq m1 m2) with (Z.pos m1 ?= Z.pos m2)%Z.
    apply Zmult_compare_compat_r.
    apply Z.lt_gt. apply Z.pow_pos_nonneg; lia.
  - symmetry. apply Z.compare_lt_iff.
    replace (e2 + 1074)%Z with ((e2 - e1) + (e1 + 1074))%Z by lia.
    rewrite (Z.pow_add_r 2 (e2 - e1) (e1 + 1074)) by lia.
    assert (Hk : (0 < 2 ^ (e1 + 1074))%Z) by (apply Z.pow_pos_nonneg; lia).
    assert (Hj : (2 ^ 1 <= 2 ^ (e2 - e1))%Z) by (apply Z.pow_le_mono_r; lia).
    change (2 ^ 1)%Z with 2%Z in Hj.
    rewrite (Hn2 ltac:(lia)) in Hl2. change (53 - 1)%Z with 52%Z in Hl2.
    pose proof (H53 (Z.pos (digits2_pos m1)) ltac:(lia)) as Hbound.
    set (T := (2 ^ 52)%Z) in *. set (J := (2 ^ (e2 - e1))%Z) in *.
    set (K := (2 ^ (e1 + 1074))%Z) in *. clearbody T J K.
    rewrite Z.mul_assoc. apply Z.mul_lt_mono_pos_r; [exact Hk|]. nia.
  - symmetry. apply Z.compare_gt_iff.
    replace (e1 + 1074)%Z with ((e1 - e2) + (e2 + 1074))%Z by lia.
    rewrite (Z.pow_add_r 2 (e1 - e2) (e2 + 1074)) by lia.
    assert (Hk : (0 < 2 ^ (e2 + 1074))%Z) by (apply Z.pow_pos_nonneg; lia).
    assert (Hj : (2 ^ 1 <= 2 ^ (e1 - e2))%Z) by (apply Z.pow_le_mono_r; lia).
    change (2 ^ 1)%Z with 2%Z in Hj.
    rewrite (Hn1 ltac:(lia)) in Hl1. change (53 - 1)%Z with 52%Z in Hl1.
    pose proof (H53 (Z.pos (digits2_pos m2)) ltac:(lia)) as Hbound.
    set (T := (2 ^ 52)%Z) in *. set (J := (2 ^ (e1 - e2))%Z) in *.
    set (K := (2 ^ (e2 + 1074))%Z) in *. clearbody T J K.
    rewrite Z.mul_assoc. apply Z.mul_lt_mono_pos_r; [exact Hk|]. nia.
Qed.

(** A measured thickness is a positive finite number. *)
Lemma measured_finite :
  forall s : float,
    measuredThickness s -> exists m e, Prim2SF s = S754_finite false m e.
Proof.
  intros s [H1 H2]. rewrite FloatAxioms.ltb_spec in H1, H2.
  change (Prim2SF infinity) with (S754_infinity false) in H2.
  remember (Prim2SF 0.1) as c eqn:Ec. vm_compute in Ec. subst c.
  unfold SFltb, SFcompare in H1, H2.
  destruct (Prim2SF s) as [sg|sg| |sg m e]; try discriminate H1.
  - destruct sg; [discriminate H1 | discriminate H2].
  - destruct sg; [discriminate H1 | eauto].
Qed.

Lemma ltb_ulps :
  forall a b : float,
    measuredThickness a -> measuredThickness b ->
    (a <? b)%float = (ulpsOf a <? ulpsOf b)%Z.
Proof.
  intros a b Ha Hb.
  destruct (measured_finite a Ha) as (m1 & e1 & E1).
  destruct (measured_finite b Hb) as (m2 & e2 & E2).
  rewrite FloatAxioms.ltb_spec. unfold SFltb.
  rewrite (SFcompare_ulps a b _ _ _ _ E1 E2). unfold Z.ltb.
  destruct (ulpsOf a ?= ulpsOf b)%Z; reflexivity.
Qed.

Lemma leb_ulps :
  forall a b : float,
    measuredThickness a -> measuredThickness b ->
    (a <=? b)%float = (ulpsOf a <=? ulpsOf b)%Z.
Proof.
  intros a b Ha Hb.
  destruct (measured_finite a Ha) as (m1 & e1 & E1).
  destruct (measured_finite b Hb) as (m2 & e2 & E2).
  rewrite FloatAxioms.leb_spec. unfold SFleb.
  rewrite (SFcompare_ulps a b _ _ _ _ E1 E2). unfold Z.leb.
  destruct (ulpsOf a ?= ulpsOf b)%Z; reflexivity.
Qed.

(** The comparator [a - b] of the sort is above zero exactly when [b] is
    below [a]: the difference of two distinct finite numbers is never
    rounded to zero. *)
Lemma sub_sign_measured :
  forall a b : float,
    measuredThickness a -> measuredThickness b ->
    (0 <? a - b)%float = (b <? a)%float.
Proof.
  intros a b Ha Hb. rewrite (ltb_ulps b a Hb Ha).
  destruct (measured_finite a Ha) as (m1 & e1 & E1).
  destruct (measured_finite b Hb) as (m2 & e2 & E2).
  destruct (finite_canonical a _ _ _ E1) as (He1 & _).
  destruct (finite_canonical b _ _ _ E2) as (He2 & _).
  rewrite FloatAxioms.ltb_spec, sub_spec. unfold ulpsOf. rewrite E1, E2.
  change (Prim2SF 0) with (S754_zero false).
  unfold SF64sub, SFsub. cbv zeta. cbn [cond_Zopp].
  rewrite !shl_align_fst by lia.
  set (ez := Z.min e1 e2).
  assert (Hez : (-1074 <= ez)%Z) by (unfold ez; lia).
  replace (e1 + 1074)%Z with ((e1 - ez) + (ez + 1074))%Z by lia.
  replace (e2 + 1074)%Z with ((e2 - ez) + (ez + 1074))%Z by lia.
  rewrite (Z.pow_add_r 2 (e1 - ez) (ez + 1074)) by (unfold ez; lia).
  rewrite (Z.pow_add_r 2 (e2 - ez) (ez + 1074)) by (unfold ez; lia).
  rewrite !Z.mul_assoc.
  assert (Hk : (0 < 2 ^ (ez + 1074))%Z) by (apply Z.pow_pos_nonneg; lia).
  set (K := (2 ^ (ez + 1074))%Z) in *.
  set (X := (Z.pos m1 * 2 ^ (e1 - ez))%Z).
  set (Y := (Z.pos m2 * 2 ^ (e2 - ez))%Z).
  clearbody K X Y.
  destruct (X - Y)%Z as [|p|p] eqn:Ez; cbn [binary_normalize].
  - cbn. symmetry. apply Z.ltb_ge. nia.
  - replace (Y * K <? X * K)%Z with true by (symmetry; apply Z.ltb_lt; nia).
    destruct (binary_round_positive false p ez Hez) as [(m' & e' & ->)| ->];
      reflexivity.
  - replace (Y * K <? X * K)%Z with false by (symmetry; apply Z.ltb_ge; nia).
    destruct (binary_round_positive true p ez Hez) as [(m' & e' & ->)| ->];
      reflexivity.
Qed.

Lemma sort_insert_In :
  forall (f : float -> float -> float) (v x : float) (l : list float),
    In x (sort_insert f v l) <-> x = v \/ In x l.
Proof.
  intros f v x l. induction l as [|w l IH]; cbn [sort_insert].
  - cbn. intuition.
  - destruct (0 <? f w v)%float; cbn [In] in *; [intuition|].
    rewrite IH. intuition.
Qed.

Lemma Array_sort_In :
  forall (f : float -> float -> float) (x : float) (l : list float),
    In x (Array_sort f l) <-> In x l.
Proof.
  intros f x l. unfold Array_sort.
  assert (H : forall acc,
             In x (fold_left (fun sorted v => sort_insert f v sorted) l acc)
             <-> In x acc \/ In x l).
  { induction l as [|v l IH]; intros acc; cbn [fold_left In].
    - intuition.
    - rewrite IH, sort_insert_In. intuition. }
  rewrite H. cbn. intuition.
Qed.

(** Inserting a measured sample into an ascending list of measured samples
    gives an ascending list. *)
Lemma sort_insert_ascending :
  forall (v : float) (l : list float),
    measuredThickness v -> Forall measuredThickness l ->
    StronglySorted ascending l ->
    StronglySorted ascending (sort_insert (fun a b => (a - b)%float) v l).
Proof.
  intros v l Hv Hall Hs. induction Hs as [|w l Hs IH Hw]; cbn [sort_insert].
  - repeat constructor.
  - inversion Hall as [|w' l' Hmw Hml]; subst.
    rewrite (sub_sign_measured w v Hmw Hv), (ltb_ulps v w Hv Hmw).
    destruct (Z.ltb_spec (ulpsOf v) (ulpsOf w)) as [Hlt|Hge].
    + constructor; [constructor; assumption|].
      constructor.
      * unfold ascending. rewrite (leb_ulps v w Hv Hmw). apply Z.leb_le. lia.
      * apply Forall_forall. intros x Hx.
        pose proof (proj1 (Forall_forall _ _) Hw x Hx) as Hwx.
        pose proof (proj1 (Forall_forall _ _) Hml x Hx) as Hmx.
        unfold ascending in *. rewrite (leb_ulps w x Hmw Hmx) in Hwx.
        rewrite (leb_ulps v x Hv Hmx). apply Z.leb_le.
        apply Z.leb_le in Hwx. lia.
    + constructor; [apply IH; exact Hml|].
      apply Forall_sort_insert; [|exact Hw].
      unfold ascending. rewrite (leb_ulps w v Hmw Hv). apply Z.leb_le. lia.
Qed.

(** On measured samples the sort returns an ascending list. *)
Lemma Array_sort_ascending :
  forall l : list float,
    Forall measuredThickness l ->
    StronglySorted ascending (Array_sort (fun a b => (a - b)%float) l).
Proof.
  intros l Hall. unfold Array_sort.
  assert (H : forall acc,
             Forall measuredThickness acc -> StronglySorted ascending acc ->
             Forall measuredThickness l ->
             StronglySorted ascending
               (fold_left (fun sorted v =>
                             sort_insert (fun a b => (a - b)%float) v sorted)
                          l acc)).
  { clear Hall. induction l as [|v l IH]; intros acc Hacc Hs Hl;
      cbn [fold_left]; [exact Hs|].
    inversion Hl as [|v' l' Hv Hl']; subst.
    apply IH; [apply Forall_sort_insert; assumption | | exact Hl'].
    apply sort_insert_ascending; assumption. }
  apply H; [constructor | constructor | exact Hall].
Qed.

(** In an ascending list of measured samples an earlier element is at most
    a later one. *)
Lemma ascending_nth :
  forall (l : list float),
    StronglySorted ascending l -> Forall measuredThickness l ->
    forall (i j : nat) (a b : float),
      (i <= j)%nat -> nth_error l i = Some a -> nth_error l j = Some b ->
      ascending a b.
Proof.
  intros l Hs. induction Hs as [|x l Hs IH Hx]; intros Hall i j a b Hij Ha Hb.
  - destruct i; discriminate Ha.
  - inversion Hall as [|x' l' Hmx Hml]; subst.
    destruct i as [|i], j as [|j]; cbn [nth_error] in Ha, Hb.
    + injection Ha as <-. injection Hb as <-. unfold ascending.
      rewrite (leb_ulps x x Hmx Hmx). apply Z.leb_refl.
    + injection Ha as <-. apply nth_error_In in Hb.
      exact (proj1 (Forall_forall _ _) Hx b Hb).
    + lia.
    + apply (IH Hml i j); [lia | assumption | assumption].
Qed.

(** The element of a list of measured samples that [l[k] || 0] is. *)
Lemma measured_extreme :
  forall (l : list float) (k : nat),
    (k < List.length l)%nat ->
    Forall measuredThickness l ->
    nth_error l k = Some (js_or_undefined (nth_error l k) 0)
    /\ measuredThickness (js_or_undefined (nth_error l k) 0).
Proof.
  intros l k Hk Hall.
  destruct (nth_error l k) as [s|] eqn:E;
    [|apply nth_error_None in E; lia].
  pose proof (nth_error_In _ _ E) as Hin.
  pose proof (proj1 (Forall_forall _ _) Hall s Hin) as Hs.
  cbn [js_or_undefined]. rewrite (js_or_measured s (proj1 Hs)).
  split; [reflexivity | exact Hs].
Qed.

(** X9: when the samples [analyzeWallThickness] returns are measured, they
    are in ascending order, the comparator [a - b] of the sort being above
    zero exactly when [b] is below [a]; the minimum and the maximum
    thickness it reports are the first and the last of them, so that every
    sample is between the two, and both are finite distances above 0.1.
    The sampler throws only when a triangle has no normal or a drawn index
    is not a triangle's. *)
Theorem wall_thickness_extremes :
  forall (positions : BufferAttribute) (faceNormals : list Vector3.t)
         (boundingBox : Box3.t),
    match analyzeWallThickness positions faceNormals boundingBox with
    | Ok r =>
        Forall measuredThickness (samples r) ->
        StronglySorted ascending (samples r)
        /\ nth_error (samples r) 0 = Some (minThickness r)
        /\ nth_error (samples r) (List.length (samples r) - 1)
           = Some (maxThickness r)
        /\ Forall (fun s => ascending (minThickness r) s
                            /\ ascending s (maxThickness r))
                  (samples r)
        /\ ascending (minThickness r) (maxThickness r)
        /\ measuredThickness (minThickness r)
        /\ measuredThickness (maxThickness r)
    | Throw _ => ~ (covers faceNormals positions /\ drawsInRange positions)
    end.
Proof.
  intros positions faceNormals boundingBox.
  destruct (analyzeWallThickness positions faceNormals boundingBox)
    as [r|e] eqn:E.
  2: { intros [Hc Hd].
       destruct (analyzeWallThickness_returns positions faceNormals boundingBox
                   Hc Hd) as [r Hr].
       congruence. }
  unfold analyzeWallThickness in E. cbv zeta in E.
  match type of E with
  | bind ?c _ = _ => destruct c as [ss|e] eqn:Es; cbn [bind] in E;
                     [|discriminate]
  end.
  injection E as <-. cbn [samples minThickness maxThickness].
  match goal with
  | |- context [Array_sort ?f ?l] =>
      destruct (Array_sort_keeps measuredThickness f l) as [Hsl _];
      pose proof (Array_sort_ascending l) as Hasc;
      pose proof (fun x => proj2 (Array_sort_In f x l)) as Hin;
      assert (Hne : (0 < List.length l)%nat)
        by (destruct ss; cbn [List.length]; lia);
      set (sorted := Array_sort f l) in *
  end.
  intros Hall.
  assert (Hs : StronglySorted ascending sorted).
  { apply Hasc. apply Forall_forall. intros x Hx.
    exact (proj1 (Forall_forall _ _) Hall x (Hin x Hx)). }
  destruct (measured_extreme sorted 0 ltac:(lia) Hall) as [Hn0 Hm0].
  destruct (measured_extreme sorted (List.length sorted - 1) ltac:(lia) Hall)
    as [Hn1 Hm1].
  split; [exact Hs|]. split; [exact Hn0|]. split; [exact Hn1|].
  split; [|split; [|split; assumption]].
  - apply Forall_forall. intros s Hins.
    destruct (In_nth_error _ _ Hins) as [k Hk].
    assert (Hlt : (k < List.length sorted)%nat)
      by (apply nth_error_Some; congruence).
    split.
    + exact (ascending_nth sorted Hs Hall 0 k _ _ ltac:(lia) Hn0 Hk).
    + exact (ascending_nth sorted Hs Hall k (List.length sorted - 1) _ _
               ltac:(lia) Hk Hn1).
  - exact (ascending_nth sorted Hs Hall 0 (List.length sorted - 1) _ _
             ltac:(lia) Hn0 Hn1).
Qed.

(** ** The flat base *)

Lemma flat_base_scan :
  forall (bins seen : list (string * NormalBin.t))
         (st : float * option Vector3.t * bool),
    (if snd st
     then exists bin, In bin (map snd seen)
                      /\ fst (fst st) = NormalBin.area bin
                      /\ snd (fst st) = Some (NormalBin.normal bin)
                      /\ facesDown bin = true
     else fst (fst st) = 0%float /\ snd (fst st) = None
          /\ forall bin, In bin (map snd seen) -> facesDown bin = true ->
                         (0 <? NormalBin.area bin)%float = false) ->
    let st' :=
      fold_left
        (fun (st : float * option Vector3.t * bool) entry =>
           let bin := snd entry in
           if (fst (fst st) <? NormalBin.area bin)%float
              && ((Vector3.y (NormalBin.normal bin) <? -0.9)%float
                  || (Vector3.z (NormalBin.normal bin) <? -0.9)%float)
           then (NormalBin.area bin, Some (NormalBin.normal bin), true)
           else st)
        bins st in
    if snd st'
    then exists bin, In bin (map snd (seen ++ bins)%list)
                     /\ fst (fst st') = NormalBin.area bin
                     /\ snd (fst st') = Some (NormalBin.normal bin)
                     /\ facesDown bin = true
    else fst (fst st') = 0%float /\ snd (fst st') = None
         /\ forall bin, In bin (map snd (seen ++ bins)%list) ->
                        facesDown bin = true ->
                        (0 <? NormalBin.area bin)%float = false.
Proof.
  induction bins as [|[k bin] bins IH]; intros seen st H; cbn [fold_left].
  - rewrite app_nil_r. exact H.
  - replace (seen ++ (k, bin) :: bins)%list
      with ((seen ++ [(k, bin)]) ++ bins)%list
      by (rewrite <- app_assoc; reflexivity).
    apply IH. cbn [snd]. fold (facesDown bin).
    destruct ((fst (fst st) <? NormalBin.area bin)%float && facesDown bin)
      eqn:E.
    + cbn [fst snd]. apply andb_prop in E. destruct E as [_ Ed].
      exists bin. rewrite map_app, in_app_iff. cbn. auto.
    + destruct st as [[a n] b]. cbn [fst snd] in *. destruct b.
      * destruct H as (bin0 & Hin & Ha & Hn & Hd). exists bin0.
        rewrite map_app, in_app_iff. auto.
      * destruct H as (Ha & Hn & Hnone). subst a.
        split; [reflexivity|]. split; [exact Hn|].
        intros bin' Hin Hd. rewrite map_app, in_app_iff in Hin.
        destruct Hin as [Hin|[<-|[]]]; [apply Hnone; assumption|].
        cbn [snd] in Hd |- *. rewrite Hd, andb_true_r in E. exact E.
Qed.

Lemma Map_get_Some_In :
  forall (V : Type) (key : string) (v : V) (m : list (string * V)),
    Map_get key m = Some v -> exists k, In (k, v) m.
Proof.
  intros V key v m. induction m as [|[k w] m IH]; cbn [Map_get];
    [discriminate|].
  destruct (String.eqb k key).
  - intros [= ->]. exists k. left. reflexivity.
  - intros H. destruct (IH H) as [k' Hin]. exists k'. right. exact Hin.
Qed.

(** The normal of a bin is the normal of a triangle. *)
Lemma binNormals_normals :
  forall (positions : BufferAttribute) (faceNormals : list Vector3.t)
         (normalBins : list (string * NormalBin.t)),
    binNormals positions faceNormals = Ok normalBins ->
    Forall (fun entry => In (NormalBin.normal (snd entry)) faceNormals)
           normalBins.
Proof.
  intros positions faceNormals normalBins. unfold binNormals.
  apply (foldM_invariant _ _
           (Forall (fun entry : string * NormalBin.t =>
                      In (NormalBin.normal (snd entry)) faceNormals)));
    [|constructor].
  intros bins i bins1 Hall _. unfold element.
  destruct (nth_error faceNormals (N.to_nat i)) as [normal|] eqn:En;
    cbn [bind]; [|discriminate].
  apply nth_error_In in En. cbv zeta.
  match goal with
  | |- context [Map_has ?k bins] => set (binKey := k)
  end.
  assert (Hall' : Forall (fun entry : string * NormalBin.t =>
                            In (NormalBin.normal (snd entry)) faceNormals)
                         (if negb (Map_has binKey bins)
                          then Map_set binKey (NormalBin.new 0 normal) bins
                          else bins)).
  { destruct (negb (Map_has binKey bins)); [|exact Hall].
    apply Map_set_Forall; [intros k; exact En | exact Hall]. }
  destruct (Map_get binKey _) as [bin|] eqn:Eb; [|discriminate].
  intros [= <-]. apply Map_set_Forall; [|exact Hall'].
  intros k. cbn [snd NormalBin.normal].
  destruct (Map_get_Some_In _ _ _ _ Eb) as [k' Hin].
  exact (proj1 (Forall_forall _ _) Hall' _ Hin).
Qed.

(** X10: the flat base [analyzeGeometricComplexity] reports is one of its
    normal bins: when there is one, its area and its normal are those of a
    bin whose normal, the normal of one of the triangles, has y or z below
    -0.9; when there is none, the area is 0, the normal is null and no bin
    that faces down has a positive area.  The analyzer throws only on a
    point count that is not a multiple of 3 or on a triangle without a
    normal. *)
Theorem flat_base_is_a_downward_bin :
  forall (positions : BufferAttribute) (faceNormals : list Vector3.t)
         (boundingBox : Box3.t) (surfaceArea : float),
    match analyzeGeometricComplexity positions faceNormals boundingBox
                                     surfaceArea with
    | Ok r =>
        exists normalBins,
          binNormals positions faceNormals = Ok normalBins
          /\ if hasFlatBase r
             then exists bin, In bin (map snd normalBins)
                              /\ flatBaseArea r = NormalBin.area bin
                              /\ flatBaseNormal r = Some (NormalBin.normal bin)
                              /\ facesDown bin = true
                              /\ In (NormalBin.normal bin) faceNormals
             else flatBaseArea r = 0%float /\ flatBaseNormal r = None
                  /\ forall bin, In bin (map snd normalBins) ->
                                 facesDown bin = true ->
                                 (0 <? NormalBin.area bin)%float = false
    | Throw _ =>
        ~ ((count positions mod 3 = 0)%N /\ covers faceNormals positions)
    end.
Proof.
  intros positions faceNormals boundingBox area.
  destruct (analyzeGeometricComplexity positions faceNormals boundingBox area)
    as [r|e] eqn:E.
  2: { intros [Hmod Hc].
       destruct (analyzeGeometricComplexity_returns positions faceNormals
                   boundingBox area Hmod Hc) as [r Hr].
       congruence. }
  unfold analyzeGeometricComplexity in E.
  destruct (match faceNormals with
            | [] => (0%float, 0%float)
            | n0 :: rest => curvatureSums n0 rest (0%float, 0%float)
            end) as [cs cq].
  destruct (binNormals positions faceNormals) as [bins|e] eqn:Ebins;
    cbn [bind] in E; [|discriminate].
  pose proof (binNormals_normals _ _ _ Ebins) as Hnormals.
  pose proof (flat_base_scan bins [] (0%float, None, false)) as H.
  cbv zeta in H. cbn [app] in H.
  destruct (fold_left _ bins (0%float, None, false)) as [[a n] b].
  destruct (buildEdgeMap positions) as [edgeMap|e]; cbn [bind] in E;
    [|discriminate].
  injection E as <-.
  exists bins. split; [reflexivity|].
  cbn [hasFlatBase flatBaseArea flatBaseNormal]. cbn [fst snd] in H.
  destruct b.
  - destruct H as (bin & Hin & Ha & Hn & Hd); [repeat split; intros bin []|].
    exists bin. repeat split; try assumption.
    apply in_map_iff in Hin. destruct Hin as (entry & <- & Hentry).
    exact (proj1 (Forall_forall _ _) Hnormals _ Hentry).
  - apply H. repeat split. intros bin [].
Qed.

(** ** The bundle *)

(** X11: in a bundle of [analyzeSTLGeometry] the figures taken from the
    edge map agree: the edge count is the total of the edge analysis, the
    number of entries; and with [holes] the number of edges with one face
    divided by 6, the blind hole count is [holes] and the genus is
    [holes - 1], or 0 when there is no hole; the component count is 1.  The
    entry point throws only on a point count that is not a multiple of 3 or
    when the wall thickness sampler draws an index that is not a
    triangle's. *)
Theorem bundle_edge_fields_agree :
  forall positions : BufferAttribute,
    match analyzeSTLGeometry positions with
    | Ok data =>
        exists edgeMap,
          buildEdgeMap positions = Ok edgeMap
          /\ edgeCount data = numOfN (N.of_nat (List.length edgeMap))
          /\ totalEdges (edgeAnalysis data) = edgeCount data
          /\ let holes :=
               (N.of_nat (List.length (boundaryEdgesOf edgeMap)) / 6)%N in
             blindHoleCount (cavityAnalysis data) = numOfN holes
             /\ genus (geometricComplexity data)
                = numOfZ (Z.max 0 (Z.of_N holes - 1))
             /\ componentCount (geometricComplexity data) = 1%float
    | Throw _ =>
        ~ ((count positions mod 3 = 0)%N /\ drawsInRange positions)
    end.
Proof.
  intros positions.
  destruct (analyzeSTLGeometry positions) as [data|e] eqn:E.
  2: { intros [Hmod Hd].
       destruct (analyzeSTLGeometry_returns positions Hmod Hd) as [r Hr].
       congruence. }
  unfold analyzeSTLGeometry in E. cbv zeta in E.
  destruct (buildEdgeMap positions) as [edgeMap|e] eqn:Emap; cbn [bind] in E;
    [|discriminate].
  exists edgeMap. split; [reflexivity|].
  repeat match type of E with
  | bind ?c _ = Ok _ =>
      let r := fresh "r" in
      let Er := fresh "Er" in
      destruct c as [r|?] eqn:Er; cbn [bind] in E; [|discriminate]
  end.
  injection E as <-.
  cbn [edgeCount edgeAnalysis cavityAnalysis geometricComplexity].
  unfold analyzeEdges in Er. rewrite Emap in Er. cbn [bind] in Er.
  destruct (foldM _ edgeMap _) as [st|?]; cbn [bind] in Er; [|discriminate].
  injection Er as <-.
  unfold analyzeCavities in Er0. rewrite Emap in Er0. cbn [bind] in Er0.
  destruct (countConcaveRegions _ _ _) as [c|?]; cbn [bind] in Er0;
    [|discriminate].
  injection Er0 as <-.
  unfold analyzeGeometricComplexity in Er3.
  destruct (match calculateFaceNormals positions with
            | [] => (0%float, 0%float)
            | n0 :: rest => curvatureSums n0 rest (0%float, 0%float)
            end) as [cs cq].
  destruct (binNormals _ _) as [bins|?]; cbn [bind] in Er3; [|discriminate].
  destruct (fold_left _ bins (0%float, None, false)) as [[a n] b].
  rewrite Emap in Er3. cbn [bind] in Er3. injection Er3 as <-.
  cbn [totalEdges blindHoleCount genus componentCount].
  rewrite countBoundaryEdges_spec. repeat split.
Qed.

Lemma scanTriangle_surfaceArea :
  forall (positions : BufferAttribute) (l : list N) (st : BulkScan),
    signNotNegative (Prim2SF (scan_surfaceArea st)) ->
    signNotNegative
      (Prim2SF (scan_surfaceArea (fold_left (scanTriangle positions) l st))).
Proof.
  intros positions l. induction l as [|t l IH]; intros st H; cbn [fold_left].
  - exact H.
  - apply IH. cbn [scanTriangle scan_surfaceArea].
    apply add_notNegative; [exact H|].
    apply half_notNegative. apply sqrt_notNegative.
Qed.

(** X12: the volume, the surface area and the three components of the
    normal distribution of a bundle are never below zero, whatever the
    orientation of the triangles and whatever overflows: each is a number
    at least 0, or NaN.  The entry point throws only on a point count that
    is not a multiple of 3 or when the wall thickness sampler draws an index
    that is not a triangle's. *)
Theorem bulk_metrics_not_negative :
  forall positions : BufferAttribute,
    match analyzeSTLGeometry positions with
    | Ok data =>
        notNegative (volume data) /\ notNegative (surfaceArea data)
        /\ notNegative (Vector3.x (normalDistribution data))
        /\ notNegative (Vector3.y (normalDistribution data))
        /\ notNegative (Vector3.z (normalDistribution data))
    | Throw _ =>
        ~ ((count positions mod 3 = 0)%N /\ drawsInRange positions)
    end.
Proof.
  intros positions.
  destruct (analyzeSTLGeometry positions) as [data|e] eqn:E.
  2: { intros [Hmod Hd].
       destruct (analyzeSTLGeometry_returns positions Hmod Hd) as [r Hr].
       congruence. }
  unfold analyzeSTLGeometry in E. cbv zeta in E.
  repeat (apply bind_Ok_inv in E; destruct E as (? & _ & E)).
  injection E as <-.
  cbn [volume surfaceArea normalDistribution Vector3.x Vector3.y Vector3.z].
  split; [apply abs_notNegative|].
  split; [apply signNotNegative_ltb; apply scanTriangle_surfaceArea; exact I|].
  repeat split; apply abs_over_count_notNegative.
Qed.

(** ** The checks *)

Ltac each_check :=
  unfold validateModel;
  repeat (apply Forall_cons || apply Forall_nil).

Ltac split_ifs :=
  repeat match goal with
         | |- context [if ?b then _ else _] => destruct b
         end.

(** X13: the twelve checks are of three kinds.  Only "Dimensioni Massime",
    "Aspect Ratio" and "Spessore Parete" can have the severity error; the
    reminders "Tolleranze Applicabili", "Filettature" and "Parti
    Concatenate" pass with the severity info on every bundle; the other six
    warn at worst. *)
Theorem check_classes :
  forall data : ModelData,
    Forall (fun r =>
              (severity r = Some error -> In (name r) hardChecks)
              /\ (In (name r) advisoryChecks ->
                  passed r = true /\ severity r = Some info))
           (validateModel data).
Proof.
  intros data. each_check; cbn [severity name passed]; split.
  all: try (split_ifs; intros H; try discriminate H; cbn; now auto).
  all: intros H; try (split; reflexivity);
    exfalso; destruct H as [H|[H|[H|[]]]]; discriminate H.
Qed.

(** X14: a result of severity info has passed; and a result that has passed
    has the severity info, except "Aspect Ratio", which passes with a
    warning between the recommended and the maximum ratio. *)
Theorem passed_and_info :
  forall data : ModelData,
    Forall (fun r =>
              (severity r = Some info -> passed r = true)
              /\ (passed r = true ->
                  severity r = Some info
                  \/ (name r = "Aspect Ratio" /\ severity r = Some warning)))
           (validateModel data).
Proof.
  intros data. each_check; cbn [severity name passed]; split_ifs;
    (split; intros H; try discriminate H; auto).
Qed.

(** X15: "Spessore Parete" has the severity error exactly when the minimum
    thickness is below 1 mm, so a thickness that is NaN or only too large
    is a warning; and a bundle that passes "Oggetti Cavi", a minimum of at
    least 1.2 mm, never has that error. *)
Theorem wall_checks_severity :
  forall data : ModelData,
    exists r8 r11,
      resultNamed "Spessore Parete" (validateModel data) = Some r8
      /\ resultNamed "Oggetti Cavi" (validateModel data) = Some r11
      /\ (severity r8 = Some error
          <-> (minThickness (wallThickness data) <? 1)%float = true)
      /\ (passed r11 = true -> severity r8 <> Some error).
Proof.
  intros data. do 2 eexists.
  split; [reflexivity|]. split; [reflexivity|].
  cbn [severity passed].
  change GUIDELINES.wallThickness.min with 1%float.
  set (m := minThickness (wallThickness data)).
  set (M := maxThickness (wallThickness data)).
  assert (Herr : (if (1 <=? m)%float && (M <=? GUIDELINES.wallThickness.max)%float
                  then Some info
                  else if (m <? 1)%float then Some error else Some warning)
                 = Some error <-> (m <? 1)%float = true).
  { destruct (1 <=? m)%float eqn:Hle.
    - pose proof (leb_ltb_false _ _ Hle) as Hlt. rewrite Hlt.
      destruct (M <=? GUIDELINES.wallThickness.max)%float; cbn;
        split; intros H; discriminate H.
    - cbn [andb]. destruct (m <? 1)%float; split; intros H;
        (reflexivity || discriminate H). }
  assert (Hsev : Some (if (1 <=? m)%float && (M <=? GUIDELINES.wallThickness.max)%float
                       then info
                       else if (m <? 1)%float then error else warning)
                 = (if (1 <=? m)%float && (M <=? GUIDELINES.wallThickness.max)%float
                    then Some info
                    else if (m <? 1)%float then Some error else Some warning)).
  { destruct (_ && _); [reflexivity|]. destruct (m <? 1)%float; reflexivity. }
  rewrite Hsev. split; [exact Herr|].
  intros Hhollow Hsevere. apply Herr in Hsevere.
  apply below_one_below_hollow in Hsevere.
  rewrite (leb_ltb_false _ _ Hhollow) in Hsevere. discriminate Hsevere.
Qed.




(** X17: on what [analyzeEdges] returns for a soup of fewer than 2^53
    points, "Spigoli e Raccordi" passes exactly when the analyzer lists no
    sharp edge and the edge map has no T-junction: one sharp edge fails it
    whatever its radius, and without sharp edges the minimum radius is the
    sentinel 0, which the 2 mm rule for T-junctions never meets.  Its
    message says that there is no sharp edge exactly when none is listed. *)
Theorem edge_check_on_analysis :
  forall (positions : BufferAttribute) (faceNormals : list Vector3.t)
         (data : ModelData),
    (count positions < 2 ^ 53)%N ->
    analyzeEdges positions faceNormals = Ok (edgeAnalysis data) ->
    exists r edgeMap,
      buildEdgeMap positions = Ok edgeMap
      /\ resultNamed "Spigoli e Raccordi" (validateModel data) = Some r
      /\ (passed r = true
          <-> sharpEdgeAngles (edgeAnalysis data) = []
              /\ tJunctionsOf edgeMap = [])
      /\ severity r = Some (if passed r then info else warning)
      /\ (message r = "Nessuno spigolo vivo rilevato"
          <-> sharpEdgeAngles (edgeAnalysis data) = []).
Proof.
  intros positions faceNormals data Hsize H.
  unfold analyzeEdges in H.
  destruct (buildEdgeMap positions) as [edgeMap|e] eqn:Emap; cbn [bind] in H;
    [|discriminate].
  destruct (foldM (scanEdge faceNormals) edgeMap _) as [st|e] eqn:Escan;
    cbn [bind] in H; [|discriminate].
  pose proof (scanEdges_tJunction _ _ _ _ Escan) as Ht.
  apply scanEdges_spec in Escan. destruct Escan as (Hs & Ha & Hm).
  cbn [scan_sharpEdges scan_sharpEdgeAngles scan_tJunctionCount
       scan_minCurvatureRadius app] in *.
  pose proof (buildEdgeMap_length_le _ _ Emap) as Hlen.
  pose proof (sharp_or_tJunction faceNormals edgeMap) as Hsum.
  eexists. exists edgeMap. split; [reflexivity|]. split; [reflexivity|].
  cbn [passed severity message]. injection H as H. rewrite <- H.
  cbn [sharpEdges sharpEdgeAngles tJunctionCount estimatedMinCurvatureRadius].
  rewrite Hs, Ha, Ht, Hm.
  rewrite !numOfN_eqb_zero, numOfN_ltb_zero by lia.
  split; [|split; [reflexivity|]].
  - destruct (sharpEdgesOf faceNormals edgeMap) as [|p sharp].
    + cbn [List.length map fold_left].
      change (infinity =? infinity)%float with true. cbv iota.
      change (0 =? 0)%float with true.
      change (GUIDELINES.minTJunctionRadius <=? 0)%float with false.
      cbn [andb orb]. rewrite orb_false_r.
      destruct (tJunctionsOf edgeMap) as [|j junctions]; cbn;
        split; [auto | auto | discriminate | intros [_ Hj]; discriminate Hj].
    + cbn [List.length map].
      replace ((0 + N.of_nat (S (List.length sharp)) =? 0)%N) with false
        by (symmetry; apply N.eqb_neq; lia).
      cbn [andb]. split; [discriminate | intros [Hn _]; discriminate Hn].
  - destruct (sharpEdgesOf faceNormals edgeMap) as [|p sharp].
    + cbn. split; reflexivity.
    + cbn [List.length map].
      replace ((0 <? 0 + N.of_nat (S (List.length sharp)))%N) with true
        by (symmetry; apply N.ltb_lt; lia).
      split; intros Hn; [cbn in Hn|]; discriminate Hn.
Qed.

(** X18: on what [analyzeCavities] returns for a soup of fewer than 2^53
    points, "Cavit√† e Fori Ciechi" passes exactly when fewer than 10
    triangles face the centre of the box or the one estimated hole depth,
    0.3 times the smallest dimension of the box, is at least the minimum
    cavity width of 0.4: a depth is what it compares with the minimum
    width. *)
Theorem cavity_check_on_analysis :
  forall (positions : BufferAttribute) (faceNormals : list Vector3.t)
         (boundingBox : Box3.t) (data : ModelData),
    (count positions < 2 ^ 53)%N ->
    analyzeCavities positions faceNormals boundingBox
    = Ok (cavityAnalysis data) ->
    exists r,
      resultNamed "Cavit√† e Fori Ciechi" (validateModel data) = Some r
      /\ let size := Box3.getSize boundingBox in
         let concaveRegions :=
           List.length (inwardTriangles positions faceNormals boundingBox) in
         passed r
         = (concaveRegions <? 10)%nat
           || (GUIDELINES.minCavityWidth
               <=? Math_min [Vector3.x size; Vector3.y size; Vector3.z size]
                   * 0.3)%float.
Proof.
  intros positions faceNormals boundingBox data Hsize H.
  eexists. split; [reflexivity|]. cbn [passed]. cbv zeta.
  unfold analyzeCavities in H.
  destruct (buildEdgeMap positions) as [edgeMap|e]; cbn [bind] in H;
    [|discriminate].
  destruct (countConcaveRegions positions faceNormals boundingBox)
    as [c|e] eqn:Ec; cbn [bind] in H; [|discriminate].
  injection H as H. rewrite <- H.
  cbn [potentialCavities estimatedHoleDepths].
  apply countConcaveRegions_spec in Ec.
  pose proof (length_inwardTriangles positions faceNormals boundingBox) as Hl.
  set (k := List.length (inwardTriangles positions faceNormals boundingBox))
    in *.
  clearbody k.
  assert (Hc : (c <= count positions)%N).
  { assert ((count positions + 2) / 3 <= count positions)%N.
    { destruct (N.eq_dec (count positions) 0) as [->|Hne]; [discriminate|].
      apply N.Div0.div_le_upper_bound. lia. }
    lia. }
  assert (Hq : (c / 10 <= c)%N) by (apply N.Div0.div_le_upper_bound; lia).
  rewrite numOfN_eqb_zero by lia.
  assert (Hk : (c / 10 =? 0)%N = (k <? 10)%nat).
  { destruct (Nat.ltb_spec k 10) as [Hlt|Hge].
    - rewrite (N.div_small c 10) by lia. reflexivity.
    - apply N.eqb_neq. apply N.neq_0_lt_0. apply N.div_str_pos. lia. }
  rewrite Hk.
  destruct (0 <? c)%N eqn:Hpos.
  - cbn [List.length Nat.eqb forallb orb]. rewrite andb_true_r. reflexivity.
  - apply N.ltb_ge in Hpos. assert (k = 0%nat) as -> by lia. reflexivity.
Qed.

(** ** The page *)

Lemma analyzeSTLGeometry_throws :
  forall positions : BufferAttribute,
    (count positions mod 3 <> 0)%N ->
    analyzeSTLGeometry positions = Throw TypeError.
Proof.
  intros positions Hmod. unfold analyzeSTLGeometry. cbv zeta.
  rewrite (buildEdgeMap_throws positions Hmod). reflexivity.
Qed.

Lemma filter_length_by_name :
  forall (g : string -> bool) (l : list ValidationResult),
    List.length (filter (fun r => g (name r)) l)
    = List.length (filter g (map name l)).
Proof.
  intros g l. induction l as [|r l IH]; cbn [filter map]; [reflexivity|].
  destruct (g (name r)); cbn [List.length]; rewrite IH; reflexivity.
Qed.

Lemma filter_length_or :
  forall (A : Type) (f g h : A -> bool) (l : list A),
    Forall (fun a => f a = true -> g a = true \/ h a = true) l ->
    (List.length (filter f l)
     <= List.length (filter g l) + List.length (filter h l))%nat.
Proof.
  intros A f g h l H. induction H as [|a l Ha Hl IH]; cbn [filter];
    [cbn; lia|].
  destruct (f a) eqn:Ef; cbn [List.length].
  - destruct (Ha eq_refl) as [->| ->]; destruct (g a), (h a);
      cbn [List.length]; lia.
  - destruct (g a), (h a); cbn [List.length]; lia.
Qed.

(** A result of severity warning has failed, or it is "Aspect Ratio". *)
Lemma warning_failed_or_aspect :
  forall data : ModelData,
    Forall (fun r =>
              match severity r with Some warning => true | _ => false end = true ->
              negb (passed r) = true
              \/ String.eqb (name r) "Aspect Ratio" = true)
           (validateModel data).
Proof.
  intros data. each_check; cbn [severity name passed]; split_ifs;
    intros H; try discriminate H; cbn; auto.
Qed.

Section Page.

Variable toLowerCase : string -> string.

(** X19: when the file cannot be read, or parsing it throws, or the
    position attribute it parses to has a point count that is not a
    multiple of 3, the upload ends with an error message and without the
    loading flag, under the new file name, and with the model and the
    results of the upload before: the page keeps showing them. *)
Theorem failed_upload_keeps_stale_model :
  forall (file : Index.File) (st : Index.State),
    Index.endsWith (toLowerCase (Index.file_name file)) ".stl" = true ->
    uploadFails (Index.file_read file) ->
    let st' := Index.processFile toLowerCase file st in
    Index.modelData st' = Index.modelData st
    /\ Index.validationResults st' = Index.validationResults st
    /\ Index.fileName st' = Index.file_name file
    /\ Index.error st' = failureMessage (Index.file_read file)
    /\ Index.isLoading st' = false.
Proof.
  intros file st Hname Hfails st'. subst st'.
  unfold Index.processFile. rewrite Hname. cbn [negb].
  destruct (Index.file_read file) as [[positions|e]|]; cbn [uploadFails] in Hfails.
  - unfold Index.onload. cbn [bind].
    rewrite (analyzeSTLGeometry_throws positions Hfails). repeat split.
  - repeat split.
  - repeat split.
Qed.

(** X20: the results on the page are those of the model on the page: if
    they are before an upload, whatever the file is and however its reading
    ends, they are after it. *)
Theorem page_results_match_model :
  forall (file : Index.File) (st : Index.State),
    Index.validationResults st = resultsOf (Index.modelData st) ->
    Index.validationResults (Index.processFile toLowerCase file st)
    = resultsOf (Index.modelData (Index.processFile toLowerCase file st)).
Proof.
  intros file st Hst. unfold Index.processFile.
  destruct (negb _); [exact Hst|].
  destruct (Index.file_read file) as [parsed|]; [|exact Hst].
  unfold Index.onload.
  destruct (geometry <- parsed ;; analyzeSTLGeometry geometry) as [data|e];
    [reflexivity | exact Hst].
Qed.

End Page.

(** X21: with the results of [validateModel] on the page, the counter of
    passed checks and the counter shown as errors add up to 12, every check
    that has not passed being counted as an error whatever its severity;
    and the warnings are at most one more than these. *)
Theorem badge_counters :
  forall (data : ModelData) (st : Index.State),
    let st' := Index.setValidationResults (validateModel data) st in
    (Index.passedCount st' + Index.failedCount st' = 12)%nat
    /\ (Index.warningCount st' <= Index.failedCount st' + 1)%nat.
Proof.
  intros data st st'. subst st'.
  unfold Index.passedCount, Index.failedCount, Index.warningCount.
  cbn [Index.setValidationResults Index.validationResults].
  split.
  - rewrite filter_length. reflexivity.
  - pose proof (filter_length_or _ _ _ _ _ (warning_failed_or_aspect data)) as H.
    rewrite (filter_length_by_name (fun n => String.eqb n "Aspect Ratio")) in H.
    change (map name (validateModel data)) with checkNames in H.
    exact H.
Qed.

(** ** The data panel *)

(** X22: [toggleSection] flips the section it is given and no other one;
    and toggling a section the panel has twice gives back the very object
    it started from. *)
Theorem toggleSection_flips_one :
  (forall (section : string) (prev : list (string * bool)),
      DataPanel.isExpanded section (DataPanel.toggleSection section prev)
      = negb (DataPanel.isExpanded section prev))
  /\ (forall (section id : string) (prev : list (string * bool)),
         section <> id ->
         DataPanel.isExpanded id (DataPanel.toggleSection section prev)
         = DataPanel.isExpanded id prev)
  /\ (forall (section : string) (prev : list (string * bool)),
         Map_has section prev = true ->
         DataPanel.toggleSection section (DataPanel.toggleSection section prev)
         = prev).
Proof.
  unfold DataPanel.toggleSection, DataPanel.isExpanded. repeat split.
  - intros section prev. rewrite Map_get_set_same. reflexivity.
  - intros section id prev Hne. rewrite Map_get_set_other by exact Hne.
    reflexivity.
  - intros section prev Hhas. rewrite Map_get_set_same, Map_set_set.
    rewrite negb_involutive. unfold Map_has in Hhas.
    induction prev as [|[k b] prev IH]; cbn [Map_get Map_set] in *;
      [discriminate Hhas|].
    destruct (String.eqb k section); [reflexivity|].
    rewrite (IH Hhas). reflexivity.
Qed.

(** ** The earlier page *)

(** X23: the earlier [validateModel] returns the same fourteen checks for
    every bundle, and only "Dimensioni Massime", "Aspect Ratio" and
    "Spessore Parete (Stima)" can fail; the other eleven are reminders. *)
Theorem earlier_validateModel_checks :
  forall data : PagesIndex.ModelData,
    map PagesIndex.name (PagesIndex.validateModel data) = earlierCheckNames
    /\ Forall (fun r =>
                 PagesIndex.passed r = false ->
                 In (PagesIndex.name r)
                    ["Dimensioni Massime"; "Aspect Ratio";
                     "Spessore Parete (Stima)"])
              (PagesIndex.validateModel data).
Proof.
  intros data. split; [reflexivity|].
  unfold PagesIndex.validateModel.
  repeat (apply Forall_cons || apply Forall_nil);
    cbn [PagesIndex.passed PagesIndex.name];
    intros H; try discriminate H; cbn; auto.
Qed.

Lemma earlier_scan_agrees :
  forall (positions : BufferAttribute) (l : list N) (st : BulkScan)
         (st0 : PagesIndex.BulkScan),
    PagesIndex.scan_volume st0 = scan_volume st ->
    PagesIndex.scan_surfaceArea st0 = scan_surfaceArea st ->
    PagesIndex.scan_volume
      (fold_left (PagesIndex.scanTriangle positions) l st0)
    = scan_volume (fold_left (scanTriangle positions) l st)
    /\ PagesIndex.scan_surfaceArea
         (fold_left (PagesIndex.scanTriangle positions) l st0)
       = scan_surfaceArea (fold_left (scanTriangle positions) l st).
Proof.
  intros positions l. induction l as [|t l IH]; intros st st0 Hv Ha;
    cbn [fold_left].
  - split; assumption.
  - apply IH; cbn [PagesIndex.scanTriangle scanTriangle scan_volume
                   scan_surfaceArea PagesIndex.scan_volume
                   PagesIndex.scan_surfaceArea].
    + rewrite Hv. reflexivity.
    + rewrite Ha. reflexivity.
Qed.

(** X24: whenever the entry point of the page returns a bundle, the entry
    point of the earlier page returns the same geometry, dimensions, box,
    triangle count, volume and surface area, and the two validations agree
    on whether "Dimensioni Massime" and "Aspect Ratio" pass.  The entry
    point of the page throws only on a point count that is not a multiple
    of 3 or when the wall thickness sampler draws an index that is not a
    triangle's; the earlier one never throws. *)
Theorem earlier_analysis_agrees :
  forall positions : BufferAttribute,
    match analyzeSTLGeometry positions with
    | Ok data =>
        let earlier := PagesIndex.analyzeSTLGeometry positions in
        PagesIndex.geometry earlier = geometry data
        /\ PagesIndex.dimensions earlier = dimensions data
        /\ PagesIndex.boundingBox earlier = boundingBox data
        /\ PagesIndex.triangleCount earlier = triangleCount data
        /\ PagesIndex.volume earlier = volume data
        /\ PagesIndex.surfaceArea earlier = surfaceArea data
        /\ forall n : string,
             In n ["Dimensioni Massime"; "Aspect Ratio"] ->
             option_map PagesIndex.passed
               (find (fun r => String.eqb (PagesIndex.name r) n)
                     (PagesIndex.validateModel earlier))
             = option_map passed (resultNamed n (validateModel data))
    | Throw _ =>
        ~ ((count positions mod 3 = 0)%N /\ drawsInRange positions)
    end.
Proof.
  intros positions.
  destruct (analyzeSTLGeometry positions) as [data|e] eqn:E.
  2: { intros [Hmod Hd].
       destruct (analyzeSTLGeometry_returns positions Hmod Hd) as [r Hr].
       congruence. }
  unfold analyzeSTLGeometry in E. cbv zeta in E.
  repeat (apply bind_Ok_inv in E; destruct E as (? & _ & E)).
  injection E as <-. cbv zeta.
  unfold PagesIndex.analyzeSTLGeometry. cbv zeta.
  cbn [PagesIndex.geometry PagesIndex.dimensions PagesIndex.boundingBox
       PagesIndex.triangleCount PagesIndex.volume PagesIndex.surfaceArea
       geometry dimensions boundingBox triangleCount volume surfaceArea].
  destruct (earlier_scan_agrees positions (for_indices (count positions) 1)
              {| scan_volume := 0; scan_surfaceArea := 0;
                 scan_normalSum := Vector3.new 0 0 0 |}
              {| PagesIndex.scan_volume := 0; PagesIndex.scan_surfaceArea := 0 |}
              eq_refl eq_refl) as [Hv Ha].
  rewrite Hv, Ha.
  do 6 (split; [reflexivity|]).
  intros n [<-|[<-|[]]]; reflexivity.
Qed.

Lemma earlier_scan_surfaceArea :
  forall (positions : BufferAttribute) (l : list N) (st : PagesIndex.BulkScan),
    signNotNegative (Prim2SF (PagesIndex.scan_surfaceArea st)) ->
    signNotNegative
      (Prim2SF (PagesIndex.scan_surfaceArea
                  (fold_left (PagesIndex.scanTriangle positions) l st))).
Proof.
  intros positions l. induction l as [|t l IH]; intros st H; cbn [fold_left].
  - exact H.
  - apply IH. cbn [PagesIndex.scanTriangle PagesIndex.scan_surfaceArea].
    apply add_notNegative; [exact H|].
    apply half_notNegative. apply sqrt_notNegative.
Qed.

(** X25: the earlier entry point returns a bundle for every soup, a point
    count that is not a multiple of 3 included, and its volume and surface
    area are never below zero. *)
Theorem earlier_bulk_metrics_not_negative :
  forall positions : BufferAttribute,
    notNegative (PagesIndex.volume (PagesIndex.analyzeSTLGeometry positions))
    /\ notNegative
         (PagesIndex.surfaceArea (PagesIndex.analyzeSTLGeometry positions)).
Proof.
  intros positions. unfold PagesIndex.analyzeSTLGeometry. cbv zeta.
  cbn [PagesIndex.volume PagesIndex.surfaceArea]. split.
  - apply abs_notNegative.
  - apply signNotNegative_ltb. apply earlier_scan_surfaceArea. exact I.
Qed.

End FurtherProperties.

(** * The further properties on the samples, with the reference host *)

(** X8: the two facing plates, in a box of 1 x 1 x 10: the fallback is
    0.1, which is the sample, the minimum and the maximum. *)
Lemma small_mesh_wall_thickness_witness :
  (count Samples.facingPlates < 30)%N
  /\ (0 <? fallbackThickness (computeBoundingBox Samples.facingPlates))%float
     = true
  /\ exists r,
       @analyzeWallThickness Reference.host Samples.facingPlates
         (calculateFaceNormals Samples.facingPlates)
         (computeBoundingBox Samples.facingPlates) = Ok r
       /\ samples r = [0.1%float]
       /\ minThickness r = 0.1%float
       /\ maxThickness r = 0.1%float
       /\ thinAreas r = 1%float.
Proof.
  split; [reflexivity|]. split; [reflexivity|].
  destruct (@small_mesh_wall_thickness Reference.host Samples.facingPlates
              (calculateFaceNormals Samples.facingPlates)
              (computeBoundingBox Samples.facingPlates) eq_refl)
    as (r & Hr & Hs & _ & _ & Ht & Hpos & _).
  destruct (Hpos eq_refl) as [Hmin Hmax].
  exists r. split; [exact Hr|].
  split; [rewrite Hs; vm_compute; reflexivity|].
  split; [rewrite Hmin; vm_compute; reflexivity|].
  split; [rewrite Hmax; vm_compute; reflexivity|].
  rewrite Ht. vm_compute. reflexivity.
Defined.


(** X17: the unit cube has no sharp edge and no T-junction. *)
Lemma edge_check_on_analysis_witness :
  exists data,
    @analyzeSTLGeometry Reference.host (Samples.box 1 1 1) = Ok data
    /\ (count (Samples.box 1 1 1) < 2 ^ 53)%N
    /\ @analyzeEdges Reference.host (Samples.box 1 1 1)
         (calculateFaceNormals (Samples.box 1 1 1))
       = Ok (edgeAnalysis data)
    /\ exists r edgeMap,
         @buildEdgeMap Reference.host (Samples.box 1 1 1) = Ok edgeMap
         /\ resultNamed "Spigoli e Raccordi" (@validateModel Reference.host data)
            = Some r
         /\ (passed r = true
             <-> sharpEdgeAngles (edgeAnalysis data) = []
                 /\ tJunctionsOf edgeMap = [])
         /\ severity r = Some (if passed r then info else warning)
         /\ (message r = "Nessuno spigolo vivo rilevato"
             <-> sharpEdgeAngles (edgeAnalysis data) = []).
Proof.
  eexists.
  split; [vm_compute; reflexivity|].
  split; [vm_compute; reflexivity|].
  split; [vm_compute; reflexivity|].
  apply (@edge_check_on_analysis Reference.host (Samples.box 1 1 1)
           (calculateFaceNormals (Samples.box 1 1 1))).
  - vm_compute; reflexivity.
  - vm_compute; reflexivity.
Defined.

(** X19: the garbled file uploaded after the cube: the page has the name
    of the garbled file and the model of the cube. *)
Lemma failed_upload_keeps_stale_model_witness :
  Index.endsWith (Uploads.toLowerCase (Index.file_name Uploads.garbled)) ".stl"
  = true
  /\ uploadFails (Index.file_read Uploads.garbled)
  /\ (exists data, Index.modelData Uploads.afterCube = Some data)
  /\ Index.modelData
       (@Index.processFile Reference.host Uploads.toLowerCase Uploads.garbled
          Uploads.afterCube)
     = Index.modelData Uploads.afterCube
  /\ Index.validationResults
       (@Index.processFile Reference.host Uploads.toLowerCase Uploads.garbled
          Uploads.afterCube)
     = Index.validationResults Uploads.afterCube
  /\ Index.fileName
       (@Index.processFile Reference.host Uploads.toLowerCase Uploads.garbled
          Uploads.afterCube)
     = "garbled.stl"
  /\ Index.error
       (@Index.processFile Reference.host Uploads.toLowerCase Uploads.garbled
          Uploads.afterCube)
     = "Errore nel parsing del file STL"
  /\ Index.isLoading
       (@Index.processFile Reference.host Uploads.toLowerCase Uploads.garbled
          Uploads.afterCube)
     = false.
Proof.
  split; [reflexivity|].
  split; [exact I|].
  split; [eexists; vm_compute; reflexivity|].
  apply (@failed_upload_keeps_stale_model Reference.host Uploads.toLowerCase
           Uploads.garbled Uploads.afterCube).
  - reflexivity.
  - exact I.
Defined.

(** X20: the cube uploaded into the first state of the page. *)
Lemma page_results_match_model_witness :
  Index.validationResults Index.initial
  = @resultsOf Reference.host (Index.modelData Index.initial)
  /\ Index.validationResults
       (@Index.processFile Reference.host Uploads.toLowerCase Uploads.cube
          Index.initial)
     = @resultsOf Reference.host
         (Index.modelData
            (@Index.processFile Reference.host Uploads.toLowerCase Uploads.cube
               Index.initial)).
Proof.
  split; [reflexivity|].
  apply (@page_results_match_model Reference.host Uploads.toLowerCase
           Uploads.cube Index.initial).
  reflexivity.
Defined.

(** X18: the two facing plates, of which fewer than 10 triangles face the
    centre of the box. *)
Lemma cavity_check_on_analysis_witness :
  exists data,
    @analyzeSTLGeometry Reference.host Samples.facingPlates = Ok data
    /\ (count Samples.facingPlates < 2 ^ 53)%N
    /\ @analyzeCavities Reference.host Samples.facingPlates
         (calculateFaceNormals Samples.facingPlates)
         (computeBoundingBox Samples.facingPlates)
       = Ok (cavityAnalysis data)
    /\ exists r,
         resultNamed "Cavit√† e Fori Ciechi" (@validateModel Reference.host data)
         = Some r
         /\ passed r
            = (List.length
                 (inwardTriangles Samples.facingPlates
                    (calculateFaceNormals Samples.facingPlates)
                    (computeBoundingBox Samples.facingPlates)) <? 10)%nat
              || (GUIDELINES.minCavityWidth
                  <=? Math_min
                        [Vector3.x (Box3.getSize
                                      (computeBoundingBox Samples.facingPlates));
                         Vector3.y (Box3.getSize
                                      (computeBoundingBox Samples.facingPlates));
                         Vector3.z (Box3.getSize
                                      (computeBoundingBox Samples.facingPlates))]
                      * 0.3)%float.
Proof.
  eexists.
  split; [vm_compute; reflexivity|].
  split; [vm_compute; reflexivity|].
  split; [vm_compute; reflexivity|].
  apply (@cavity_check_on_analysis Reference.host Samples.facingPlates
           (calculateFaceNormals Samples.facingPlates)
           (computeBoundingBox Samples.facingPlates)).
  - vm_compute; reflexivity.
  - vm_compute; reflexivity.
Defined.

(** X9: on the shelves the sampler measures 3 and then 2, and returns
    them in ascending order: the minimum is 2 and the maximum is 3. *)
Lemma wall_thickness_extremes_witness :
  exists r,
    @analyzeWallThickness Reference.host Assemblies.shelves
      (calculateFaceNormals Assemblies.shelves)
      (computeBoundingBox Assemblies.shelves) = Ok r
    /\ samples r = [2%float; 3%float]
    /\ Forall measuredThickness (samples r)
    /\ StronglySorted ascending (samples r)
    /\ minThickness r = 2%float
    /\ maxThickness r = 3%float
    /\ ascending (minThickness r) (maxThickness r).
Proof.
  pose proof (@wall_thickness_extremes Reference.host Assemblies.shelves
                (calculateFaceNormals Assemblies.shelves)
                (computeBoundingBox Assemblies.shelves)) as H.
  destruct (@analyzeWallThickness Reference.host Assemblies.shelves
              (calculateFaceNormals Assemblies.shelves)
              (computeBoundingBox Assemblies.shelves)) as [r|e] eqn:E.
  - vm_compute in E. injection E as <-.
    assert (Hall : Forall measuredThickness
                     (samples {| minThickness := 2; maxThickness := 3;
                                 avgThickness := 2.5; samples := [2; 3]%float;
                                 thinAreas := 0 |})).
    { repeat constructor. }
    destruct (H Hall) as (Hs & _ & _ & _ & Hasc & _).
    eexists. split; [reflexivity|]. split; [reflexivity|].
    split; [exact Hall|]. split; [exact Hs|].
    split; [reflexivity|]. split; [reflexivity | exact Hasc].
  - vm_compute in E. discriminate E.
Defined.
